(** * ipfs-to-cdn: a shallow embedding of the migration scripts

    The repository holds four independent command-line scripts:
    - [ipfs-to-cdn-apes-json.py]  (module [ApesJson]),
    - [ipfs-to-cdn-hogs-json.py]  (module [HogsJson]),
    - [ipfs-to-cdn-hogs.py]       (module [Hogs]),
    - [csv-to-json-to-cdn-hog.py] (module [CsvHog]).

    Python values are embedded as follows: [int] is [Z], [str] is [string]
    (a string of bytes; the whitespace and digit classes are the ASCII part
    of Python's), [set] of ints is [gset Z], a CSV row is a [gmap] from
    column names to cells.  Network, clock, log and temporary directory are
    threaded through a state-and-exception monad. *)

From Stdlib Require Import Ascii String ZArith Lia.
From stdpp Require Import base numbers list strings pretty gmap sets.

Open Scope Z_scope.

(** ** Python built-ins used by the scripts *)
Module Py.

(** [str(n)] for an [int]: decimal digits, a leading [-] when negative,
    no padding. *)
Definition str (n : Z) : string := pretty n.

(** The ASCII characters for which [str.isspace] holds; [str.strip()] and
    [int()] remove them at both ends. *)
Definition is_space (c : ascii) : bool :=
  let k := Ascii.N_of_ascii c in
  ((9 <=? k) && (k <=? 13) || (28 <=? k) && (k <=? 32))%N.

Fixpoint lstrip (s : string) : string :=
  match s with
  | "" => ""
  | String c s' => if is_space c then lstrip s' else s
  end.

Fixpoint rstrip (s : string) : string :=
  match s with
  | "" => ""
  | String c s' =>
      match rstrip s' with
      | "" => if is_space c then "" else String c ""
      | r => String c r
      end
  end.

(** [s.strip()] *)
Definition strip (s : string) : string := rstrip (lstrip s).

(** [s.rstrip('/')]-style stripping of one trailing character class. *)
Fixpoint rstrip_char (x : ascii) (s : string) : string :=
  match s with
  | "" => ""
  | String c s' =>
      match rstrip_char x s' with
      | "" => if decide (c = x) then "" else String c ""
      | r => String c r
      end
  end.

(** [s.endswith(suf)] *)
Fixpoint endswith (s suf : string) : bool :=
  if decide (s = suf) then true
  else match s with
       | "" => false
       | String _ s' => endswith s' suf
       end.

(** [x in s] for a one-character string [x]. *)
Fixpoint contains (x : ascii) (s : string) : bool :=
  match s with
  | "" => false
  | String c s' => if decide (c = x) then true else contains x s'
  end.

(** [s.split(x)] for a one-character separator: the list is never empty. *)
Fixpoint split (x : ascii) (s : string) : list string :=
  match s with
  | "" => [""]
  | String c s' =>
      match split x s' with
      | [] => [String c ""]
      | w :: ws => if decide (c = x) then "" :: w :: ws
                   else String c w :: ws
      end
  end.

(** [l[-1]] on a non-empty list (the empty case cannot arise after
    [split]). *)
Definition last_item (l : list string) : string := List.last l "".

Definition digit_of (c : ascii) : option N :=
  let k := Ascii.N_of_ascii c in
  if ((48 <=? k) && (k <=? 57))%N then Some (k - 48)%N else None.

(** The digit part of an [int()] literal in base ten: digits, with single
    underscores allowed between digits.  [prev] records that the previous
    character was a digit. *)
Fixpoint int_digits (s : string) (acc : N) (prev : bool) : option N :=
  match s with
  | "" => if prev then Some acc else None
  | String c s' =>
      if decide (c = "_"%char) then
        if prev then int_digits s' acc false else None
      else
        match digit_of c with
        | Some d => int_digits s' (acc * 10 + d)%N true
        | None => None
        end
  end.

(** [int(s)]: [None] stands for [ValueError]. *)
Definition int (s : string) : option Z :=
  match strip s with
  | String "-" ds => (λ n, - Z.of_N n) <$> int_digits ds 0%N false
  | String "+" ds => Z.of_N <$> int_digits ds 0%N false
  | ds => Z.of_N <$> int_digits ds 0%N false
  end.

Definition hex_digit (n : N) : ascii :=
  match n with
  | 10 => "A" | 11 => "B" | 12 => "C" | 13 => "D" | 14 => "E" | 15 => "F"
  | _ => pretty_N_char n
  end%char%N.

(** Characters [urllib.parse.quote] never escapes (with the default
    [safe='/']). *)
Definition quote_safe (c : ascii) : bool :=
  let k := Ascii.N_of_ascii c in
  ((48 <=? k) && (k <=? 57) || (65 <=? k) && (k <=? 90)
   || (97 <=? k) && (k <=? 122)
   || (k =? 95) || (k =? 46) || (k =? 45) || (k =? 126) || (k =? 47))%N.

(** [urllib.parse.quote(s)] *)
Fixpoint quote (s : string) : string :=
  match s with
  | "" => ""
  | String c s' =>
      if quote_safe c then String c (quote s')
      else
        let k := Ascii.N_of_ascii c in
        String "%" (String (hex_digit (k / 16)) (String (hex_digit (k mod 16))
                   (quote s')))
  end.

End Py.

(** ** Destination keys *)

(** The key layout as the specification words it:
    [key(p, n, e) = p + str(n) + "." + e]. *)
Definition spec_key (p : string) (n : Z) (e : string) : string :=
  p +:+ Py.str n +:+ "." +:+ e.

(** Reading the numeric segment back out of a key whose prefix and
    extension are known: drop the prefix, drop ["." + e], apply [int]. *)
Fixpoint strip_prefix (p s : string) : option string :=
  match p, s with
  | "", _ => Some s
  | String a p', String b s' => if decide (a = b) then strip_prefix p' s' else None
  | String _ _, "" => None
  end.

Fixpoint strip_suffix (suf s : string) : option string :=
  if decide (s = suf) then Some ""
  else match s with
       | "" => None
       | String c s' => String c <$> strip_suffix suf s'
       end.

Definition parse_key (p e key : string) : option Z :=
  rest ← strip_prefix p key;
  num ← strip_suffix ("." +:+ e) rest;
  Py.int num.

(** ** The CSV data model ([csv-to-json-to-cdn-hog.py]) *)

(** A cell of a [csv.DictReader] row: a string, or [None] when the line is
    shorter than the header. *)
Inductive cell :=
  | Text (s : string)
  | PyNone.

(** The value stored under ["edition"]: an [int] when [int()] accepts the
    text, the text otherwise. *)
Inductive edition_value :=
  | EditionInt (n : Z)
  | EditionStr (s : string).

Record attribute := { trait_type : string; value : string }.

Record metadata := {
  md_name : cell;
  md_description : cell;
  md_image : cell;
  md_dna : cell;
  md_edition : edition_value;
  md_date : Z;
  md_creator : cell;
  md_artist : cell;
  md_attributes : list attribute
}.

(** ** HTTP requests as the scripts issue them through [requests.Session] *)

Inductive http_method := GET | PUT | HEAD.

(** What is passed as [data=]: nothing, the bytes of a local file, or
    [json.dumps(doc, indent=2).encode('utf-8')] (kept structured). *)
Inductive payload :=
  | NoBody
  | FileBytes (content : string)
  | JsonBytes (doc : metadata).

Record request := {
  rq_method : http_method;
  rq_url : string;
  rq_headers : list (string * string);
  rq_body : payload;
  rq_timeout : Z
}.

(** Exception classes the scripts distinguish, in the order their [except]
    clauses test them; every class derives from [Exception]. *)
Inductive exn_class :=
  | ExTimeout            (* requests.exceptions.Timeout *)
  | ExConnectionError    (* requests.exceptions.ConnectionError *)
  | ExRequestException   (* any other requests.exceptions.RequestException *)
  | ExTypeError
  | ExRuntimeError
  | ExValueError
  | ExFileNotFound
  | ExOther.

Record exn := { exn_kind : exn_class; exn_text : string }.

(** What a call of [session.get/put/head] does: it returns a response object
    (status code and body text) or raises.  The adapter's transport-level
    retries mounted by [make_session] happen inside the call. *)
Inductive reply :=
  | Response (status_code : Z) (text : string)
  | Raised (e : exn).

(** The remote side (gateways and CDN) is any state machine answering
    requests. *)
Class Network (W : Type) := send : request → W → reply * W.
Global Arguments send : simpl never.

(** ** Program state and the execution monad *)

Inductive channel := Stdout | Stderr | LogInfo | LogWarning | LogError.

Global Instance channel_eq_dec : EqDecision channel.
Proof. solve_decision. Defined.

Inductive event :=
  | Sent (rq : request) (rp : reply)
  | Slept (milliseconds : Z).

Record sys (W : Type) := {
  net : W;                              (* the remote side *)
  trace : list event;                   (* requests and sleeps, oldest first *)
  out : list (channel * string);        (* printed / logged lines, oldest first *)
  tmp_name : string;                    (* the path [tempfile.mkdtemp] returns *)
  tmp : option (gmap string string)     (* files of the temp dir, if it exists *)
}.
Arguments net {W} _.
Arguments trace {W} _.
Arguments out {W} _.
Arguments tmp_name {W} _.
Arguments tmp {W} _.

Inductive result (A : Type) :=
  | Ok (a : A)
  | Err (e : exn).
Arguments Ok {A} _.
Arguments Err {A} _.

Definition M (W A : Type) : Type := sys W → result A * sys W.

Global Instance M_ret {W} : MRet (M W) := λ A a s, (Ok a, s).

Global Instance M_bind {W} : MBind (M W) := λ A B f m s,
  match m s with
  | (Ok a, s') => f a s'
  | (Err e, s') => (Err e, s')
  end.

Definition raise {W A} (e : exn) : M W A := λ s, (Err e, s).

(** [try: m except Exception as e: h e] *)
Definition try_except {W A} (m : M W A) (h : exn → M W A) : M W A := λ s,
  match m s with
  | (Ok a, s') => (Ok a, s')
  | (Err e, s') => h e s'
  end.

Section primitives.
Context {W : Type} {remote : Network W}.

(** The state after one more line on a channel. *)
Definition say (c : channel) (msg : string) (s : sys W) : sys W :=
  {| net := net s; trace := trace s; out := out s ++ [(c, msg)];
     tmp_name := tmp_name s; tmp := tmp s |}.

(** [print(msg)], [print(msg, file=sys.stderr)], [logger.info(msg)], ... *)
Definition emit (c : channel) (msg : string) : M W unit := λ s, (Ok tt, say c msg s).

(** [logging.debug]: dropped, the scripts configure level [INFO]. *)
Definition log_debug (msg : string) : M W unit := mret tt.

(** The state after an event, with the remote side in state [w]. *)
Definition record (e : event) (s : sys W) (w : W) : sys W :=
  {| net := w; trace := trace s ++ [e]; out := out s;
     tmp_name := tmp_name s; tmp := tmp s |}.

(** One call on the session; a raised exception propagates. *)
Definition http (rq : request) : M W (Z * string) := λ s,
  let '(rp, w) := send rq (net s) in
  match rp with
  | Response code body => (Ok (code, body), record (Sent rq rp) s w)
  | Raised e => (Err e, record (Sent rq rp) s w)
  end.

(** [time.sleep]; the duration is kept in milliseconds.  A negative
    duration is rejected with [ValueError]. *)
Definition sleep (ms : Z) : M W unit := λ s,
  if bool_decide (ms < 0) then
    (Err {| exn_kind := ExValueError;
            exn_text := "sleep length must be non-negative" |}, s)
  else (Ok tt, record (Slept ms) s (net s)).

Definition set_tmp (s : sys W) (t : option (gmap string string)) : sys W :=
  {| net := net s; trace := trace s; out := out s;
     tmp_name := tmp_name s; tmp := t |}.

(** [tempfile.mkdtemp(prefix="ipfs_dl_")]: a fresh empty directory. *)
Definition mkdtemp : M W string := λ s, (Ok (tmp_name s), set_tmp s (Some ∅)).

(** The state after [name] was written with [content] (the directory is
    created if need be). *)
Definition stash (name content : string) (s : sys W) : sys W :=
  set_tmp s (Some (<[name := content]> (default ∅ (tmp s)))).

(** [out_file.parent.mkdir(parents=True, exist_ok=True)] followed by writing
    the streamed body to [out_file]. *)
Definition write_file (name content : string) : M W unit := λ s,
  (Ok tt, stash name content s).

(** [open(file_path, "rb")] and reading it. *)
Definition read_file (name : string) : M W string := λ s,
  match tmp s ≫= (.!! name) with
  | Some c => (Ok c, s)
  | None => (Err {| exn_kind := ExFileNotFound; exn_text := name |}, s)
  end.

(** The state after [name] was removed, if it was there. *)
Definition discard (name : string) (s : sys W) : sys W :=
  set_tmp s (delete name <$> tmp s).

(** [local_path.unlink(missing_ok=True)] inside [try ... except: pass]. *)
Definition unlink (name : string) : M W unit := λ s, (Ok tt, discard name s).

(** [shutil.rmtree(tempdir, ignore_errors=True)] *)
Definition rmtree : M W unit := λ s, (Ok tt, set_tmp s None).

End primitives.

(** Loops.  A [for] body says whether the loop goes on. *)
Inductive ctrl := Continue | Break.

(** [for x in l: ...] over loop-carried locals [st], with [break]. *)
Fixpoint for_loop {W A S} (l : list A) (body : A → S → M W (ctrl * S)) (st : S)
  : M W S :=
  match l with
  | [] => mret st
  | x :: l' =>
      r ← body x st;
      match r with
      | (Break, st') => mret st'
      | (Continue, st') => for_loop l' body st'
      end
  end.

(** [for x in l: ...] whose body may [return v] out of the enclosing
    function ([Some v]); [None] means the loop ran to its end. *)
Fixpoint for_return {W A R} (l : list A) (body : A → M W (option R))
  : M W (option R) :=
  match l with
  | [] => mret None
  | x :: l' =>
      r ← body x;
      match r with
      | Some v => mret (Some v)
      | None => for_return l' body
      end
  end.

(** [range(a, b)] *)
Definition range (a b : Z) : list Z := seqZ a (b - a).

(** [range(a, b, step)] for a positive [step]. *)
Definition range_step (a b step : Z) : list Z :=
  (λ i, a + i * step) <$> seqZ 0 ((b - a + step - 1) `div` step).

(** [s[:k]] *)
Definition py_take (k : nat) (s : string) : string := String.substring 0 k s.

(** [v in (200, 201)] *)
Definition is_success (code : Z) : bool := bool_decide (code = 200 ∨ code = 201).

(** [region_host.strip() if region_host else "storage.bunnycdn.com"] *)
Definition storage_base (region_host : option string) : string :=
  match region_host with
  | None | Some "" => "storage.bunnycdn.com"
  | Some h => Py.strip h
  end.

(** The storage API address of an object:
    [f"https://{base}/{quote(storage_zone.strip())}/{dest_key}"] *)
Definition storage_url (storage_zone : string) (region_host : option string)
    (dest_key : string) : string :=
  "https://" +:+ storage_base region_host +:+ "/"
    +:+ Py.quote (Py.strip storage_zone) +:+ "/" +:+ dest_key.

(** [dest_prefix = args.dest_path.strip()], with ["/"] appended when it is
    not empty and does not end with one. *)
Definition normalize_prefix (dest_path : string) : string :=
  let p := Py.strip dest_path in
  if bool_decide (p ≠ "") && negb (Py.endswith p "/") then p +:+ "/" else p.

(** * [ipfs-to-cdn-apes-json.py] *)
Module ApesJson.

Record args := {
  cid : string;
  gateway : string;
  start_number : Z;
  end_number : Z;
  max_missing : Z;
  download_timeout : Z;
  dest_path : string;
  delete_local : bool;
  storage_zone : string;
  access_key : string;
  region_host : option string
}.

(** The loop-carried locals of [main]. *)
Record counters := {
  consecutive_missing : Z;
  found_count : Z;
  uploaded_count : Z;
  errors_upload : Z
}.

(** [consecutive_missing += 1] *)
Definition miss (c : counters) : counters :=
  {| consecutive_missing := consecutive_missing c + 1;
     found_count := found_count c;
     uploaded_count := uploaded_count c;
     errors_upload := errors_upload c |}.

(** [consecutive_missing = 0; found_count += 1] *)
Definition hit (c : counters) : counters :=
  {| consecutive_missing := 0;
     found_count := found_count c + 1;
     uploaded_count := uploaded_count c;
     errors_upload := errors_upload c |}.

(** [uploaded_count += 1] *)
Definition uploaded (c : counters) : counters :=
  {| consecutive_missing := consecutive_missing c;
     found_count := found_count c;
     uploaded_count := uploaded_count c + 1;
     errors_upload := errors_upload c |}.

(** [errors_upload += 1] *)
Definition upload_error (c : counters) : counters :=
  {| consecutive_missing := consecutive_missing c;
     found_count := found_count c;
     uploaded_count := uploaded_count c;
     errors_upload := errors_upload c + 1 |}.

(** How [main] ends: [sys.exit(1)] or a normal return. *)
Inductive outcome :=
  | Exit1
  | Done (c : counters).

Definition filename (n : Z) : string := Py.str n +:+ ".json".

Definition dest_key (dest_prefix : string) (n : Z) : string :=
  dest_prefix +:+ filename n.

Definition source_url (gateway cid : string) (n : Z) : string :=
  Py.rstrip_char "/" gateway +:+ "/ipfs/" +:+ cid +:+ "/" +:+ Py.str n +:+ ".json".

Definition get_request (gateway cid : string) (n timeout : Z) : request :=
  {| rq_method := GET; rq_url := source_url gateway cid n; rq_headers := [];
     rq_body := NoBody; rq_timeout := timeout |}.

Definition put_request (storage_zone access_key : string)
    (region_host : option string) (dest_key content : string) : request :=
  {| rq_method := PUT;
     rq_url := storage_url storage_zone region_host dest_key;
     rq_headers := [("AccessKey", Py.strip access_key);
                    ("Content-Type", "application/octet-stream")];
     rq_body := FileBytes content;
     rq_timeout := 180 |}.

Section program.
Context {W : Type} {remote : Network W}.

Definition download_json (gateway cid : string) (n : Z) (out_file : string)
    (timeout : Z) : M W (bool * Z) :=
  '(code, body) ← http (get_request gateway cid n timeout);
  if bool_decide (code ≠ 200) then mret (false, code)
  else write_file out_file body;; mret (true, 200).

Definition bunny_put (storage_zone access_key : string)
    (region_host : option string) (dest_key file_path : string)
  : M W (bool * Z * string) :=
  content ← read_file file_path;
  '(code, text) ← http (put_request storage_zone access_key region_host dest_key content);
  mret (is_success code, code, py_take 200 text).

(** The body of [for n in range(args.start_number, args.end_number + 1)]. *)
Definition loop_body (a : args) (dest_prefix : string) (n : Z) (c : counters)
  : M W (ctrl * counters) :=
  let local_path := filename n in
  '(ok, code) ← download_json (gateway a) (cid a) n local_path (download_timeout a);
  if negb ok then
    let c := miss c in
    (if bool_decide (n `mod` 25 = 0) then
       emit Stdout ("[" +:+ Py.str n +:+ "] missing (HTTP " +:+ Py.str code
                    +:+ "); miss streak=" +:+ Py.str (consecutive_missing c))
     else mret tt);;
    if bool_decide (max_missing a ≤ consecutive_missing c) then
      emit Stdout ("Stopping at n=" +:+ Py.str n +:+ ": reached "
                   +:+ Py.str (consecutive_missing c) +:+ " consecutive misses.");;
      mret (Break, c)
    else mret (Continue, c)
  else
    let c := hit c in
    let key := dest_key dest_prefix n in
    '(up_ok, up_code, up_text) ←
      bunny_put (storage_zone a) (access_key a) (region_host a) key local_path;
    if (up_ok : bool) then
      emit Stdout ("[" +:+ Py.str n +:+ "] uploaded -> " +:+ key);;
      (if delete_local a then unlink local_path else mret tt);;
      mret (Continue, uploaded c)
    else
      emit Stderr ("[" +:+ Py.str n +:+ "] upload FAILED (HTTP " +:+ Py.str up_code
                   +:+ "): " +:+ up_text);;
      mret (Continue, upload_error c).

Definition summary_line (c : counters) : string :=
  "Done. Found: " +:+ Py.str (found_count c) +:+ ", Uploaded: "
    +:+ Py.str (uploaded_count c) +:+ ", Upload errors: "
    +:+ Py.str (errors_upload c).

(** [main()], from the parsed arguments on.  [KeyboardInterrupt] is an
    asynchronous signal and is not part of the model. *)
Definition main (a : args) : M W outcome :=
  if bool_decide (storage_zone a = "") || bool_decide (access_key a = "") then
    emit Stderr "ERROR: Bunny credentials missing. Set --storage-zone/--access-key or env vars BUNNY_STORAGE_ZONE/BUNNY_ACCESS_KEY.";;
    mret Exit1
  else
    let dest_prefix := normalize_prefix (dest_path a) in
    tempdir ← mkdtemp;
    let total := end_number a - start_number a + 1 in
    emit Stdout ("Single-pass: scanning & uploading " +:+ Py.str total
                 +:+ " candidates: " +:+ gateway a +:+ "/ipfs/" +:+ cid a +:+ "/N.json");;
    emit Stdout ("Stopping after " +:+ Py.str (max_missing a) +:+ " consecutive misses.");;
    c ← for_loop (range (start_number a) (end_number a + 1)) (loop_body a dest_prefix)
          {| consecutive_missing := 0; found_count := 0;
             uploaded_count := 0; errors_upload := 0 |};
    emit Stdout (summary_line c);;
    (if bool_decide (errors_upload c = 0) && delete_local a then
       rmtree;; emit Stdout "Local temp files deleted."
     else emit Stdout ("Local files kept at: " +:+ tempdir));;
    mret (Done c).

End program.
End ApesJson.

(** * [ipfs-to-cdn-hogs-json.py] *)
Module HogsJson.

Record args := {
  cid : string;
  gateway : string;
  start_number : Z;
  end_number : Z;
  max_missing : Z;
  download_timeout : Z;
  dest_path : string;
  delete_local : bool;
  log_file : string;
  skip_cdn_check : bool;
  storage_zone : string;
  access_key : string;
  region_host : option string
}.

Record counters := {
  consecutive_missing : Z;
  found_count : Z;
  uploaded_count : Z;
  skipped_count : Z;
  errors_upload : Z
}.

(** [consecutive_missing += 1] *)
Definition miss (c : counters) : counters :=
  {| consecutive_missing := consecutive_missing c + 1;
     found_count := found_count c;
     uploaded_count := uploaded_count c;
     skipped_count := skipped_count c;
     errors_upload := errors_upload c |}.

(** [consecutive_missing = 0; found_count += 1] *)
Definition hit (c : counters) : counters :=
  {| consecutive_missing := 0;
     found_count := found_count c + 1;
     uploaded_count := uploaded_count c;
     skipped_count := skipped_count c;
     errors_upload := errors_upload c |}.

(** [uploaded_count += 1] *)
Definition uploaded (c : counters) : counters :=
  {| consecutive_missing := consecutive_missing c;
     found_count := found_count c;
     uploaded_count := uploaded_count c + 1;
     skipped_count := skipped_count c;
     errors_upload := errors_upload c |}.

(** [skipped_count += 1] *)
Definition skipped (c : counters) : counters :=
  {| consecutive_missing := consecutive_missing c;
     found_count := found_count c;
     uploaded_count := uploaded_count c;
     skipped_count := skipped_count c + 1;
     errors_upload := errors_upload c |}.

(** [errors_upload += 1] *)
Definition upload_error (c : counters) : counters :=
  {| consecutive_missing := consecutive_missing c;
     found_count := found_count c;
     uploaded_count := uploaded_count c;
     skipped_count := skipped_count c;
     errors_upload := errors_upload c + 1 |}.

Inductive outcome :=
  | Exit1
  | Done (c : counters).

Definition filename (n : Z) : string := Py.str n +:+ ".json".

Definition dest_key (dest_prefix : string) (n : Z) : string :=
  dest_prefix +:+ filename n.

Definition source_url (gateway cid : string) (n : Z) : string :=
  Py.rstrip_char "/" gateway +:+ "/ipfs/" +:+ cid +:+ "/" +:+ Py.str n +:+ ".json".

Definition get_request (gateway cid : string) (n timeout : Z) : request :=
  {| rq_method := GET; rq_url := source_url gateway cid n; rq_headers := [];
     rq_body := NoBody; rq_timeout := timeout |}.

Definition head_request (storage_zone access_key : string)
    (region_host : option string) (dest_key : string) : request :=
  {| rq_method := HEAD;
     rq_url := storage_url storage_zone region_host dest_key;
     rq_headers := [("AccessKey", Py.strip access_key)];
     rq_body := NoBody;
     rq_timeout := 30 |}.

Definition put_request (storage_zone access_key : string)
    (region_host : option string) (dest_key content : string) : request :=
  {| rq_method := PUT;
     rq_url := storage_url storage_zone region_host dest_key;
     rq_headers := [("AccessKey", Py.strip access_key);
                    ("Content-Type", "application/octet-stream")];
     rq_body := FileBytes content;
     rq_timeout := 180 |}.

Section program.
Context {W : Type} {remote : Network W}.

Definition check_file_exists_on_cdn (storage_zone access_key : string)
    (region_host : option string) (dest_key : string) : M W bool :=
  try_except
    ('(code, _) ← http (head_request storage_zone access_key region_host dest_key);
     mret (bool_decide (code = 200)))
    (λ e,
      emit LogWarning ("Error checking CDN for " +:+ dest_key +:+ ": " +:+ exn_text e);;
      mret false).

Definition get_existing_files_on_cdn (storage_zone access_key : string)
    (region_host : option string) (dest_prefix : string) (start_num end_num : Z)
  : M W (gset Z) :=
  let batch_size := 100 in
  for_loop (range_step start_num (end_num + 1) batch_size)
    (λ batch_start existing_files,
      let batch_end := Z.min (batch_start + batch_size - 1) end_num in
      existing_files ←
        for_loop (range batch_start (batch_end + 1))
          (λ n (existing_files : gset Z),
            let key := dest_key dest_prefix n in
            present ← check_file_exists_on_cdn storage_zone access_key region_host key;
            if (present : bool) then
              emit LogInfo ("File " +:+ Py.str n +:+ ".json already exists on CDN");;
              mret (Continue, {[ n ]} ∪ existing_files)
            else mret (Continue, existing_files))
          existing_files;
      sleep 100;;
      mret (Continue, existing_files))
    ∅.

Definition download_json (gateway cid : string) (n : Z) (out_file : string)
    (timeout : Z) : M W (bool * Z) :=
  '(code, body) ← http (get_request gateway cid n timeout);
  if bool_decide (code ≠ 200) then mret (false, code)
  else write_file out_file body;; mret (true, 200).

Definition bunny_put (storage_zone access_key : string)
    (region_host : option string) (dest_key file_path : string)
  : M W (bool * Z * string) :=
  content ← read_file file_path;
  '(code, text) ← http (put_request storage_zone access_key region_host dest_key content);
  mret (is_success code, code, py_take 200 text).

(** The body of [for n in range(args.start_number, args.end_number + 1)]. *)
Definition loop_body (a : args) (dest_prefix : string) (existing_files : gset Z)
    (n : Z) (c : counters) : M W (ctrl * counters) :=
  let local_path := filename n in
  let key := dest_key dest_prefix n in
  if bool_decide (n ∈ existing_files) then
    (if bool_decide (n `mod` 100 = 0) then
       emit LogInfo ("[" +:+ Py.str n +:+ "] skipped (already exists on CDN)")
     else mret tt);;
    mret (Continue, skipped c)
  else
  '(ok, code) ← download_json (gateway a) (cid a) n local_path (download_timeout a);
  if negb ok then
    let c := miss c in
    (if bool_decide (n `mod` 25 = 0) then
       emit LogInfo ("[" +:+ Py.str n +:+ "] missing (HTTP " +:+ Py.str code
                     +:+ "); miss streak=" +:+ Py.str (consecutive_missing c))
     else mret tt);;
    if bool_decide (max_missing a ≤ consecutive_missing c) then
      emit LogWarning ("Stopping at n=" +:+ Py.str n +:+ ": reached "
                       +:+ Py.str (consecutive_missing c) +:+ " consecutive misses.");;
      mret (Break, c)
    else mret (Continue, c)
  else
    let c := hit c in
    '(up_ok, up_code, up_text) ←
      bunny_put (storage_zone a) (access_key a) (region_host a) key local_path;
    if (up_ok : bool) then
      emit LogInfo ("[" +:+ Py.str n +:+ "] uploaded -> " +:+ key);;
      (if delete_local a then unlink local_path else mret tt);;
      mret (Continue, uploaded c)
    else
      emit LogError ("[" +:+ Py.str n +:+ "] upload FAILED (HTTP " +:+ Py.str up_code
                     +:+ "): " +:+ up_text);;
      mret (Continue, upload_error c).

Definition summary_line (c : counters) : string :=
  "Done. Found: " +:+ Py.str (found_count c) +:+ ", Uploaded: "
    +:+ Py.str (uploaded_count c) +:+ ", Skipped: " +:+ Py.str (skipped_count c)
    +:+ ", Upload errors: " +:+ Py.str (errors_upload c).

(** The pre-flight pass of [main]: the set of ids to skip. *)
Definition existing_pass (a : args) (dest_prefix : string) : M W (gset Z) :=
  if skip_cdn_check a then mret ∅
  else
    emit LogInfo "Checking CDN for existing files...";;
    existing_files ← get_existing_files_on_cdn (storage_zone a) (access_key a)
                       (region_host a) dest_prefix (start_number a) (end_number a);
    emit LogInfo ("Found " +:+ Py.str (Z.of_nat (size existing_files))
                  +:+ " existing files on CDN");;
    mret existing_files.

(** The [try:] block of [main]: the scan and the final report. *)
Definition scan (a : args) (dest_prefix tempdir : string) (existing_files : gset Z)
  : M W counters :=
  c ← for_loop (range (start_number a) (end_number a + 1))
        (loop_body a dest_prefix existing_files)
        {| consecutive_missing := 0; found_count := 0; uploaded_count := 0;
           skipped_count := 0; errors_upload := 0 |};
  emit LogInfo (summary_line c);;
  (if bool_decide (errors_upload c = 0) && delete_local a then
     rmtree;; emit LogInfo "Local temp files deleted."
   else emit LogInfo ("Local files kept at: " +:+ tempdir));;
  mret c.

(** [main()], from the parsed arguments on.  [KeyboardInterrupt] is an
    asynchronous signal and is not part of the model; the log file handler
    is the [out] stream. *)
Definition main (a : args) : M W outcome :=
  if bool_decide (storage_zone a = "") || bool_decide (access_key a = "") then
    emit Stderr "ERROR: Bunny credentials missing. Set --storage-zone/--access-key or env vars BUNNY_STORAGE_ZONE/BUNNY_ACCESS_KEY.";;
    mret Exit1
  else
    emit LogInfo "Starting IPFS to CDN upload process";;
    emit LogInfo ("Range: " +:+ Py.str (start_number a) +:+ " to "
                  +:+ Py.str (end_number a));;
    emit LogInfo ("Gateway: " +:+ gateway a);;
    emit LogInfo ("CID: " +:+ cid a);;
    let dest_prefix := normalize_prefix (dest_path a) in
    tempdir ← mkdtemp;
    let total := end_number a - start_number a + 1 in
    emit LogInfo ("Single-pass: scanning & uploading " +:+ Py.str total
                  +:+ " candidates: " +:+ gateway a +:+ "/ipfs/" +:+ cid a +:+ "/N.json");;
    emit LogInfo ("Stopping after " +:+ Py.str (max_missing a) +:+ " consecutive misses.");;
    existing_files ← existing_pass a dest_prefix;
    c ← try_except (scan a dest_prefix tempdir existing_files)
          (λ e, emit LogError ("Unexpected error: " +:+ exn_text e);; raise e);
    mret (Done c).

End program.
End HogsJson.

(** [', '.join(l)] *)
Fixpoint py_join (sep : string) (l : list string) : string :=
  match l with
  | [] => ""
  | [x] => x
  | x :: l' => x +:+ sep +:+ py_join sep l'
  end.

(** * [ipfs-to-cdn-hogs.py] *)
Module Hogs.

Record args := {
  cid : string;
  gateway : string;
  gateways : list string;
  start_number : Z;
  end_number : Z;
  max_missing : Z;
  download_timeout : Z;
  max_retries : Z;
  retry_delay : Z;
  dest_path : string;
  delete_local : bool;
  log_file : string;
  skip_cdn_check : bool;
  resume_from : option Z;
  storage_zone : string;
  access_key : string;
  region_host : option string
}.

Record counters := {
  consecutive_missing : Z;
  found_count : Z;
  uploaded_count : Z;
  skipped_count : Z;
  errors_upload : Z
}.

(** [consecutive_missing += 1] *)
Definition miss (c : counters) : counters :=
  {| consecutive_missing := consecutive_missing c + 1;
     found_count := found_count c;
     uploaded_count := uploaded_count c;
     skipped_count := skipped_count c;
     errors_upload := errors_upload c |}.

(** [consecutive_missing = 0; found_count += 1] *)
Definition hit (c : counters) : counters :=
  {| consecutive_missing := 0;
     found_count := found_count c + 1;
     uploaded_count := uploaded_count c;
     skipped_count := skipped_count c;
     errors_upload := errors_upload c |}.

(** [uploaded_count += 1] *)
Definition uploaded (c : counters) : counters :=
  {| consecutive_missing := consecutive_missing c;
     found_count := found_count c;
     uploaded_count := uploaded_count c + 1;
     skipped_count := skipped_count c;
     errors_upload := errors_upload c |}.

(** [skipped_count += 1] *)
Definition skipped (c : counters) : counters :=
  {| consecutive_missing := consecutive_missing c;
     found_count := found_count c;
     uploaded_count := uploaded_count c;
     skipped_count := skipped_count c + 1;
     errors_upload := errors_upload c |}.

(** [errors_upload += 1] *)
Definition upload_error (c : counters) : counters :=
  {| consecutive_missing := consecutive_missing c;
     found_count := found_count c;
     uploaded_count := uploaded_count c;
     skipped_count := skipped_count c;
     errors_upload := errors_upload c + 1 |}.

Inductive outcome :=
  | Exit1
  | Done (c : counters).

Definition filename (n : Z) : string := Py.str n +:+ ".png".

Definition dest_key (dest_prefix : string) (n : Z) : string :=
  dest_prefix +:+ filename n.

Definition source_url (gateway cid filename : string) : string :=
  Py.rstrip_char "/" gateway +:+ "/ipfs/" +:+ cid +:+ "/" +:+ filename.

Definition get_request (gateway cid filename : string) (timeout : Z) : request :=
  {| rq_method := GET; rq_url := source_url gateway cid filename;
     rq_headers := []; rq_body := NoBody; rq_timeout := timeout |}.

(** The existence check goes to the public read host, without credentials. *)
Definition public_url (dest_key : string) : string :=
  "https://baysed.b-cdn.net/" +:+ dest_key.

Definition head_request (dest_key : string) : request :=
  {| rq_method := HEAD; rq_url := public_url dest_key; rq_headers := [];
     rq_body := NoBody; rq_timeout := 10 |}.

Definition put_request (storage_zone access_key : string)
    (region_host : option string) (dest_key content : string) : request :=
  {| rq_method := PUT;
     rq_url := storage_url storage_zone region_host dest_key;
     rq_headers := [("AccessKey", Py.strip access_key);
                    ("Content-Type", "application/octet-stream")];
     rq_body := FileBytes content;
     rq_timeout := 180 |}.

Section program.
Context {W : Type} {remote : Network W}.

(** [f"{(checked_count / total_files) * 100:.1f}"]: the float formatting of
    the progress line is left abstract. *)
Variable percent_text : Z → Z → string.

Definition check_file_exists_on_cdn (storage_zone access_key : string)
    (region_host : option string) (dest_key : string) : M W bool :=
  try_except
    ('(code, _) ← http (head_request dest_key);
     mret (bool_decide (code = 200)))
    (λ e,
      emit LogWarning ("Error checking CDN for " +:+ dest_key +:+ ": " +:+ exn_text e);;
      mret false).

Definition get_existing_files_on_cdn (storage_zone access_key : string)
    (region_host : option string) (dest_prefix : string) (start_num end_num : Z)
  : M W (gset Z) :=
  let total_files := end_num - start_num + 1 in
  emit LogInfo ("Checking " +:+ Py.str total_files +:+ " files for existence on CDN...");;
  let batch_size := 100 in
  '(existing_files, _) ←
    for_loop (range_step start_num (end_num + 1) batch_size)
      (λ batch_start '(existing_files, checked_count),
        let batch_end := Z.min (batch_start + batch_size - 1) end_num in
        let batch_size_actual := batch_end - batch_start + 1 in
        emit LogInfo ("Checking batch " +:+ Py.str batch_start +:+ "-"
                      +:+ Py.str batch_end +:+ " (" +:+ Py.str batch_size_actual
                      +:+ " files)...");;
        st ←
          for_loop (range batch_start (batch_end + 1))
            (λ n '((existing_files, checked_count) : gset Z * Z),
              let key := dest_key dest_prefix n in
              present ← check_file_exists_on_cdn storage_zone access_key region_host key;
              existing_files ←
                (if (present : bool) then
                   emit LogInfo ("✓ File " +:+ Py.str n +:+ ".png already exists on CDN");;
                   mret ({[ n ]} ∪ existing_files)
                 else mret existing_files);
              let checked_count := checked_count + 1 in
              (if bool_decide (checked_count `mod` 50 = 0) then
                 emit LogInfo ("Progress: " +:+ Py.str checked_count +:+ "/"
                               +:+ Py.str total_files +:+ " files checked ("
                               +:+ percent_text checked_count total_files
                               +:+ "%) - Found "
                               +:+ Py.str (Z.of_nat (size existing_files))
                               +:+ " existing files")
               else mret tt);;
              mret (Continue, (existing_files, checked_count)))
            (existing_files, checked_count);
        sleep 100;;
        mret (Continue, st))
      (∅, 0);
  emit LogInfo ("CDN check complete: " +:+ Py.str (Z.of_nat (size existing_files))
                +:+ " files already exist out of " +:+ Py.str total_files
                +:+ " checked");;
  mret existing_files.

(** One gateway of one attempt: the [try] statement inside the inner loop of
    [download_png].  [Some r] is [return r]; [None] falls through to the next
    gateway. *)
Definition try_gateway (cid filename out_file : string)
    (timeout max_retries attempt : Z) (gateway : string)
  : M W (option (bool * Z)) :=
  try_except
    (log_debug ("Attempt " +:+ Py.str (attempt + 1) +:+ "/" +:+ Py.str max_retries
                +:+ ": Trying " +:+ gateway +:+ " for " +:+ filename);;
     '(code, body) ← http (get_request gateway cid filename timeout);
     if bool_decide (code = 200) then
       write_file out_file body;;
       log_debug ("Successfully downloaded " +:+ filename +:+ " from " +:+ gateway);;
       mret (Some (true, 200))
     else if bool_decide (code = 404) then
       log_debug ("File " +:+ filename +:+ " not found on " +:+ gateway +:+ " (404)");;
       mret (Some (false, 404))
     else
       emit LogWarning ("Gateway " +:+ gateway +:+ " returned " +:+ Py.str code
                        +:+ " for " +:+ filename);;
       mret None)
    (λ e,
      match exn_kind e with
      | ExTimeout =>
          emit LogWarning ("Timeout downloading " +:+ filename +:+ " from " +:+ gateway)
      | ExConnectionError =>
          emit LogWarning ("Connection error downloading " +:+ filename +:+ " from "
                           +:+ gateway +:+ ": " +:+ exn_text e)
      | ExRequestException =>
          emit LogWarning ("Request error downloading " +:+ filename +:+ " from "
                           +:+ gateway +:+ ": " +:+ exn_text e)
      | _ =>
          emit LogError ("Unexpected error downloading " +:+ filename +:+ " from "
                         +:+ gateway +:+ ": " +:+ exn_text e)
      end;;
      mret None).

(** One iteration of [for attempt in range(max_retries)]. *)
Definition attempt_body (gateways : list string) (cid filename out_file : string)
    (timeout max_retries retry_delay attempt : Z) : M W (option (bool * Z)) :=
  r ← for_return gateways
        (try_gateway cid filename out_file timeout max_retries attempt);
  match r with
  | Some v => mret (Some v)
  | None =>
      (if bool_decide (attempt < max_retries - 1) then
         let wait_time := retry_delay * 2 ^ attempt in
         emit LogInfo ("All gateways failed for " +:+ filename +:+ ", waiting "
                       +:+ Py.str wait_time +:+ "s before retry "
                       +:+ Py.str (attempt + 2) +:+ "/" +:+ Py.str max_retries);;
         sleep (wait_time * 1000)
       else mret tt);;
      mret None
  end.

Definition download_png (gateways : list string) (cid : string) (n : Z)
    (out_file : string) (timeout max_retries retry_delay : Z) : M W (bool * Z) :=
  let filename := filename n in
  r ← for_return (range 0 max_retries)
        (attempt_body gateways cid filename out_file timeout max_retries retry_delay);
  match r with
  | Some v => mret v
  | None =>
      emit LogError ("Failed to download " +:+ filename +:+ " after "
                     +:+ Py.str max_retries +:+ " attempts across all gateways");;
      mret (false, 504)
  end.

Definition bunny_put (storage_zone access_key : string)
    (region_host : option string) (dest_key file_path : string)
  : M W (bool * Z * string) :=
  content ← read_file file_path;
  '(code, text) ← http (put_request storage_zone access_key region_host dest_key content);
  mret (is_success code, code, py_take 200 text).

(** The body of [for n in range(start_number, args.end_number + 1)]. *)
Definition loop_body (a : args) (dest_prefix : string) (existing_files : gset Z)
    (n : Z) (c : counters) : M W (ctrl * counters) :=
  let local_path := filename n in
  let key := dest_key dest_prefix n in
  if bool_decide (n ∈ existing_files) then
    (if bool_decide (n `mod` 100 = 0) then
       emit LogInfo ("[" +:+ Py.str n +:+ "] skipped (already exists on CDN)")
     else mret tt);;
    mret (Continue, skipped c)
  else
  '(ok, code) ← download_png (gateways a) (cid a) n local_path (download_timeout a)
                  (max_retries a) (retry_delay a);
  if negb ok then
    let c := miss c in
    (if bool_decide (n `mod` 25 = 0) then
       emit LogInfo ("[" +:+ Py.str n +:+ "] missing (HTTP " +:+ Py.str code
                     +:+ "); miss streak=" +:+ Py.str (consecutive_missing c))
     else mret tt);;
    if bool_decide (max_missing a ≤ consecutive_missing c) then
      emit LogWarning ("Stopping at n=" +:+ Py.str n +:+ ": reached "
                       +:+ Py.str (consecutive_missing c) +:+ " consecutive misses.");;
      mret (Break, c)
    else mret (Continue, c)
  else
    let c := hit c in
    '(up_ok, up_code, up_text) ←
      bunny_put (storage_zone a) (access_key a) (region_host a) key local_path;
    if (up_ok : bool) then
      emit LogInfo ("[" +:+ Py.str n +:+ "] uploaded -> " +:+ key);;
      (if delete_local a then unlink local_path else mret tt);;
      mret (Continue, uploaded c)
    else
      emit LogError ("[" +:+ Py.str n +:+ "] upload FAILED (HTTP " +:+ Py.str up_code
                     +:+ "): " +:+ up_text);;
      mret (Continue, upload_error c).

Definition summary_line (c : counters) : string :=
  "Done. Found: " +:+ Py.str (found_count c) +:+ ", Uploaded: "
    +:+ Py.str (uploaded_count c) +:+ ", Skipped: " +:+ Py.str (skipped_count c)
    +:+ ", Upload errors: " +:+ Py.str (errors_upload c).

(** [args.resume_from if args.resume_from else args.start_number] *)
Definition first_number (a : args) : Z :=
  match resume_from a with
  | Some 0 | None => start_number a
  | Some r => r
  end.

(** [if args.resume_from:] *)
Definition resuming (a : args) : bool :=
  match resume_from a with
  | Some 0 | None => false
  | Some _ => true
  end.

Definition existing_pass (a : args) (dest_prefix : string) (start_number : Z)
  : M W (gset Z) :=
  if skip_cdn_check a then mret ∅
  else
    emit LogInfo "Checking CDN for existing files...";;
    existing_files ← get_existing_files_on_cdn (storage_zone a) (access_key a)
                       (region_host a) dest_prefix start_number (end_number a);
    emit LogInfo ("Found " +:+ Py.str (Z.of_nat (size existing_files))
                  +:+ " existing files on CDN");;
    mret existing_files.

Definition scan (a : args) (dest_prefix tempdir : string) (start_number : Z)
    (existing_files : gset Z) : M W counters :=
  c ← for_loop (range start_number (end_number a + 1))
        (loop_body a dest_prefix existing_files)
        {| consecutive_missing := 0; found_count := 0; uploaded_count := 0;
           skipped_count := 0; errors_upload := 0 |};
  emit LogInfo (summary_line c);;
  (if bool_decide (errors_upload c = 0) && delete_local a then
     rmtree;; emit LogInfo "Local temp files deleted."
   else emit LogInfo ("Local files kept at: " +:+ tempdir));;
  mret c.

(** [main()], from the parsed arguments on ([KeyboardInterrupt] apart). *)
Definition main (a : args) : M W outcome :=
  if bool_decide (storage_zone a = "") || bool_decide (access_key a = "") then
    emit Stderr "ERROR: Bunny credentials missing. Set --storage-zone/--access-key or env vars BUNNY_STORAGE_ZONE/BUNNY_ACCESS_KEY.";;
    mret Exit1
  else
    emit LogInfo "Starting IPFS to CDN upload process";;
    let start_number := first_number a in
    (if resuming a then
       emit LogInfo ("Resuming from number " +:+ Py.str start_number
                     +:+ " (original range was " +:+ Py.str (Hogs.start_number a)
                     +:+ " to " +:+ Py.str (end_number a) +:+ ")")
     else mret tt);;
    emit LogInfo ("Range: " +:+ Py.str start_number +:+ " to " +:+ Py.str (end_number a));;
    emit LogInfo ("Gateways: " +:+ py_join ", " (gateways a));;
    emit LogInfo ("CID: " +:+ cid a);;
    emit LogInfo ("Max retries per file: " +:+ Py.str (max_retries a));;
    emit LogInfo ("Retry delay: " +:+ Py.str (retry_delay a) +:+ "s");;
    let dest_prefix := normalize_prefix (dest_path a) in
    tempdir ← mkdtemp;
    let total := end_number a - start_number + 1 in
    first_gateway ←
      match gateways a with
      | g :: _ => mret g
      | [] => raise {| exn_kind := ExOther; exn_text := "list index out of range" |}
      end;
    emit LogInfo ("Single-pass: scanning & uploading " +:+ Py.str total
                  +:+ " candidates: " +:+ first_gateway +:+ "/ipfs/" +:+ cid a
                  +:+ "/N.png");;
    emit LogInfo ("Stopping after " +:+ Py.str (max_missing a) +:+ " consecutive misses.");;
    existing_files ← existing_pass a dest_prefix start_number;
    c ← try_except (scan a dest_prefix tempdir start_number existing_files)
          (λ e, emit LogError ("Unexpected error: " +:+ exn_text e);; raise e);
    mret (Done c).

End program.
End Hogs.

(** [l[i:j]] with Python's treatment of negative and out-of-range bounds. *)
Definition py_slice {A} (i j : Z) (l : list A) : list A :=
  let len := Z.of_nat (length l) in
  let clamp k := if bool_decide (k < 0) then Z.max (k + len) 0 else Z.min k len in
  let i' := clamp i in
  let j' := clamp j in
  take (Z.to_nat (j' - i')) (drop (Z.to_nat i') l).

(** The newline character of the ["\n..."] messages. *)
Definition nl : string := String (Ascii.ascii_of_nat 10) "".

(** * [csv-to-json-to-cdn-hog.py] *)
Module CsvHog.

(** A row as [csv.DictReader] yields it. *)
Abbreviation row := (gmap string cell).

(** [row.get(key, default)] *)
Definition row_get (r : row) (key : string) (default : cell) : cell :=
  match r !! key with
  | Some v => v
  | None => default
  end.

(** [str(v)] of a cell *)
Definition cell_str (v : cell) : string :=
  match v with
  | Text s => s
  | PyNone => "None"
  end.

(** ["#" in name]: a [TypeError] when [name] is [None]. *)
Definition has_hash (name : cell) : result bool :=
  match name with
  | Text s => Ok (Py.contains "#" s)
  | PyNone => Err {| exn_kind := ExTypeError;
                     exn_text := "argument of type 'NoneType' is not iterable" |}
  end.

(** [name.split("#")[-1].strip()] *)
Definition after_hash (s : string) : string :=
  Py.strip (Py.last_item (Py.split "#" s)).

Definition attribute_mapping : list (string * string) :=
  [("Attribute Background", "Background");
   ("Attribute Body", "Body");
   ("Attribute Headwear", "Headwear");
   ("Attribute Eyes", "Eyes");
   ("Attribute Clothing", "Clothing");
   ("Attribute Mouth", "Mouth");
   ("Attribute Tusks", "Tusks")].

Definition extract_attributes_from_row (r : row) : list attribute :=
  omap (λ '(csv_col, trait),
          match r !! csv_col with
          | Some (Text v) =>
              if bool_decide (v ≠ "") && bool_decide (Py.strip v ≠ "")
              then Some {| trait_type := trait; value := Py.strip v |}
              else None
          | _ => None
          end)
       attribute_mapping.

Definition create_metadata_json (r : row) : result metadata :=
  let name := row_get r "Name" (Text "") in
  match has_hash name with
  | Err e => Err e
  | Ok hashed =>
      let edition :=
        if hashed then
          let edition_str := after_hash (cell_str name) in
          match Py.int edition_str with
          | Some n => EditionInt n
          | None => EditionStr edition_str
          end
        else EditionStr "unknown" in
      Ok {| md_name := name;
            md_description :=
              row_get r "Description"
                (Text "The HOGs are a collection of 8888 unique HOG NFTs living on the XRP ledger.");
            md_image := row_get r "Image" (Text "");
            md_dna := row_get r "Dna" (Text "");
            md_edition := edition;
            md_date := 1674756786096;
            md_creator := row_get r "Creator" (Text "Bored Apes XRP Club");
            md_artist := row_get r "Artist" (Text "Bored Apes XRP Club");
            md_attributes := extract_attributes_from_row r |}
  end.

(** The text used for the file name, as [process_nft_row] derives it from
    the metadata and, failing that, from the [Name] field again. *)
Definition edition_text (r : row) (md : metadata) : result string :=
  match md_edition md with
  | EditionInt n => Ok (Py.str n)
  | EditionStr s =>
      if bool_decide (s = "") || bool_decide (s = "unknown") then
        let name := row_get r "Name" (Text "") in
        match has_hash name with
        | Err e => Err e
        | Ok true => Ok (after_hash (cell_str name))
        | Ok false => Ok "unknown"
        end
      else Ok s
  end.

Record args := {
  csv_file : string;
  dest_path : string;
  concurrency : Z;
  timeout : Z;
  storage_zone : string;
  access_key : string;
  region_host : option string;
  start_row : Z;
  max_rows : option Z;
  dry_run : bool
}.

(** The tallies of [main]. *)
Record tally := {
  success_count : Z;
  error_count : Z;
  errors : list string
}.

(** How [main] ends: [sys.exit(1)], one of the two early [return]s, or the
    report after the upload. *)
Inductive outcome :=
  | Exit1
  | NothingToDo
  | DryRun
  | Done (t : tally).

(** [end_idx]: [len(rows)], or [min(start_idx + args.max_rows, len(rows))]
    when [args.max_rows] is given and not zero. *)
Definition end_index (a : args) (rows : list row) : Z :=
  let len := Z.of_nat (length rows) in
  match max_rows a with
  | Some 0 | None => len
  | Some m => Z.min (start_row a + m) len
  end.

Definition put_request (storage_zone access_key : string)
    (region_host : option string) (dest_key : string) (json_data : metadata)
  : request :=
  {| rq_method := PUT;
     rq_url := storage_url storage_zone region_host dest_key;
     rq_headers := [("AccessKey", Py.strip access_key);
                    ("Content-Type", "application/json")];
     rq_body := JsonBytes json_data;
     rq_timeout := 180 |}.

Section program.
Context {W : Type} {remote : Network W}.

Definition lift {A} (r : result A) : M W A :=
  match r with
  | Ok a => mret a
  | Err e => raise e
  end.

Definition bunny_put_json (storage_zone access_key : string)
    (region_host : option string) (dest_key : string) (json_data : metadata)
  : M W bool :=
  '(code, text) ← http (put_request storage_zone access_key region_host dest_key json_data);
  if negb (is_success code) then
    raise {| exn_kind := ExRuntimeError;
             exn_text := "Bunny upload failed (" +:+ Py.str code +:+ "): "
                         +:+ py_take 200 text |}
  else mret true.

(** Returns [(success, identifier, error)]. *)
Definition process_nft_row (r : row) (storage_zone access_key : string)
    (region_host : option string) (dest_prefix : string)
  : M W (bool * cell * option string) :=
  try_except
    (md ← lift (create_metadata_json r);
     edition_str ← lift (edition_text r md);
     let dest_key := dest_prefix +:+ edition_str +:+ ".json" in
     bunny_put_json storage_zone access_key region_host dest_key md;;
     mret (true, Text edition_str, None))
    (λ e, mret (false, row_get r "Name" (Text "unknown"), Some (exn_text e))).

(** The body of [for future in as_completed(futures)], on the value
    [future.result()] produces. *)
Definition collect (t : tally) (res : result (bool * cell * option string)) : tally :=
  match res with
  | Ok (true, _, _) =>
      {| success_count := success_count t + 1; error_count := error_count t;
         errors := errors t |}
  | Ok (false, identifier, error) =>
      {| success_count := success_count t; error_count := error_count t + 1;
         errors := errors t ++ [cell_str identifier +:+ ": "
                                +:+ from_option id "None" error] |}
  | Err e =>
      {| success_count := success_count t; error_count := error_count t + 1;
         errors := errors t ++ ["Unknown: " +:+ exn_text e] |}
  end.

(** The worker pool.  Every task issues exactly one request or none, so a
    pooled execution is the tasks run one after the other in the order
    [schedule] lets them reach the network. *)
Fixpoint run_pool (schedule : list row) (storage_zone access_key : string)
    (region_host : option string) (dest_prefix : string)
  : M W (list (result (bool * cell * option string))) :=
  match schedule with
  | [] => mret []
  | r :: rest =>
      res ← process_nft_row r storage_zone access_key region_host dest_prefix;
      others ← run_pool rest storage_zone access_key region_host dest_prefix;
      mret (Ok res :: others)
  end.

(** [for i, row in enumerate(rows_to_process[:3])] of the dry run. *)
Fixpoint dry_run_sample (start_idx : Z) (i : Z) (rows : list row) : M W unit :=
  match rows with
  | [] => mret tt
  | r :: rest =>
      md ← lift (create_metadata_json r);
      let edition := match md_edition md with
                     | EditionInt n => Py.str n
                     | EditionStr s => s
                     end in
      emit Stdout ("Row " +:+ Py.str (start_idx + i) +:+ ": "
                   +:+ cell_str (row_get r "Name" (Text "Unknown"))
                   +:+ " -> " +:+ edition +:+ ".json");;
      dry_run_sample start_idx (i + 1) rest
  end.

Definition print_results (t : tally) : M W unit :=
  emit Stdout (nl +:+ "Processing complete!");;
  emit Stdout ("Successfully uploaded: " +:+ Py.str (success_count t));;
  emit Stdout ("Errors: " +:+ Py.str (error_count t));;
  if bool_decide (errors t ≠ []) then
    emit Stdout (nl +:+ "First 10 errors:");;
    for_loop (take 10 (errors t))
      (λ error (_ : unit), emit Stdout ("  - " +:+ error);; mret (Continue, tt)) tt;;
    if bool_decide (10 < Z.of_nat (length (errors t))) then
      emit Stdout ("  ... and " +:+ Py.str (Z.of_nat (length (errors t)) - 10)
                   +:+ " more errors")
    else mret tt
  else mret tt.

(** [main()], from the parsed arguments on.  [file] is what the file system
    holds at [args.csv_file]: nothing, or the outcome of reading it with
    [csv.DictReader].  [schedule] and [completion] are the orders in which
    the pool starts the tasks and hands back their results; the progress
    bar is not modelled. *)
Definition main (a : args) (file : option (result (list row)))
    (schedule : list row → list row)
    (completion : list (result (bool * cell * option string))
                  → list (result (bool * cell * option string)))
  : M W outcome :=
  if bool_decide (storage_zone a = "") || bool_decide (access_key a = "") then
    emit Stderr "ERROR: Bunny credentials missing. Set --storage-zone/--access-key or env vars BUNNY_STORAGE_ZONE/BUNNY_ACCESS_KEY.";;
    mret Exit1
  else
  match file with
  | None =>
      emit Stderr ("ERROR: CSV file not found: " +:+ csv_file a);;
      mret Exit1
  | Some content =>
      let dest_prefix := normalize_prefix (dest_path a) in
      emit Stdout ("Processing CSV file: " +:+ csv_file a);;
      emit Stdout ("Destination CDN path: " +:+ dest_prefix);;
      emit Stdout ("Concurrency: " +:+ Py.str (concurrency a));;
      (if dry_run a then emit Stdout "DRY RUN MODE - No files will be uploaded"
       else mret tt);;
      match content with
      | Err e =>
          emit Stderr ("ERROR: Failed to read CSV file: " +:+ exn_text e);;
          mret Exit1
      | Ok rows =>
          let len := Z.of_nat (length rows) in
          emit Stdout ("Found " +:+ Py.str len +:+ " rows in CSV file");;
          let start_idx := start_row a in
          let end_idx := end_index a rows in
          let rows_to_process := py_slice start_idx end_idx rows in
          emit Stdout ("Processing rows " +:+ Py.str start_idx +:+ " to "
                       +:+ Py.str (end_idx - 1) +:+ " ("
                       +:+ Py.str (Z.of_nat (length rows_to_process)) +:+ " rows)");;
          if bool_decide (rows_to_process = []) then
            emit Stdout "No rows to process.";; mret NothingToDo
          else if dry_run a then
            emit Stdout (nl +:+ "Sample of first 3 rows that would be processed:");;
            dry_run_sample start_idx 0 (take 3 rows_to_process);;
            mret DryRun
          else
            emit Stdout (nl +:+ "Starting upload of "
                         +:+ Py.str (Z.of_nat (length rows_to_process))
                         +:+ " JSON files...");;
            results ← run_pool (schedule rows_to_process) (storage_zone a)
                        (access_key a) (region_host a) dest_prefix;
            let t := foldl collect
                       {| success_count := 0; error_count := 0; errors := [] |}
                       (completion results) in
            print_results t;;
            mret (Done t)
      end
  end.

End program.
End CsvHog.

(** * Remote sides used in the scenarios *)

(** A remote side without memory: every request is answered from a fixed
    table. *)
Record table := { answer : request → reply }.

(** The remote side that answers from [t]; it has no state of its own. *)
Definition table_network (t : table) : Network unit := λ rq w, (answer t rq, w).

(** A start state: nothing sent, nothing printed, no temp dir yet. *)
Definition boot {W} (w : W) : sys W :=
  {| net := w; trace := []; out := []; tmp_name := "/tmp/ipfs_dl_0"; tmp := None |}.

(** Whether [msg] was written on channel [c]. *)
Definition printed {W} (c : channel) (msg : string) (s : sys W) : bool :=
  bool_decide ((c, msg) ∈ out s).

(** The requests of a trace, in order. *)
Definition requests (tr : list event) : list request :=
  omap (λ ev, match ev with Sent rq _ => Some rq | Slept _ => None end) tr.

(** The ids of the [N.json] documents a trace asked a gateway for. *)
Definition fetched_ids (prefix : string) (tr : list event) : list Z :=
  omap (λ rq, match rq_method rq with
              | GET => parse_key prefix "json" (rq_url rq)
              | _ => None
              end) (requests tr).

Definition apes_args (s e mm : Z) : ApesJson.args :=
  {| ApesJson.cid := "CID"; ApesJson.gateway := "https://ipfs.io/";
     ApesJson.start_number := s; ApesJson.end_number := e;
     ApesJson.max_missing := mm; ApesJson.download_timeout := 180;
     ApesJson.dest_path := "ape_jsons"; ApesJson.delete_local := true;
     ApesJson.storage_zone := "zone"; ApesJson.access_key := "key";
     ApesJson.region_host := None |}.

(** A gateway serving the documents below [k] under [src] (200 on their
    GET, 404 from [k] on), and a storage zone at [dst] where nothing is
    present yet (404 on HEAD) and where a PUT is answered 500 for the ids
    in [bad] and 201 otherwise. *)
Definition dense_prefix_at (src dst : string) (k : Z) (bad : list Z) : table :=
  {| answer rq :=
       match rq_method rq with
       | GET =>
           match parse_key src "json" (rq_url rq) with
           | Some n => if bool_decide (n < k) then Response 200 "{}"
                       else Response 404 "not found"
           | None => Response 400 "bad request"
           end
       | PUT =>
           match parse_key dst "json" (rq_url rq) with
           | Some n => if bool_decide (n ∈ bad) then Response 500 "Internal Server Error"
                       else Response 201 "created"
           | None => Response 400 "bad request"
           end
       | HEAD => Response 404 ""
       end |}.

(** The one [apes_args] talks to. *)
Definition dense_prefix (k : Z) (bad : list Z) : table :=
  dense_prefix_at "https://ipfs.io/ipfs/CID/"
    "https://storage.bunnycdn.com/zone/ape_jsons/" k bad.

(** The one [hogsjson_args] talks to. *)
Definition hog_dense_prefix (k : Z) (bad : list Z) : table :=
  dense_prefix_at "https://ipfs.io/ipfs/CID/"
    "https://storage.bunnycdn.com/zone/hog_jsons/" k bad.

Definition hogsjson_args (s e mm : Z) : HogsJson.args :=
  {| HogsJson.cid := "CID"; HogsJson.gateway := "https://ipfs.io";
     HogsJson.start_number := s; HogsJson.end_number := e;
     HogsJson.max_missing := mm; HogsJson.download_timeout := 180;
     HogsJson.dest_path := "hog_jsons/"; HogsJson.delete_local := true;
     HogsJson.log_file := "ipfs-to-cdn-hogs.log"; HogsJson.skip_cdn_check := false;
     HogsJson.storage_zone := "zone"; HogsJson.access_key := "key";
     HogsJson.region_host := None |}.

(** The gateway has nothing (404 on every GET); the CDN already holds the
    documents [on_cdn] (200 on their HEAD, 404 on the others) and accepts
    uploads. *)
Definition empty_source (on_cdn : list Z) : table :=
  {| answer rq :=
       match rq_method rq with
       | GET => Response 404 "not found"
       | HEAD =>
           match parse_key "https://storage.bunnycdn.com/zone/hog_jsons/" "json"
                   (rq_url rq) with
           | Some n => if bool_decide (n ∈ on_cdn) then Response 200 ""
                       else Response 404 ""
           | None => Response 400 "bad request"
           end
       | PUT => Response 201 "created"
       end |}.

(** Every gateway times out. *)
Definition all_timeouts : table :=
  {| answer rq := Raised {| exn_kind := ExTimeout; exn_text := "Read timed out." |} |}.

(** The gateway [https://ipfs.io] answers 502, every other one 404. *)
Definition bad_gateway_then_404 : table :=
  {| answer rq :=
       match strip_prefix "https://ipfs.io/" (rq_url rq) with
       | Some _ => Response 502 "Bad Gateway"
       | None => Response 404 "Not Found"
       end |}.

(** [DEFAULT_GATEWAYS] of [ipfs-to-cdn-hogs.py] *)
Definition DEFAULT_GATEWAYS : list string :=
  ["https://ipfs.io"; "https://gateway.pinata.cloud"; "https://dweb.link"].

(** A storage zone that keeps what it accepts, behind the gateways of
    [gateway]: its state is the set of addresses it holds.  A PUT is
    refused with 500 at the addresses [rejects] picks and stored otherwise;
    a HEAD is answered 200 exactly for the addresses held. *)
Definition bucket_network (gateway : table) (rejects : string → bool)
  : Network (gset string) := λ rq held,
  match rq_method rq with
  | GET => (answer gateway rq, held)
  | HEAD => (if bool_decide (rq_url rq ∈ held) then Response 200 ""
             else Response 404 "", held)
  | PUT => if rejects (rq_url rq)
           then (Response 500 "Internal Server Error", held)
           else (Response 201 "created", {[ rq_url rq ]} ∪ held)
  end.

(** The zone of the scenarios: it refuses [hog_jsons/5.json]. *)
Definition picky_bucket : Network (gset string) :=
  bucket_network (hog_dense_prefix 11 [])
    (λ u, bool_decide (u = "https://storage.bunnycdn.com/zone/hog_jsons/5.json")).

(** The addresses of the PUT requests of a trace. *)
Definition put_urls (tr : list event) : list string :=
  omap (λ rq, match rq_method rq with PUT => Some (rq_url rq) | _ => None end)
       (requests tr).

(** * Vocabulary of the statements *)

Section vocabulary.
Context {W : Type} {remote : Network W}.

(** The remote side answers [rq] with status 200, in whatever state. *)
Definition always_hits (rq : request) : Prop :=
  ∀ w, ∃ body w', send rq w = (Response 200 body, w').

(** The remote side answers [rq] with a status other than 200. *)
Definition always_misses (rq : request) : Prop :=
  ∀ w, ∃ code body w', send rq w = (Response code body, w') ∧ code ≠ 200.

(** Requests of method [m] always get a response: the session never raises
    on them. *)
Definition answers (m : http_method) : Prop :=
  ∀ rq w, rq_method rq = m → ∃ code text w', send rq w = (Response code text, w').

(** The destination keeps what it accepted: [stored u w] says that the
    object at address [u] is held in state [w].  A PUT answered 200/201
    stores the object, no request removes an object, and a HEAD for a
    stored object is answered 200. *)
Definition retains (stored : string → W → Prop) : Prop :=
  (∀ rq w code text w',
     rq_method rq = PUT → send rq w = (Response code text, w') →
     is_success code = true → stored (rq_url rq) w')
  ∧ (∀ rq w u, stored u w → stored u (send rq w).2)
  ∧ (∀ rq w, rq_method rq = HEAD → stored (rq_url rq) w →
             ∃ text w', send rq w = (Response 200 text, w')).

(** Every upload the trace records as accepted is held by the remote
    side. *)
Definition settled (stored : string → W → Prop) (s : sys W) : Prop :=
  ∀ rq code text,
    Sent rq (Response code text) ∈ trace s → rq_method rq = PUT →
    is_success code = true → stored (rq_url rq) (net s).

End vocabulary.

(** Events of the pre-flight pass: HEAD requests and pauses. *)
Definition preflight_event (ev : event) : Prop :=
  match ev with
  | Sent rq _ => rq_method rq = HEAD
  | Slept _ => True
  end.

(** An upload of the trace that failed: a PUT for id [m] with the bytes
    [content], answered with a status other than 200 and 201. *)
Definition failed_upload (a : HogsJson.args) (p : string) (evs : list event)
    (m : Z) (content : string) : Prop :=
  ∃ code text,
    Sent (HogsJson.put_request (HogsJson.storage_zone a) (HogsJson.access_key a)
            (HogsJson.region_host a) (HogsJson.dest_key p m) content) (Response code text) ∈ evs
    ∧ is_success code = false.

(** A request that is neither the download nor an upload of id [n]. *)
Definition spares (a : HogsJson.args) (p : string) (n : Z) (ev : event) : Prop :=
  ∀ rq rp, ev = Sent rq rp →
    rq ≠ HogsJson.get_request (HogsJson.gateway a) (HogsJson.cid a) n
           (HogsJson.download_timeout a)
    ∧ ∀ content, rq ≠ HogsJson.put_request (HogsJson.storage_zone a)
                        (HogsJson.access_key a) (HogsJson.region_host a)
                        (HogsJson.dest_key p n) content.

(** A reply after which [download_png] goes on to the next gateway: an
    exception, or a status other than 200 and 404. *)
Definition transient (rp : reply) : Prop :=
  match rp with
  | Response code _ => code ≠ 200 ∧ code ≠ 404
  | Raised _ => True
  end.

(** No request of [evs] was answered 404. *)
Definition no_404 (evs : list event) : Prop :=
  Forall (λ ev, ∀ rq b, ev ≠ Sent rq (Response 404 b)) evs.

(** A trace without the replies: the requests and the pauses. *)
Definition shape (evs : list event) : list (request + Z) :=
  (λ ev, match ev with Sent rq _ => inl rq | Slept ms => inr ms end) <$> evs.

(** What [download_png] does when no gateway ever has the file: in each of
    the [max_retries] attempts every gateway in turn, and between two
    attempts a pause of [retry_delay * 2 ** attempt] seconds. *)
Definition retry_plan (gateways : list string) (cid : string) (n timeout : Z)
    (max_retries retry_delay : Z) : list (request + Z) :=
  attempt ← range 0 max_retries;
  ((λ g, inl (Hogs.get_request g cid (Hogs.filename n) timeout)) <$> gateways)
  ++ (if bool_decide (attempt < max_retries - 1)
      then [inr (retry_delay * 2 ^ attempt * 1000)] else []).

(** The address prefix under which a gateway serves the documents of [cid]. *)
Definition source_prefix (gateway cid : string) : string :=
  Py.rstrip_char "/" gateway +:+ "/ipfs/" +:+ cid +:+ "/".

(** No character of [s] is white space. *)
Fixpoint clean (s : string) : bool :=
  match s with
  | "" => true
  | String c s' => negb (Py.is_space c) && clean s'
  end.

(** * Vocabulary of the further properties *)

(** ** Reading a trace *)

Global Instance http_method_eq_dec : EqDecision http_method.
Proof. solve_decision. Defined.

(** The exception a request ended with, if it did. *)
Definition raised (ev : event) : option exn :=
  match ev with
  | Sent _ (Raised e) => Some e
  | _ => None
  end.

(** Whether a reply is a response whose status satisfies [ok]. *)
Definition status_in (ok : Z → bool) (rp : reply) : bool :=
  match rp with
  | Response code _ => ok code
  | Raised _ => false
  end.

(** The number of requests of method [m] in a trace whose reply satisfies
    [good]. *)
Definition count_replies (m : http_method) (good : reply → bool) (tr : list event) : Z :=
  Z.of_nat (length (List.filter
    (λ ev, match ev with
           | Sent rq rp => bool_decide (rq_method rq = m) && good rp
           | Slept _ => false
           end) tr)).

(** Downloads that delivered a file, uploads the storage side accepted, and
    uploads it answered with another status. *)
Definition downloads (tr : list event) : Z :=
  count_replies GET (status_in (λ code, bool_decide (code = 200))) tr.

Definition uploads_accepted (tr : list event) : Z :=
  count_replies PUT (status_in is_success) tr.

Definition uploads_refused (tr : list event) : Z :=
  count_replies PUT (status_in (λ code, negb (is_success code))) tr.

(** The first character of a printed line. *)
Definition head_char (s : string) : option ascii :=
  match s with
  | String c _ => Some c
  | "" => None
  end.

(** The download and the upload request of id [n] in
    [ipfs-to-cdn-apes-json.py]. *)
Definition apes_get (a : ApesJson.args) (n : Z) : request :=
  ApesJson.get_request (ApesJson.gateway a) (ApesJson.cid a) n
    (ApesJson.download_timeout a).

Definition apes_put (a : ApesJson.args) (p : string) (n : Z) (content : string)
  : request :=
  ApesJson.put_request (ApesJson.storage_zone a) (ApesJson.access_key a)
    (ApesJson.region_host a) (ApesJson.dest_key p n) content.

(** What the scan of [ipfs-to-cdn-apes-json.py] may do for one id: a
    download that is answered with a status other than 200, a download that
    raises, or a download answered 200 followed by the upload of the very
    body it returned. *)
Inductive apes_item (a : ApesJson.args) (p : string) (n : Z) : list event → Prop :=
  | apes_item_missing (code : Z) (body : string) :
      code ≠ 200 →
      apes_item a p n [Sent (apes_get a n) (Response code body)]
  | apes_item_raised (e : exn) :
      apes_item a p n [Sent (apes_get a n) (Raised e)]
  | apes_item_fetched (body : string) (rp : reply) :
      apes_item a p n [Sent (apes_get a n) (Response 200 body);
                       Sent (apes_put a p n body) rp].

(** The lines the scan prints per item start with ["["] or are the stop
    message. *)
Definition item_line (l : channel * string) : Prop :=
  head_char l.2 = Some "["%char ∨ head_char l.2 = Some "S"%char.

(** A gateway that serves the documents below [k] under [src] and times
    out on every id from [k] on; the storage side accepts every upload. *)
Definition stalls_at (src : string) (k : Z) : table :=
  {| answer rq :=
       match rq_method rq with
       | GET =>
           match parse_key src "json" (rq_url rq) with
           | Some n => if bool_decide (n < k) then Response 200 "{}"
                       else Raised {| exn_kind := ExTimeout;
                                      exn_text := "Read timed out." |}
           | None => Response 400 "bad request"
           end
       | PUT => Response 201 "created"
       | HEAD => Response 404 ""
       end |}.

(** The pauses of a trace, in order (milliseconds). *)
Definition pauses (tr : list event) : list Z :=
  omap (λ ev, match ev with Slept ms => Some ms | Sent _ _ => None end) tr.

(** The existence check of id [n] in [ipfs-to-cdn-hogs-json.py]. *)
Definition hogsjson_head (z k : string) (r : option string) (p : string) (n : Z)
  : request :=
  HogsJson.head_request z k r (HogsJson.dest_key p n).

(** Events of the scan proper: downloads and uploads. *)
Definition transfer_event (ev : event) : Prop :=
  match ev with
  | Sent rq _ => rq_method rq ≠ HEAD
  | Slept _ => False
  end.

(** What the pre-flight pass has done when the ids below [i] have been
    checked and [j] batches are complete. *)
Definition checked {W : Type} (z k : string) (r : option string) (p : string) (a : Z)
    (s : sys W) (i : Z) (j : nat) (ex : gset Z) (s' : sys W) : Prop :=
  tmp s' = tmp s
  ∧ ∃ evs,
      trace s' = trace s ++ evs
      ∧ requests evs = hogsjson_head z k r p <$> range a i
      ∧ pauses evs = replicate j 100
      ∧ ∀ n, n ∈ ex ↔ ∃ text, Sent (hogsjson_head z k r p n) (Response 200 text) ∈ evs.

(** Only the gateway [https://dweb.link] has the files; the other gateways
    answer 503. *)
Definition served_by_last : table :=
  {| answer rq :=
       match strip_prefix "https://dweb.link/" (rq_url rq) with
       | Some _ => Response 200 "PNG"
       | None => Response 503 "Service Unavailable"
       end |}.

(** The requests [ipfs-to-cdn-hogs.py] issues for id [n]: the existence
    check, the download from one of the gateways, the upload. *)
Definition hogs_request_of (a : Hogs.args) (p : string) (n : Z) (rq : request) : Prop :=
  rq = Hogs.head_request (Hogs.dest_key p n)
  ∨ (∃ g, g ∈ Hogs.gateways a
          ∧ rq = Hogs.get_request g (Hogs.cid a) (Hogs.filename n)
                   (Hogs.download_timeout a))
  ∨ (∃ content,
       rq = Hogs.put_request (Hogs.storage_zone a) (Hogs.access_key a)
              (Hogs.region_host a) (Hogs.dest_key p n) content).

(** An event that is a pause or a request for an id in [lo, hi]. *)
Definition within (a : Hogs.args) (p : string) (lo hi : Z) (ev : event) : Prop :=
  match ev with
  | Sent rq _ => ∃ n, lo ≤ n ≤ hi ∧ hogs_request_of a p n rq
  | Slept _ => True
  end.

(** ** The CSV script *)

(** The exception of ["#" in name] when [name] is [None]. *)
Definition none_not_iterable : exn :=
  {| exn_kind := ExTypeError;
     exn_text := "argument of type 'NoneType' is not iterable" |}.

(** The rows [main] selects: [rows[start_idx:end_idx]]. *)
Definition rows_to_process (a : CsvHog.args) (rows : list CsvHog.row) : list CsvHog.row :=
  py_slice (CsvHog.start_row a) (CsvHog.end_index a rows) rows.

(** Whether a result of [process_nft_row] counts as a success. *)
Definition succeeded (res : result (bool * cell * option string)) : bool :=
  match res with
  | Ok (ok, _, _) => ok
  | Err _ => false
  end.

(** The number of results that count as a success. *)
Definition successes (results : list (result (bool * cell * option string))) : Z :=
  Z.of_nat (length (List.filter succeeded results)).

(** The lines [print_results] writes. *)
Definition report_lines (t : CsvHog.tally) : list (channel * string) :=
  [(Stdout, nl +:+ "Processing complete!");
   (Stdout, "Successfully uploaded: " +:+ Py.str (CsvHog.success_count t));
   (Stdout, "Errors: " +:+ Py.str (CsvHog.error_count t))]
  ++ match CsvHog.errors t with
     | [] => []
     | errs =>
         (Stdout, nl +:+ "First 10 errors:")
         :: ((λ e, (Stdout, "  - " +:+ e)) <$> take 10 errs)
         ++ (if bool_decide (10 < Z.of_nat (length errs))
             then [(Stdout, "  ... and " +:+ Py.str (Z.of_nat (length errs) - 10)
                            +:+ " more errors")]
             else [])
     end.

(** Arguments and rows of the CSV scenarios. *)
Definition csv_args (start : Z) (limit : option Z) (dry : bool) : CsvHog.args :=
  {| CsvHog.csv_file := "Hogs.csv"; CsvHog.dest_path := "hog_jsons/";
     CsvHog.concurrency := 8; CsvHog.timeout := 180;
     CsvHog.storage_zone := "zone"; CsvHog.access_key := "key";
     CsvHog.region_host := None; CsvHog.start_row := start;
     CsvHog.max_rows := limit; CsvHog.dry_run := dry |}.

Definition hog_row (name : string) : CsvHog.row := {[ "Name" := Text name ]}.

(** An upload request. *)
Definition is_put (ev : event) : Prop :=
  match ev with
  | Sent rq _ => rq_method rq = PUT
  | Slept _ => False
  end.

(** * Facts about the Python built-ins *)

Section py_facts.

Lemma app_nil_l (b : string) : "" +:+ b = b.
Proof. reflexivity. Qed.

Lemma app_cons (c : ascii) (a b : string) : String c a +:+ b = String c (a +:+ b).
Proof. reflexivity. Qed.

Lemma app_assoc_s (a b c : string) : (a +:+ b) +:+ c = a +:+ (b +:+ c).
Proof.
  induction a as [|x a IH]; [done|]. rewrite !app_cons. by rewrite IH.
Qed.

Lemma app_length (a b : string) :
  String.length (a +:+ b) = (String.length a + String.length b)%nat.
Proof.
  induction a as [|c a IH]; [done|].
  rewrite app_cons. simpl. by rewrite IH.
Qed.

Lemma strip_prefix_app (p x : string) : strip_prefix p (p +:+ x) = Some x.
Proof.
  induction p as [|a p IH]; [by destruct x|].
  rewrite app_cons. simpl. by rewrite decide_True.
Qed.

Lemma strip_suffix_unfold (suf s : string) :
  strip_suffix suf s =
    if decide (s = suf) then Some ""
    else match s with
         | "" => None
         | String c s' => String c <$> strip_suffix suf s'
         end.
Proof. by destruct s. Qed.

Lemma strip_suffix_app (m suf : string) : strip_suffix suf (m +:+ suf) = Some m.
Proof.
  induction m as [|c m IH]; rewrite strip_suffix_unfold.
  - by rewrite decide_True.
  - rewrite app_cons, decide_False, IH; [done|].
    intros E. apply (f_equal String.length) in E.
    simpl in E. rewrite app_length in E. lia.
Qed.

Lemma lstrip_clean (s : string) : clean s = true → Py.lstrip s = s.
Proof.
  destruct s as [|c s]; [done|]. simpl.
  intros [Hc _]%andb_true_iff. by destruct (Py.is_space c).
Qed.

Lemma rstrip_clean (s : string) : clean s = true → Py.rstrip s = s.
Proof.
  induction s as [|c s IH]; [done|]. simpl.
  intros [Hc Hs]%andb_true_iff. rewrite IH by done.
  destruct s; [|done]. by destruct (Py.is_space c).
Qed.

Lemma strip_clean (s : string) : clean s = true → Py.strip s = s.
Proof.
  intros Hs. unfold Py.strip. rewrite lstrip_clean by done. by apply rstrip_clean.
Qed.

Lemma digit_char (d : N) :
  (d < 10)%N →
  Py.digit_of (pretty_N_char d) = Some d
  ∧ pretty_N_char d ≠ "_"%char
  ∧ Py.is_space (pretty_N_char d) = false.
Proof.
  intros Hd.
  assert (d = 0 ∨ d = 1 ∨ d = 2 ∨ d = 3 ∨ d = 4 ∨ d = 5 ∨ d = 6 ∨ d = 7
          ∨ d = 8 ∨ d = 9)%N as Hcases by lia.
  repeat destruct Hcases as [->|Hcases]; try subst d; by vm_compute.
Qed.

Lemma pretty_N_go_clean (x : N) (t : string) :
  clean t = true → clean (pretty_N_go x t) = true.
Proof.
  revert t. induction (N.lt_wf_0 x) as [x _ IH]; intros t Ht.
  destruct (decide (x = 0)%N) as [->|Hx]; [done|].
  rewrite pretty_N_go_step by lia.
  apply IH; [apply N.div_lt; lia|].
  simpl. rewrite Ht.
  destruct (digit_char (x `mod` 10)%N) as (_ & _ & ->); [|done].
  apply N.mod_lt; lia.
Qed.

Lemma pretty_N_go_digits (x : N) :
  ∃ k : N, ∀ t acc prev,
    Py.int_digits (pretty_N_go x t) acc prev
    = Py.int_digits t (acc * k + x)%N (prev || bool_decide (0 < x)%N).
Proof.
  induction (N.lt_wf_0 x) as [x _ IH].
  destruct (decide (x = 0)%N) as [->|Hx].
  { exists 1%N. intros t acc prev. rewrite pretty_N_go_0.
    f_equal; [lia|]. by rewrite orb_false_r. }
  destruct (IH (x `div` 10)%N) as [k Hk]; [apply N.div_lt; lia|].
  exists (k * 10)%N. intros t acc prev.
  rewrite pretty_N_go_step, Hk by lia.
  destruct (digit_char (x `mod` 10)%N) as (Hd & Hu & _); [apply N.mod_lt; lia|].
  simpl. rewrite decide_False, Hd by done.
  rewrite bool_decide_true, orb_true_r by lia.
  f_equal. pose proof (N.div_mod x 10). lia.
Qed.

Lemma pretty_N_go_head (x : N) (t : string) :
  (0 < x)%N →
  ∃ c r, pretty_N_go x t = String c r ∧ is_Some (Py.digit_of c).
Proof.
  revert t. induction (N.lt_wf_0 x) as [x _ IH]; intros t Hx.
  rewrite pretty_N_go_step by done.
  destruct (decide (x `div` 10 = 0)%N) as [->|Hq].
  - rewrite pretty_N_go_0. eexists _, _. split; [done|].
    destruct (digit_char (x `mod` 10)%N) as (-> & _); [apply N.mod_lt; lia|done].
  - apply IH; [apply N.div_lt; lia|]. by apply N.neq_0_lt_0.
Qed.

(** A literal that starts with a digit carries no sign. *)
Lemma int_unsigned (c : ascii) (r : string) :
  clean (String c r) = true → is_Some (Py.digit_of c) →
  Py.int (String c r) = Z.of_N <$> Py.int_digits (String c r) 0%N false.
Proof.
  intros Hc Hd. unfold Py.int. rewrite strip_clean by done.
  destruct c as [[] [] [] [] [] [] [] []]; try done;
    by (vm_compute in Hd; destruct Hd).
Qed.

Lemma pretty_pos_digits (p : positive) :
  clean (pretty (N.pos p)) = true
  ∧ Py.int_digits (pretty (N.pos p)) 0%N false = Some (N.pos p)
  ∧ ∃ c r, pretty (N.pos p) = String c r ∧ is_Some (Py.digit_of c).
Proof.
  unfold pretty, pretty_N. rewrite decide_False by done. split_and!.
  - by apply pretty_N_go_clean.
  - destruct (pretty_N_go_digits (N.pos p)) as [k ->]. by simpl.
  - by apply pretty_N_go_head.
Qed.

(** [int(str(n)) == n] *)
Lemma int_str (n : Z) : Py.int (Py.str n) = Some n.
Proof.
  unfold Py.str, pretty, pretty_Z. destruct n as [|p|p]; [done|..].
  - destruct (pretty_pos_digits p) as (Hclean & Hdig & c & r & Heq & Hc).
    unfold pretty, pretty_positive. rewrite Heq in *.
    by rewrite int_unsigned, Hdig.
  - destruct (pretty_pos_digits p) as (Hclean & Hdig & _).
    unfold pretty, pretty_positive. rewrite app_cons, app_nil_l.
    unfold Py.int. rewrite strip_clean by (simpl; by rewrite Hclean).
    by rewrite Hdig.
Qed.

Lemma parse_spec_key (p e : string) (n : Z) : parse_key p e (spec_key p n e) = Some n.
Proof.
  unfold parse_key, spec_key.
  rewrite strip_prefix_app. simpl.
  rewrite strip_suffix_app. simpl. apply int_str.
Qed.

End py_facts.

(** * Running programs of the monad *)

Section running.
Context {W : Type} {remote : Network W}.

Lemma run_bind {A B} (m : M W A) (f : A → M W B) (s : sys W) :
  (m ≫= f) s = match m s with
               | (Ok a, s') => f a s'
               | (Err e, s') => (Err e, s')
               end.
Proof. reflexivity. Qed.

Lemma run_bind_ok {A B} (m : M W A) (f : A → M W B) (s s' : sys W) (a : A) :
  m s = (Ok a, s') → (m ≫= f) s = f a s'.
Proof. intros Hm. by rewrite run_bind, Hm. Qed.

Lemma run_bind_err {A B} (m : M W A) (f : A → M W B) (s s' : sys W) (e : exn) :
  m s = (Err e, s') → (m ≫= f) s = (Err e, s').
Proof. intros Hm. by rewrite run_bind, Hm. Qed.

Lemma run_for_loop_cons {A S} (x : A) (l : list A)
    (body : A → S → M W (ctrl * S)) (st : S) (s : sys W) :
  for_loop (x :: l) body st s =
    match body x st s with
    | (Ok (Break, st'), s') => (Ok st', s')
    | (Ok (Continue, st'), s') => for_loop l body st' s'
    | (Err e, s') => (Err e, s')
    end.
Proof.
  simpl. rewrite run_bind.
  by destruct (body x st s) as [[[[] ?]|?] ?].
Qed.

Lemma run_for_return_cons {A R} (x : A) (l : list A)
    (body : A → M W (option R)) (s : sys W) :
  for_return (x :: l) body s =
    match body x s with
    | (Ok (Some v), s') => (Ok (Some v), s')
    | (Ok None, s') => for_return l body s'
    | (Err e, s') => (Err e, s')
    end.
Proof.
  simpl. rewrite run_bind.
  by destruct (body x s) as [[[?|]|?] ?].
Qed.

(** Loop invariants: [I pre st s] holds when the items [pre] have been
    processed; [Q] is what holds of the loop's outcome. *)
Lemma for_loop_rule {A S} (I : list A → S → sys W → Prop)
    (Q : result S → sys W → Prop) (l : list A) (body : A → S → M W (ctrl * S)) :
  (∀ pre x post st s, l = pre ++ x :: post → I pre st s →
     match body x st s with
     | (Ok (Continue, st'), s') => I (pre ++ [x]) st' s'
     | (Ok (Break, st'), s') => Q (Ok st') s'
     | (Err e, s') => Q (Err e) s'
     end) →
  (∀ st s, I l st s → Q (Ok st) s) →
  ∀ st s, I [] st s → Q (for_loop l body st s).1 (for_loop l body st s).2.
Proof.
  intros Hbody Hend.
  cut (∀ post pre st s, l = pre ++ post → I pre st s →
         Q (for_loop post body st s).1 (for_loop post body st s).2).
  { intros Hgen st s HI. by apply (Hgen l []). }
  induction post as [|x post IH]; intros pre st s Hl HI.
  - rewrite app_nil_r in Hl. subst pre. simpl. by apply Hend.
  - rewrite run_for_loop_cons.
    specialize (Hbody pre x post st s Hl HI).
    destruct (body x st s) as [[[[] st']|e] s']; simpl; try done.
    apply (IH (pre ++ [x])); [|done]. by rewrite <-app_assoc.
Qed.

Lemma seqZ_split (a t x : Z) (pre post : list Z) :
  seqZ a t = pre ++ x :: post →
  pre = seqZ a (Z.of_nat (length pre)) ∧ x = a + Z.of_nat (length pre)
  ∧ Z.of_nat (length pre) < t.
Proof.
  revert a t. induction pre as [|y pre IH]; intros a t Hl.
  - destruct (decide (0 < t)) as [Ht|Ht]; [|by rewrite seqZ_nil in Hl by lia].
    rewrite seqZ_cons in Hl by done. injection Hl as <- _.
    simpl. split_and!; [done|lia|lia].
  - destruct (decide (0 < t)) as [Ht|Ht]; [|by rewrite seqZ_nil in Hl by lia].
    rewrite seqZ_cons in Hl by done. injection Hl as <- Hrest.
    destruct (IH _ _ Hrest) as (Hpre & -> & Hlt).
    simpl length. split_and!; [|lia|lia].
    rewrite (seqZ_cons a) by lia. f_equal.
    rewrite Hpre at 1. f_equal. lia.
Qed.

Lemma range_snoc (a i : Z) : a ≤ i → range a (i + 1) = range a i ++ [i].
Proof.
  intros Hi. unfold range.
  replace (i + 1 - a) with (i - a + 1) by lia.
  rewrite seqZ_app by lia. f_equal.
  rewrite seqZ_cons, seqZ_nil by lia. f_equal. lia.
Qed.

(** The same for a loop over [range(a, b)]: [I i] holds before id [i] is
    processed. *)
Lemma for_range_rule {S} (I : Z → S → sys W → Prop)
    (Q : result S → sys W → Prop) (a b : Z) (body : Z → S → M W (ctrl * S)) :
  (∀ i st s, a ≤ i < b → I i st s →
     match body i st s with
     | (Ok (Continue, st'), s') => I (i + 1) st' s'
     | (Ok (Break, st'), s') => Q (Ok st') s'
     | (Err e, s') => Q (Err e) s'
     end) →
  (∀ st s, I (Z.max a b) st s → Q (Ok st) s) →
  ∀ st s, I a st s →
    Q (for_loop (range a b) body st s).1 (for_loop (range a b) body st s).2.
Proof.
  intros Hbody Hend st s HI.
  apply (for_loop_rule (λ pre, I (a + Z.of_nat (length pre))) Q).
  - intros pre x post st1 s1 Hl HI1.
    unfold range in Hl. apply seqZ_split in Hl as (_ & -> & Hlt).
    specialize (Hbody (a + Z.of_nat (length pre)) st1 s1 ltac:(lia) HI1).
    destruct (body _ st1 s1) as [[[[] st']|e] s']; try done.
    rewrite length_app. simpl.
    by replace (a + Z.of_nat (length pre + 1)) with (a + Z.of_nat (length pre) + 1) by lia.
  - intros st1 s1 HI1. apply Hend.
    unfold range in HI1. rewrite length_seqZ in HI1.
    by replace (Z.max a b) with (a + Z.of_nat (Z.to_nat (b - a))) by lia.
  - simpl. by rewrite Z.add_0_r.
Qed.

End running.

(** * Facts about [ipfs-to-cdn-apes-json.py] *)

Section apes_facts.
Context {W : Type} {remote : Network W}.
Import ApesJson.

Lemma apes_download_json_run (g c : string) (n : Z) (f : string) (t : Z) (s : sys W) :
  download_json g c n f t s =
    let rq := get_request g c n t in
    match send rq (net s) with
    | (Response code body, w) =>
        if bool_decide (code = 200)
        then (Ok (true, 200), stash f body (record (Sent rq (Response code body)) s w))
        else (Ok (false, code), record (Sent rq (Response code body)) s w)
    | (Raised e, w) => (Err e, record (Sent rq (Raised e)) s w)
    end.
Proof.
  unfold download_json. rewrite run_bind. unfold http.
  destruct (send _ _) as [[code body|e] w]; simpl; [|done].
  by repeat case_bool_decide.
Qed.

Lemma apes_bunny_put_run (z k : string) (r : option string) (key f : string)
    (s : sys W) :
  bunny_put z k r key f s =
    match tmp s ≫= (.!! f) with
    | None => (Err {| exn_kind := ExFileNotFound; exn_text := f |}, s)
    | Some content =>
        let rq := put_request z k r key content in
        match send rq (net s) with
        | (Response code text, w) =>
            (Ok (is_success code, code, py_take 200 text),
             record (Sent rq (Response code text)) s w)
        | (Raised e, w) => (Err e, record (Sent rq (Raised e)) s w)
        end
    end.
Proof.
  unfold bunny_put. rewrite run_bind. unfold read_file.
  destruct (tmp s ≫= _) as [content|]; [|done].
  rewrite run_bind. unfold http.
  by destruct (send _ _) as [[code body|e] w].
Qed.

(** The loop body, case by case on what the download and the upload gave. *)
Lemma apes_loop_body_run (a : args) (p : string) (n : Z) (c : counters) (s : sys W) :
  loop_body a p n c s =
    match download_json (gateway a) (cid a) n (filename n) (download_timeout a) s with
    | (Err e, s1) => (Err e, s1)
    | (Ok (false, code), s1) =>
        let c := miss c in
        let s2 := if bool_decide (n `mod` 25 = 0)
                  then say Stdout ("[" +:+ Py.str n +:+ "] missing (HTTP " +:+ Py.str code
                         +:+ "); miss streak=" +:+ Py.str (consecutive_missing c)) s1
                  else s1 in
        if bool_decide (max_missing a ≤ consecutive_missing c)
        then (Ok (Break, c),
              say Stdout ("Stopping at n=" +:+ Py.str n +:+ ": reached "
                   +:+ Py.str (consecutive_missing c) +:+ " consecutive misses.") s2)
        else (Ok (Continue, c), s2)
    | (Ok (true, _), s1) =>
        let c := hit c in
        match bunny_put (storage_zone a) (access_key a) (region_host a)
                (dest_key p n) (filename n) s1 with
        | (Err e, s2) => (Err e, s2)
        | (Ok (true, _, _), s2) =>
            let s3 := say Stdout ("[" +:+ Py.str n +:+ "] uploaded -> " +:+ dest_key p n) s2 in
            (Ok (Continue, uploaded c),
             if delete_local a then discard (filename n) s3 else s3)
        | (Ok (false, up_code, up_text), s2) =>
            (Ok (Continue, upload_error c),
             say Stderr ("[" +:+ Py.str n +:+ "] upload FAILED (HTTP " +:+ Py.str up_code
                   +:+ "): " +:+ up_text) s2)
        end
    end.
Proof.
  unfold loop_body. rewrite run_bind.
  destruct (download_json _ _ _ _ _ s) as [[[[] code]|e] s1]; simpl; [| |done].
  - rewrite run_bind.
    destruct (bunny_put _ _ _ _ _ s1) as [[[[[] up_code] up_text]|e] s2]; simpl; [| |done].
    + by destruct (delete_local a).
    + done.
  - by repeat case_bool_decide.
Qed.

End apes_facts.

Section trace_facts.
Context {W : Type} {remote : Network W}.

Lemma fetched_ids_app (pfx : string) (t1 t2 : list event) :
  fetched_ids pfx (t1 ++ t2) = fetched_ids pfx t1 ++ fetched_ids pfx t2.
Proof. unfold fetched_ids, requests. by rewrite !omap_app. Qed.

Lemma apes_source_url_key (g c : string) (n : Z) :
  ApesJson.source_url g c n = spec_key (source_prefix g c) n "json".
Proof.
  unfold ApesJson.source_url, spec_key, source_prefix.
  by rewrite !app_assoc_s.
Qed.

Lemma apes_fetched_get (g c : string) (n t : Z) (rp : reply) :
  fetched_ids (source_prefix g c) [Sent (ApesJson.get_request g c n t) rp] = [n].
Proof.
  unfold fetched_ids. simpl.
  by rewrite apes_source_url_key, parse_spec_key.
Qed.

End trace_facts.

Section apes_scan.
Context {W : Type} {remote : Network W}.
Import ApesJson.

(** What one iteration does when the gateway has the document and the
    storage side answers the PUT. *)
Lemma apes_body_hit (a : args) (p : string) (n : Z) (c : counters) (s : sys W) :
  always_hits (get_request (gateway a) (cid a) n (download_timeout a)) →
  answers PUT →
  ∃ c' s',
    loop_body a p n c s = (Ok (Continue, c'), s')
    ∧ (c' = uploaded (hit c) ∨ c' = upload_error (hit c))
    ∧ fetched_ids (source_prefix (gateway a) (cid a)) (trace s')
      = fetched_ids (source_prefix (gateway a) (cid a)) (trace s) ++ [n]
    ∧ (∀ line, line ∈ out s → line ∈ out s').
Proof.
  intros Hhit Hput.
  rewrite apes_loop_body_run, apes_download_json_run. simpl.
  destruct (Hhit (net s)) as (body & w1 & ->). simpl.
  rewrite apes_bunny_put_run. simpl. rewrite lookup_insert_eq. simpl.
  edestruct (Hput (put_request (storage_zone a) (access_key a) (region_host a)
                     (dest_key p n) body) w1) as (code & text & w2 & ->); [done|].
  destruct (is_success code); simpl.
  - eexists _, _. split; [done|]. split; [by left|].
    split.
    + destruct (delete_local a); simpl;
        rewrite !fetched_ids_app, apes_fetched_get;
        unfold fetched_ids at 3; simpl; by rewrite app_nil_r.
    + intros line Hl. destruct (delete_local a); simpl; set_solver.
  - eexists _, _. split; [done|]. split; [by right|].
    split.
    + simpl. rewrite !fetched_ids_app, apes_fetched_get.
      unfold fetched_ids at 3; simpl; by rewrite app_nil_r.
    + intros line Hl. simpl. set_solver.
Qed.

(** What one iteration does when the gateway does not have the document. *)
Lemma apes_body_miss (a : args) (p : string) (n : Z) (c : counters) (s : sys W) :
  always_misses (get_request (gateway a) (cid a) n (download_timeout a)) →
  ∃ s',
    loop_body a p n c s
    = (Ok (if bool_decide (max_missing a ≤ consecutive_missing c + 1)
           then Break else Continue, miss c), s')
    ∧ fetched_ids (source_prefix (gateway a) (cid a)) (trace s')
      = fetched_ids (source_prefix (gateway a) (cid a)) (trace s) ++ [n]
    ∧ (∀ line, line ∈ out s → line ∈ out s')
    ∧ (max_missing a ≤ consecutive_missing c + 1 →
       (Stdout, "Stopping at n=" +:+ Py.str n +:+ ": reached "
                +:+ Py.str (consecutive_missing c + 1) +:+ " consecutive misses.")
       ∈ out s').
Proof.
  intros Hmiss.
  rewrite apes_loop_body_run, apes_download_json_run. simpl.
  destruct (Hmiss (net s)) as (code & body & w1 & -> & Hcode). simpl.
  rewrite bool_decide_false by done.
  repeat case_bool_decide; simpl; eexists; (split; [done|]); simpl;
    rewrite ?fetched_ids_app, ?apes_fetched_get; split_and!;
    try done; try (intros; set_solver).
Qed.

(** The scan over a dense prefix: ids below [k] are served, ids from [k]
    on are not. *)
Lemma apes_scan_stops (a : args) (p : string) (k : Z) (c0 : counters) (s0 : sys W) :
  start_number a ≤ k → 1 ≤ max_missing a → k + max_missing a - 1 ≤ end_number a →
  (∀ n, start_number a ≤ n < k →
        always_hits (get_request (gateway a) (cid a) n (download_timeout a))) →
  (∀ n, k ≤ n ≤ end_number a →
        always_misses (get_request (gateway a) (cid a) n (download_timeout a))) →
  answers PUT →
  consecutive_missing c0 = 0 → found_count c0 = 0 →
  ∃ c s',
    for_loop (range (start_number a) (end_number a + 1)) (loop_body a p) c0 s0
    = (Ok c, s')
    ∧ found_count c = k - start_number a
    ∧ consecutive_missing c = max_missing a
    ∧ fetched_ids (source_prefix (gateway a) (cid a)) (trace s')
      = fetched_ids (source_prefix (gateway a) (cid a)) (trace s0)
        ++ range (start_number a) (k + max_missing a)
    ∧ (∀ line, line ∈ out s0 → line ∈ out s')
    ∧ (Stdout, "Stopping at n=" +:+ Py.str (k + max_missing a - 1) +:+ ": reached "
               +:+ Py.str (max_missing a) +:+ " consecutive misses.") ∈ out s'.
Proof.
  intros Hk Hmm Hend Hhits Hmisses Hput Hc0 Hf0.
  set (Q := λ (r : result counters) (s' : sys W),
    ∃ c, r = Ok c ∧ found_count c = k - start_number a
      ∧ consecutive_missing c = max_missing a
      ∧ fetched_ids (source_prefix (gateway a) (cid a)) (trace s')
        = fetched_ids (source_prefix (gateway a) (cid a)) (trace s0) ++ range (start_number a) (k + max_missing a)
      ∧ (∀ line, line ∈ out s0 → line ∈ out s')
      ∧ (Stdout, "Stopping at n=" +:+ Py.str (k + max_missing a - 1) +:+ ": reached "
                 +:+ Py.str (max_missing a) +:+ " consecutive misses.") ∈ out s').
  set (I := λ (i : Z) (c : counters) (s : sys W),
    fetched_ids (source_prefix (gateway a) (cid a)) (trace s)
      = fetched_ids (source_prefix (gateway a) (cid a)) (trace s0) ++ range (start_number a) i
    ∧ (∀ line, line ∈ out s0 → line ∈ out s)
    ∧ found_count c = Z.min i k - start_number a
    ∧ consecutive_missing c = Z.max i k - k
    ∧ i < k + max_missing a).
  pose proof (range_snoc (start_number a)) as Hsnoc.
  assert (Q (for_loop (range (start_number a) (end_number a + 1)) (loop_body a p) c0 s0).1
            (for_loop (range (start_number a) (end_number a + 1)) (loop_body a p) c0 s0).2)
    as HQ.
  { apply (for_range_rule I Q).
    - intros i c s Hi (Hfetch & Hout & Hfound & Hcons & Hlt).
      destruct (decide (i < k)) as [Hik|Hik].
      + destruct (apes_body_hit a p i c s) as (c' & s' & -> & Hc' & Hfetch' & Hout');
          [apply Hhits; lia|done|].
        split_and!.
        * by rewrite Hfetch', Hfetch, <-app_assoc, Hsnoc by lia.
        * auto.
        * destruct Hc' as [-> | ->]; simpl; lia.
        * destruct Hc' as [-> | ->]; simpl; lia.
        * lia.
      + destruct (apes_body_miss a p i c s) as (s' & -> & Hfetch' & Hout' & Hstop);
          [apply Hmisses; lia|].
        case_bool_decide as Hover; hnf.
        * exists (miss c). simpl. split_and!; [done|lia|lia| |auto|].
          -- rewrite Hfetch', Hfetch, <-app_assoc, <-Hsnoc by lia.
             do 2 f_equal. lia.
          -- assert (consecutive_missing c + 1 = max_missing a) as Heq by lia.
             replace (k + max_missing a - 1) with i by lia.
             rewrite <-Heq. apply Hstop. lia.
        * split_and!; simpl; [|auto|lia|lia|lia].
          by rewrite Hfetch', Hfetch, <-app_assoc, Hsnoc by lia.
    - intros c s (_ & _ & _ & Hcons & Hlt). lia.
    - unfold I. split_and!; [|done|lia|lia|lia].
      unfold range. rewrite Z.sub_diag. simpl. by rewrite app_nil_r. }
  destruct (for_loop _ _ c0 s0) as [r s'].
  destruct HQ as (c & Hr & HQ). simpl in Hr. subst r. by exists c, s'.
Qed.

End apes_scan.

Section apes_main.
Context {W : Type} {remote : Network W}.
Import ApesJson.

Lemma apes_main_run (a : args) (s : sys W) :
  storage_zone a ≠ "" → access_key a ≠ "" →
  main a s =
    let s1 := say Stdout ("Stopping after " +:+ Py.str (max_missing a)
                          +:+ " consecutive misses.")
               (say Stdout ("Single-pass: scanning & uploading "
                            +:+ Py.str (end_number a - start_number a + 1)
                            +:+ " candidates: " +:+ gateway a +:+ "/ipfs/"
                            +:+ cid a +:+ "/N.json")
                  (set_tmp s (Some ∅))) in
    match for_loop (range (start_number a) (end_number a + 1))
            (loop_body a (normalize_prefix (dest_path a)))
            {| consecutive_missing := 0; found_count := 0;
               uploaded_count := 0; errors_upload := 0 |} s1 with
    | (Err e, s2) => (Err e, s2)
    | (Ok c, s2) =>
        let s3 := say Stdout (summary_line c) s2 in
        (Ok (Done c),
         if bool_decide (errors_upload c = 0) && delete_local a
         then say Stdout "Local temp files deleted." (set_tmp s3 None)
         else say Stdout ("Local files kept at: " +:+ tmp_name s) s3)
    end.
Proof.
  intros Hz Hk. unfold main.
  rewrite !bool_decide_false by done. cbn [orb]. cbv zeta.
  unfold mbind, M_bind, mret, M_ret, mkdtemp, emit, rmtree.
  destruct (for_loop _ _ _ _) as [[c|e] s2]; [|done].
  by destruct (_ && _).
Qed.

End apes_main.

(** The [dense_prefix] table serves exactly the ids below [k]. *)
Lemma dense_prefix_get (k : Z) (bad : list Z) (n t : Z) :
  answer (dense_prefix k bad) (ApesJson.get_request "https://ipfs.io/" "CID" n t)
  = if bool_decide (n < k) then Response 200 "{}" else Response 404 "not found".
Proof.
  unfold dense_prefix, dense_prefix_at. simpl.
  rewrite apes_source_url_key.
  change (source_prefix "https://ipfs.io/" "CID") with "https://ipfs.io/ipfs/CID/".
  by rewrite parse_spec_key.
Qed.

Lemma dense_prefix_answers (k : Z) (bad : list Z) (m : http_method) :
  answers (remote := table_network (dense_prefix k bad)) m.
Proof.
  intros rq w Hm. unfold send, table_network, dense_prefix, dense_prefix_at. simpl.
  destruct (rq_method rq); repeat case_match; eauto.
Qed.

(** ** C1: the consecutive-miss stop *)




(** ** C4: an upload failure does not end the run *)

Section apes_all_hits.
Context {W : Type} {remote : Network W}.
Import ApesJson.

(** When every id of the range is served, every id is visited, whatever the
    storage side answers to the uploads. *)
Lemma apes_scan_visits_all (a : args) (p : string) (c0 : counters) (s0 : sys W) :
  (∀ n, start_number a ≤ n ≤ end_number a →
        always_hits (get_request (gateway a) (cid a) n (download_timeout a))) →
  answers PUT →
  ∃ c s',
    for_loop (range (start_number a) (end_number a + 1)) (loop_body a p) c0 s0
    = (Ok c, s')
    ∧ found_count c
      = found_count c0 + Z.max 0 (end_number a + 1 - start_number a)
    ∧ uploaded_count c + errors_upload c
      = uploaded_count c0 + errors_upload c0
        + Z.max 0 (end_number a + 1 - start_number a)
    ∧ fetched_ids (source_prefix (gateway a) (cid a)) (trace s')
      = fetched_ids (source_prefix (gateway a) (cid a)) (trace s0)
        ++ range (start_number a) (end_number a + 1).
Proof.
  intros Hhits Hput.
  set (Q := λ (r : result counters) (s' : sys W),
    ∃ c, r = Ok c
      ∧ found_count c = found_count c0 + Z.max 0 (end_number a + 1 - start_number a)
      ∧ uploaded_count c + errors_upload c
        = uploaded_count c0 + errors_upload c0
          + Z.max 0 (end_number a + 1 - start_number a)
      ∧ fetched_ids (source_prefix (gateway a) (cid a)) (trace s')
        = fetched_ids (source_prefix (gateway a) (cid a)) (trace s0)
          ++ range (start_number a) (end_number a + 1)).
  set (I := λ (i : Z) (c : counters) (s : sys W),
    found_count c = found_count c0 + (i - start_number a)
    ∧ uploaded_count c + errors_upload c
      = uploaded_count c0 + errors_upload c0 + (i - start_number a)
    ∧ fetched_ids (source_prefix (gateway a) (cid a)) (trace s)
      = fetched_ids (source_prefix (gateway a) (cid a)) (trace s0)
        ++ range (start_number a) i).
  assert (Q (for_loop (range (start_number a) (end_number a + 1)) (loop_body a p) c0 s0).1
            (for_loop (range (start_number a) (end_number a + 1)) (loop_body a p) c0 s0).2)
    as HQ.
  { apply (for_range_rule I Q).
    - intros i c s Hi (Hfound & Hup & Hfetch).
      destruct (apes_body_hit a p i c s) as (c' & s' & -> & Hc' & Hfetch' & _);
        [apply Hhits; lia|done|].
      split_and!.
      + destruct Hc' as [-> | ->]; simpl; lia.
      + destruct Hc' as [-> | ->]; simpl; lia.
      + by rewrite Hfetch', Hfetch, <-app_assoc, range_snoc by lia.
    - intros c s (Hfound & Hup & Hfetch). exists c. split_and!; [done|lia|lia|].
      rewrite Hfetch. f_equal. unfold range.
      destruct (decide (start_number a ≤ end_number a + 1)).
      + by rewrite Z.max_r by lia.
      + rewrite Z.max_l, Z.sub_diag by lia. by rewrite (seqZ_nil _ (_ - _)) by lia.
    - unfold I. split_and!; [lia|lia|].
      unfold range. rewrite Z.sub_diag. simpl. by rewrite app_nil_r. }
  destruct (for_loop _ _ c0 s0) as [r s'].
  destruct HQ as (c & Hr & HQ). simpl in Hr. subst r. by exists c, s'.
Qed.

End apes_all_hits.

Section csv_facts.
Context {W : Type} {remote : Network W}.
Import CsvHog.

(** [process_nft_row] catches everything: it always returns a triple. *)
Lemma csv_process_returns (r : row) (z k : string) (h : option string) (p : string)
    (s : sys W) :
  ∃ res s', process_nft_row r z k h p s = (Ok res, s').
Proof.
  unfold process_nft_row, try_except.
  match goal with |- context [match ?m s with _ => _ end] => destruct (m s) as [[res|e] s'] end;
    eauto.
Qed.

Lemma csv_run_pool_length (l : list row) (z k : string) (h : option string)
    (p : string) (s : sys W) :
  ∃ results s',
    run_pool l z k h p s = (Ok results, s') ∧ length results = length l.
Proof.
  revert s. induction l as [|r l IH]; intros s; simpl.
  - by eexists _, _.
  - rewrite run_bind.
    destruct (csv_process_returns r z k h p s) as (res & s1 & ->).
    rewrite run_bind.
    destruct (IH s1) as (results & s2 & -> & Hlen).
    eexists _, _. split; [done|]. simpl. by rewrite Hlen.
Qed.

Lemma csv_collect_counts (l : list (result (bool * cell * option string))) (t : tally) :
  success_count (foldl collect t l) + error_count (foldl collect t l)
  = success_count t + error_count t + Z.of_nat (length l).
Proof.
  revert t. induction l as [|x l IH]; intros t; simpl; [lia|].
  rewrite IH. destruct x as [[[[] ?] ?]|?]; simpl; lia.
Qed.

Lemma csv_print_results_ok (t : tally) (s : sys W) :
  ∃ s', print_results t s = (Ok tt, s').
Proof.
  unfold print_results. unfold mbind, M_bind, emit. simpl.
  case_bool_decide; [|by eauto].
  assert (∀ (l : list string) (s0 : sys W), ∃ s1,
    for_loop l (λ error (_ : unit), emit Stdout ("  - " +:+ error) ≫= λ _, mret (Continue, tt)) tt s0
    = (Ok tt, s1)) as Hloop.
  { induction l as [|x l IH]; intros s0; [by eexists|].
    rewrite run_for_loop_cons. simpl. apply IH. }
  edestruct Hloop as (s1 & Hs1). unfold mbind, M_bind, emit in Hs1. rewrite Hs1.
  case_bool_decide; by eauto.
Qed.

End csv_facts.

Section run_more.
Context {W : Type} {remote : Network W}.

Lemma run_ret {A} (a : A) (s : sys W) : (mret a : M W A) s = (Ok a, s).
Proof. reflexivity. Qed.

Lemma run_emit (c : channel) (msg : string) (s : sys W) :
  emit c msg s = (Ok tt, say c msg s).
Proof. reflexivity. Qed.

Lemma run_raise {A} (e : exn) (s : sys W) : raise (A := A) e s = (Err e, s).
Proof. reflexivity. Qed.

End run_more.

Ltac mrun := repeat (rewrite ?run_bind, ?run_emit, ?run_ret, ?run_raise; cbv beta iota).

Section csv_main.
Context {W : Type} {remote : Network W}.
Import CsvHog.

Lemma csv_upload_failure (r : row) (z k : string) (h : option string) (p : string)
    (s : sys W) (md : metadata) (e : string) (code : Z) (text : string) (w : W) :
  create_metadata_json r = Ok md →
  edition_text r md = Ok e →
  send (put_request z k h (p +:+ e +:+ ".json") md) (net s) = (Response code text, w) →
  is_success code = false →
  process_nft_row r z k h p s
  = (Ok (false, row_get r "Name" (Text "unknown"),
         Some ("Bunny upload failed (" +:+ Py.str code +:+ "): " +:+ py_take 200 text)),
     record (Sent (put_request z k h (p +:+ e +:+ ".json") md) (Response code text)) s w).
Proof.
  intros Hmd He Hsend Hcode.
  unfold process_nft_row, try_except, bunny_put_json, lift, http.
  unfold mbind, M_bind, mret, M_ret, raise.
  rewrite Hmd, He, Hsend. simpl. by rewrite Hcode.
Qed.

Lemma csv_main_counts (a : args) (rows : list row)
    (schedule : list row → list row)
    (completion : list (result (bool * cell * option string))
                  → list (result (bool * cell * option string)))
    (s : sys W) :
  storage_zone a ≠ "" → access_key a ≠ "" → dry_run a = false →
  (∀ l, schedule l ≡ₚ l) → (∀ l, completion l ≡ₚ l) →
  py_slice (start_row a) (end_index a rows) rows ≠ [] →
  ∃ t s',
    main a (Some (Ok rows)) schedule completion s = (Ok (Done t), s')
    ∧ success_count t + error_count t
      = Z.of_nat (length (py_slice (start_row a) (end_index a rows) rows)).
Proof.
  intros Hz Hk Hdry Hsched Hcompl Hrows. unfold main.
  rewrite !bool_decide_false by done. cbn [orb]. rewrite Hdry. cbv zeta.
  mrun.
  edestruct csv_run_pool_length as (results & s1 & -> & Hlen). mrun.
  destruct (csv_print_results_ok
              (foldl collect {| success_count := 0; error_count := 0; errors := [] |}
                 (completion results)) s1) as (s2 & ->). mrun.
  eexists _, _. split; [done|].
  rewrite csv_collect_counts. simpl.
  rewrite (Permutation_length (Hcompl results)), Hlen.
  by rewrite (Permutation_length (Hsched _)).
Qed.
End csv_main.



(** ** C3: destination keys *)

(** C3.  The destination key of every script is the concatenation
    [p + str(n) + "." + e], without padding, and the id is recovered from the
    key: reading the numeric segment back with [int] gives [n], so two ids
    never share a key. *)
Theorem destination_key_roundtrip (p e : string) (n : Z) :
  ApesJson.dest_key p n = spec_key p n "json"
  ∧ HogsJson.dest_key p n = spec_key p n "json"
  ∧ Hogs.dest_key p n = spec_key p n "png"
  ∧ parse_key p e (spec_key p n e) = Some n
  ∧ (∀ m, spec_key p n e = spec_key p m e → n = m)
  ∧ spec_key "hog_jsons/" 3642 "json" = "hog_jsons/3642.json"
  ∧ parse_key "hog_jsons/" "json" "hog_jsons/3642.json" = Some 3642.
Proof.
  split_and!; try reflexivity.
  - apply parse_spec_key.
  - intros m Hkey. apply (f_equal (parse_key p e)) in Hkey.
    rewrite !parse_spec_key in Hkey. by injection Hkey.
Qed.

(** ** C8: the existence check is best effort *)

(** C8.  [check_file_exists_on_cdn] of [ipfs-to-cdn-hogs-json.py] never
    raises: it returns [True] exactly when the HEAD request is answered with
    status 200, and [False] when the request raises. *)
Theorem existence_check_never_raises (W : Type) (remote : Network W)
    (z k : string) (r : option string) (key : string) (s : sys W) :
  ∃ (b : bool) (s' : sys W),
    HogsJson.check_file_exists_on_cdn z k r key s = (Ok b, s')
    ∧ (b = true ↔
       ∃ text w, send (HogsJson.head_request z k r key) (net s) = (Response 200 text, w))
    ∧ (∀ e w, send (HogsJson.head_request z k r key) (net s) = (Raised e, w) →
              b = false
              ∧ printed LogWarning ("Error checking CDN for " +:+ key +:+ ": "
                                    +:+ exn_text e) s' = true).
Proof.
  unfold HogsJson.check_file_exists_on_cdn, try_except, http.
  unfold mbind, M_bind, mret, M_ret, emit.
  destruct (send _ _) as [[code text|e] w] eqn:Hsend; simpl.
  - eexists _, _. split; [done|]. split; [|done].
    rewrite bool_decide_eq_true. split.
    + intros ->. by eauto.
    + by intros (? & ? & [= -> _ _]).
  - eexists _, _. split; [done|]. split.
    + split; [done|]. by intros (? & ? & ?).
    + intros e' w' [= -> ->]. split; [done|].
      apply bool_decide_eq_true. simpl. set_solver.
Qed.

(** ** C9: the image variant checks the public host *)

(** C9.  In [ipfs-to-cdn-hogs.py] the existence check sends one HEAD request
    to [https://baysed.b-cdn.net/{dest_key}] without headers, and neither
    the check nor the pre-flight pass depends on the storage zone, the
    access key or the region host; these only enter the address and the
    headers of the upload. *)
Theorem existence_check_ignores_storage_config (W : Type) (remote : Network W)
    (z k z' k' : string) (r r' : option string) (key : string) (s : sys W) :
  Hogs.check_file_exists_on_cdn z k r key s = Hogs.check_file_exists_on_cdn z' k' r' key s
  ∧ (∃ rp, trace (Hogs.check_file_exists_on_cdn z k r key s).2
           = trace s ++ [Sent (Hogs.head_request key) rp])
  ∧ rq_url (Hogs.head_request key) = "https://baysed.b-cdn.net/" +:+ key
  ∧ rq_headers (Hogs.head_request key) = []
  ∧ (∀ (pct : Z → Z → string) (p : string) (a b : Z),
       Hogs.get_existing_files_on_cdn pct z k r p a b s
       = Hogs.get_existing_files_on_cdn pct z' k' r' p a b s)
  ∧ (∀ content,
       rq_url (Hogs.put_request z k r key content)
       = "https://" +:+ storage_base r +:+ "/" +:+ Py.quote (Py.strip z) +:+ "/" +:+ key
       ∧ rq_headers (Hogs.put_request z k r key content)
         = [("AccessKey", Py.strip k); ("Content-Type", "application/octet-stream")]).
Proof.
  split_and!; try reflexivity.
  - unfold Hogs.check_file_exists_on_cdn, try_except, http.
    unfold mbind, M_bind, mret, M_ret, emit.
    destruct (send _ _) as [[code text|e] w]; simpl; by eauto.
  - done.
Qed.

(** ** C6: the id derived from a CSV row *)

Section split_facts.

Lemma split_unfold (x c : ascii) (s : string) :
  Py.split x (String c s) =
    match Py.split x s with
    | [] => [String c ""]
    | w :: ws => if decide (c = x) then "" :: w :: ws else String c w :: ws
    end.
Proof. reflexivity. Qed.

Lemma split_no_sep (x : ascii) (s : string) :
  Py.contains x s = false → Py.split x s = [s].
Proof.
  induction s as [|c s IH]; [done|]. simpl.
  destruct (decide (c = x)); [done|]. intros Hs. by rewrite IH.
Qed.

Lemma split_nonempty (x : ascii) (s : string) : Py.split x s ≠ [].
Proof.
  destruct s as [|c s]; [done|]. rewrite split_unfold.
  destruct (Py.split x s); [done|]. by destruct (decide (c = x)).
Qed.

Lemma split_length (x : ascii) (pre suf : string) :
  (2 ≤ length (Py.split x (pre +:+ String x suf)))%nat.
Proof.
  induction pre as [|c pre IH].
  - rewrite app_nil_l, split_unfold.
    pose proof (split_nonempty x suf).
    destruct (Py.split x suf) eqn:E; [done|]. rewrite decide_True by done. simpl. lia.
  - rewrite app_cons, split_unfold.
    destruct (Py.split x (pre +:+ String x suf)) as [|w ws]; [simpl in IH; lia|].
    destruct (decide (c = x)); simpl in *; lia.
Qed.

(** [s.split(x)[-1]] is what follows the last [x]. *)
Lemma last_split (x : ascii) (pre suf : string) :
  Py.contains x suf = false →
  Py.last_item (Py.split x (pre +:+ String x suf)) = suf.
Proof.
  intros Hsuf. unfold Py.last_item. induction pre as [|c pre IH].
  - rewrite app_nil_l, split_unfold, split_no_sep by done.
    by rewrite decide_True.
  - rewrite app_cons, split_unfold.
    pose proof (split_length x pre suf) as Hlen.
    destruct (Py.split x (pre +:+ String x suf)) as [|w [|w' ws]];
      [simpl in Hlen; lia..|].
    by destruct (decide (c = x)).
Qed.

Lemma contains_app (x : ascii) (pre suf : string) :
  Py.contains x (pre +:+ String x suf) = true.
Proof.
  induction pre as [|c pre IH].
  - rewrite app_nil_l. simpl. by rewrite decide_True.
  - rewrite app_cons. simpl. by destruct (decide (c = x)).
Qed.

End split_facts.

Section csv_edition.
Import CsvHog.

Lemma csv_metadata_hashed (r : row) (pre suf : string) :
  row_get r "Name" (Text "") = Text (pre +:+ "#" +:+ suf) →
  Py.contains "#" suf = false →
  ∃ md,
    create_metadata_json r = Ok md
    ∧ md_edition md = match Py.int (Py.strip suf) with
                      | Some n => EditionInt n
                      | None => EditionStr (Py.strip suf)
                      end
    ∧ edition_text r md = Ok match Py.int (Py.strip suf) with
                             | Some n => Py.str n
                             | None => Py.strip suf
                             end.
Proof.
  intros Hname Hsuf.
  change (pre +:+ "#" +:+ suf) with (pre +:+ String "#" suf) in Hname.
  unfold create_metadata_json. rewrite Hname. simpl.
  rewrite contains_app. unfold after_hash. rewrite last_split by done.
  eexists. split; [done|]. simpl. split; [done|].
  unfold edition_text. simpl.
  destruct (Py.int (Py.strip suf)) as [n|]; [done|].
  rewrite Hname. simpl. rewrite contains_app.
  unfold after_hash. rewrite last_split by done.
  by destruct (_ || _).
Qed.

Lemma csv_metadata_unhashed (r : row) (name : string) :
  row_get r "Name" (Text "") = Text name →
  Py.contains "#" name = false →
  ∃ md,
    create_metadata_json r = Ok md
    ∧ md_edition md = EditionStr "unknown"
    ∧ edition_text r md = Ok "unknown".
Proof.
  intros Hname Hno. unfold create_metadata_json. rewrite Hname. simpl.
  rewrite Hno. eexists. split; [done|]. split; [done|].
  unfold edition_text. simpl. rewrite Hname. simpl. by rewrite Hno.
Qed.

Lemma csv_process_run {W : Type} {remote : Network W} (r : row) (z k : string)
    (h : option string) (p : string) (s : sys W) (md : metadata) (e : string) :
  create_metadata_json r = Ok md →
  edition_text r md = Ok e →
  let rq := put_request z k h (p +:+ e +:+ ".json") md in
  ∃ res,
    process_nft_row r z k h p s
    = (Ok res, record (Sent rq (send rq (net s)).1) s (send rq (net s)).2)
    ∧ (∀ code text w, send rq (net s) = (Response code text, w) →
         is_success code = true → res = (true, Text e, None)).
Proof.
  intros Hmd He rq.
  unfold process_nft_row, try_except, bunny_put_json, lift, http.
  unfold mbind, M_bind, mret, M_ret, raise.
  rewrite Hmd, He. fold rq.
  destruct (send rq (net s)) as [[code text|ex] w]; simpl.
  - destruct (is_success code) eqn:Hcode; simpl.
    + eexists. split; [done|]. done.
    + eexists. split; [done|]. intros ??? [= -> _ _]. congruence.
  - eexists. split; [done|]. done.
Qed.

End csv_edition.

(** C6, as stated, at a name with white space after the text: what follows
    the last [#] in ["HOG #12a "] is ["12a "], the derived id is ["12a"]. *)
Lemma tabular_id_counterexample :
  let r : CsvHog.row := {[ "Name" := Text "HOG #12a " ]} in
  CsvHog.row_get r "Name" (Text "") = Text ("HOG " +:+ "#" +:+ "12a ")
  ∧ Py.contains "#" "12a " = false
  ∧ (∃ md, CsvHog.create_metadata_json r = Ok md
           ∧ md_edition md = EditionStr "12a"
           ∧ CsvHog.edition_text r md = Ok "12a")
  ∧ "12a" ≠ "12a ".
Proof.
  split_and!; [done|done| |done].
  eexists. split; [by vm_compute|]. split; by vm_compute.
Qed.

(** C6 (amended).  For a row whose [Name] is a string containing [#], the
    derived id is the text after the last [#] with surrounding white space
    stripped: the integer it denotes when [int] accepts it (and then the
    file name uses the integer's decimal form), the stripped text otherwise;
    ["HOG #3642"] gives 3642.  For a row whose [Name] is a string without
    [#] (or is absent) the id is ["unknown"], and the row is still sent to
    the CDN, under [{prefix}unknown.json]. *)
Theorem tabular_id_derivation :
  (∀ (r : CsvHog.row) (pre suf : string),
     CsvHog.row_get r "Name" (Text "") = Text (pre +:+ "#" +:+ suf) →
     Py.contains "#" suf = false →
     ∃ md,
       CsvHog.create_metadata_json r = Ok md
       ∧ md_edition md = match Py.int (Py.strip suf) with
                         | Some n => EditionInt n
                         | None => EditionStr (Py.strip suf)
                         end
       ∧ CsvHog.edition_text r md = Ok match Py.int (Py.strip suf) with
                                       | Some n => Py.str n
                                       | None => Py.strip suf
                                       end)
  ∧ (∃ md, CsvHog.create_metadata_json {[ "Name" := Text "HOG #3642" ]} = Ok md
           ∧ md_edition md = EditionInt 3642
           ∧ CsvHog.edition_text {[ "Name" := Text "HOG #3642" ]} md = Ok "3642")
  ∧ (∀ (r : CsvHog.row) (name : string),
       CsvHog.row_get r "Name" (Text "") = Text name →
       Py.contains "#" name = false →
       ∃ md,
         CsvHog.create_metadata_json r = Ok md
         ∧ md_edition md = EditionStr "unknown"
         ∧ CsvHog.edition_text r md = Ok "unknown"
         ∧ ∀ (W : Type) (remote : Network W) (z k : string) (h : option string)
             (p : string) (s : sys W),
             let rq := CsvHog.put_request z k h (p +:+ "unknown.json") md in
             ∃ res s',
               CsvHog.process_nft_row r z k h p s = (Ok res, s')
               ∧ trace s' = trace s ++ [Sent rq (send rq (net s)).1]
               ∧ (∀ code text w, send rq (net s) = (Response code text, w) →
                    is_success code = true → res = (true, Text "unknown", None))).
Proof.
  split_and!.
  - apply csv_metadata_hashed.
  - eexists. split; [by vm_compute|]. split; by vm_compute.
  - intros r name Hname Hno.
    destruct (csv_metadata_unhashed r name Hname Hno) as (md & Hmd & Hed & Htext).
    exists md. split_and!; [done..|].
    intros W remote z k h p s rq.
    destruct (csv_process_run r z k h p s md "unknown" Hmd Htext) as (res & Hrun & Hres).
    by eexists _, _.
Qed.

(** The theorem at two rows: a name with an edition number, and a name
    without [#]. *)
Lemma tabular_id_derivation_witness :
  (∃ md, CsvHog.create_metadata_json {[ "Name" := Text "HOG #0042 " ]} = Ok md
         ∧ md_edition md = EditionInt 42)
  ∧ (∃ md, CsvHog.create_metadata_json {[ "Name" := Text "Boss Hog" ]} = Ok md
           ∧ md_edition md = EditionStr "unknown").
Proof.
  split.
  - destruct (proj1 tabular_id_derivation {[ "Name" := Text "HOG #0042 " ]}
                "HOG " "0042 ") as (md & Hmd & Hed & _); [reflexivity|reflexivity|].
    exists md. split; [exact Hmd|exact Hed].
  - destruct (proj2 (proj2 tabular_id_derivation) {[ "Name" := Text "Boss Hog" ]}
                "Boss Hog") as (md & Hmd & Hed & _); [reflexivity|reflexivity|].
    exists md. split; [exact Hmd|exact Hed].
Defined.

(** ** C5: the multi-gateway fetcher *)

Section download_png_facts.
Context {W : Type} {remote : Network W}.
Import Hogs.

Lemma for_return_rule {A R} (I : list A → sys W → Prop)
    (Q : result (option R) → sys W → Prop) (l : list A)
    (body : A → M W (option R)) :
  (∀ pre x post s, l = pre ++ x :: post → I pre s →
     match body x s with
     | (Ok None, s') => I (pre ++ [x]) s'
     | (r, s') => Q r s'
     end) →
  (∀ s, I l s → Q (Ok None) s) →
  ∀ s, I [] s → Q (for_return l body s).1 (for_return l body s).2.
Proof.
  intros Hbody Hend.
  cut (∀ post pre s, l = pre ++ post → I pre s →
         Q (for_return post body s).1 (for_return post body s).2).
  { intros Hgen s HI. by apply (Hgen l []). }
  induction post as [|x post IH]; intros pre s Hl HI.
  - rewrite app_nil_r in Hl. subst pre. simpl. by apply Hend.
  - rewrite run_for_return_cons.
    specialize (Hbody pre x post s Hl HI).
    destruct (body x s) as [[[v|]|e] s']; simpl; try done.
    apply (IH (pre ++ [x])); [|done]. by rewrite <-app_assoc.
Qed.

(** One gateway, case by case on the reply. *)
Lemma hogs_try_gateway_run (cid f out : string) (t mr a : Z) (g : string)
    (s : sys W) :
  let rq := get_request g cid f t in
  ∃ s',
    try_gateway cid f out t mr a g s
    = (Ok match (send rq (net s)).1 with
          | Response code _ =>
              if bool_decide (code = 200) then Some (true, 200)
              else if bool_decide (code = 404) then Some (false, 404)
              else None
          | Raised _ => None
          end, s')
    ∧ trace s' = trace s ++ [Sent rq (send rq (net s)).1]
    ∧ net s' = (send rq (net s)).2.
Proof.
  intros rq. unfold try_gateway, try_except, http, log_debug.
  unfold mbind, M_bind, mret, M_ret, emit, write_file. fold rq.
  destruct (send rq (net s)) as [[code body|e] w]; simpl.
  - repeat case_bool_decide; eexists; (split; [reflexivity|done]).
  - destruct (exn_kind e); eexists; (split; [reflexivity|done]).
Qed.

Lemma no_404_snoc (evs : list event) (ev : event) :
  no_404 evs → (∀ rq b, ev ≠ Sent rq (Response 404 b)) → no_404 (evs ++ [ev]).
Proof. intros Hno Hev. apply Forall_app. split; [done|]. by apply Forall_singleton. Qed.

Lemma no_404_last (evs evs0 evs1 : list event) (ev : event) (rq : request) (b : string) :
  no_404 evs →
  evs ++ [ev] = evs0 ++ Sent rq (Response 404 b) :: evs1 →
  evs1 = [] ∧ ev = Sent rq (Response 404 b).
Proof.
  intros Hno. revert evs0. induction Hno as [|e evs He Hno IH]; intros evs0 Heq.
  - destruct evs0 as [|e0 [|e1 evs0]]; simplify_eq/=; done.
  - destruct evs0 as [|e0 evs0]; simplify_eq/=.
    + by destruct (He rq b).
    + by eapply IH.
Qed.

Lemma no_404_absent (evs evs0 evs1 : list event) (rq : request) (b : string) :
  no_404 evs → evs ≠ evs0 ++ Sent rq (Response 404 b) :: evs1.
Proof.
  intros Hno ->. apply Forall_app in Hno as [_ Hno].
  apply Forall_cons in Hno as [Hno _]. by destruct (Hno rq b).
Qed.

(** In any call, a 404 is the last thing that happens. *)
Lemma hogs_download_png_404 (gateways : list string) (cid : string) (n : Z)
    (out : string) (t mr rd : Z) (s : sys W) :
  ∃ evs,
    trace (download_png gateways cid n out t mr rd s).2 = trace s ++ evs
    ∧ ∀ evs0 rq b evs1,
        evs = evs0 ++ Sent rq (Response 404 b) :: evs1 →
        evs1 = [] ∧ (download_png gateways cid n out t mr rd s).1 = Ok (false, 404).
Proof.
  set (Post := λ (r : result (option (bool * Z))) (s' : sys W),
    ∃ evs, trace s' = trace s ++ evs
      ∧ match r with
        | Ok None | Err _ => no_404 evs
        | Ok (Some v) =>
            ∀ evs0 rq b evs1, evs = evs0 ++ Sent rq (Response 404 b) :: evs1 →
              evs1 = [] ∧ v = (false, 404)
        end).
  set (Inv := λ (s' : sys W), ∃ evs, trace s' = trace s ++ evs ∧ no_404 evs).
  assert (∀ a s0, Inv s0 →
    Post (for_return gateways (try_gateway cid (filename n) out t mr a) s0).1
         (for_return gateways (try_gateway cid (filename n) out t mr a) s0).2)
    as Hinner.
  { intros a s0 HI.
    apply (for_return_rule (λ _, Inv) Post); [|by intros ? (evs & ? & ?); exists evs|done].
    intros pre g post s1 _ (evs & Htr & Hno).
    destruct (hogs_try_gateway_run cid (filename n) out t mr a g s1)
      as (s2 & -> & Htr2 & _).
    rewrite Htr, <-app_assoc in Htr2.
    destruct (send _ _) as [[code body|e] w]; simpl in *.
    - repeat case_bool_decide; subst.
      + eexists. split; [done|]. intros evs0 rq b evs1 Heq.
        by apply no_404_last in Heq as [_ ?].
      + eexists. split; [done|]. intros evs0 rq b evs1 Heq.
        by apply no_404_last in Heq as [? _].
      + eexists. split; [done|]. apply no_404_snoc; [done|]. intros ???. by simplify_eq.
    - eexists. split; [done|]. by apply no_404_snoc. }
  assert (Post (for_return (range 0 mr)
                  (attempt_body gateways cid (filename n) out t mr rd) s).1
               (for_return (range 0 mr)
                  (attempt_body gateways cid (filename n) out t mr rd) s).2) as Houter.
  { apply (for_return_rule (λ _, Inv) Post);
      [|by intros ? (evs & ? & ?); exists evs
       |exists []; split; [by rewrite app_nil_r|by apply Forall_nil]].
    intros pre a post s1 _ HI.
    unfold attempt_body. rewrite run_bind.
    specialize (Hinner a s1 HI).
    destruct (for_return gateways _ s1) as [[[v|]|e] s2]; simpl in *; [done| |done].
    destruct Hinner as (evs & Htr & Hno).
    unfold mbind, M_bind, mret, M_ret, emit, sleep.
    case_bool_decide; [|by exists evs]. simpl.
    case_bool_decide; simpl; [by exists evs|].
    exists (evs ++ [Slept (rd * 2 ^ a * 1000)]). simpl. rewrite Htr, <-app_assoc.
    split; [done|]. by apply no_404_snoc. }
  unfold download_png. rewrite run_bind.
  destruct (for_return (range 0 mr) _ s) as [[[v|]|e] s1]; simpl in *.
  - destruct Houter as (evs & Htr & H404). exists evs. split; [done|].
    intros evs0 rq b evs1 Heq. destruct (H404 _ _ _ _ Heq) as [-> ->]. done.
  - destruct Houter as (evs & Htr & Hno). exists evs. split; [done|].
    intros evs0 rq b evs1 Heq. by destruct (no_404_absent evs evs0 evs1 rq b).
  - destruct Houter as (evs & Htr & Hno). exists evs. split; [done|].
    intros evs0 rq b evs1 Heq. by destruct (no_404_absent evs evs0 evs1 rq b).
Qed.

(** When no gateway ever has the file, one attempt asks every gateway. *)
Lemma hogs_gateways_exhausted (gateways : list string) (cid f out : string)
    (t mr a : Z) (s : sys W) :
  (∀ rq w, rq_method rq = GET → transient (send rq w).1) →
  ∃ s' evs,
    for_return gateways (try_gateway cid f out t mr a) s = (Ok None, s')
    ∧ trace s' = trace s ++ evs
    ∧ shape evs = (λ g, inl (get_request g cid f t)) <$> gateways.
Proof.
  intros Hworld. revert s. induction gateways as [|g gateways IH]; intros s.
  - exists s, []. by rewrite app_nil_r.
  - rewrite run_for_return_cons.
    destruct (hogs_try_gateway_run cid f out t mr a g s) as (s1 & -> & Htr1 & _).
    pose proof (Hworld (get_request g cid f t) (net s) eq_refl) as Htrans.
    destruct (send _ _) as [[code body|e] w]; simpl in *.
    + destruct Htrans as [H200 H404].
      rewrite !bool_decide_false by done.
      destruct (IH s1) as (s2 & evs & -> & Htr2 & Hshape).
      eexists _, (_ :: evs). split; [done|].
      rewrite Htr2, Htr1, <-app_assoc. split; [done|]. simpl. by rewrite Hshape.
    + destruct (IH s1) as (s2 & evs & -> & Htr2 & Hshape).
      eexists _, (_ :: evs). split; [done|].
      rewrite Htr2, Htr1, <-app_assoc. split; [done|]. simpl. by rewrite Hshape.
Qed.

(** When no gateway ever has the file, the whole plan is carried out and
    the item is reported missing with status 504. *)
Lemma hogs_download_png_exhausts (gateways : list string) (cid : string) (n : Z)
    (out : string) (t mr rd : Z) (s : sys W) :
  0 ≤ rd →
  (∀ rq w, rq_method rq = GET → transient (send rq w).1) →
  ∃ s' evs,
    download_png gateways cid n out t mr rd s = (Ok (false, 504), s')
    ∧ trace s' = trace s ++ evs
    ∧ shape evs = retry_plan gateways cid n t mr rd.
Proof.
  intros Hrd Hworld.
  set (F := λ attempt : Z,
    ((λ g, inl (get_request g cid (filename n) t)) <$> gateways)
    ++ (if bool_decide (attempt < mr - 1)
        then [inr (rd * 2 ^ attempt * 1000)] else []) : list (request + Z)).
  set (Post := λ (r : result (option (bool * Z))) (s' : sys W),
    r = Ok None ∧ ∃ evs, trace s' = trace s ++ evs ∧ shape evs = range 0 mr ≫= F).
  set (Inv := λ (pre : list Z) (s' : sys W),
    ∃ evs, trace s' = trace s ++ evs ∧ shape evs = pre ≫= F).
  assert (Post (for_return (range 0 mr)
                  (attempt_body gateways cid (filename n) out t mr rd) s).1
               (for_return (range 0 mr)
                  (attempt_body gateways cid (filename n) out t mr rd) s).2) as Houter.
  { apply (for_return_rule Inv Post);
      [|by intros ? ?|exists []; split; [by rewrite app_nil_r|done]].
    intros pre a post s1 Hl (evs & Htr & Hshape).
    unfold range in Hl. apply seqZ_split in Hl as (_ & Ha & _).
    unfold attempt_body. rewrite run_bind.
    destruct (hogs_gateways_exhausted gateways cid (filename n) out t mr a s1 Hworld)
      as (s2 & evs2 & -> & Htr2 & Hshape2).
    unfold mbind at 1 2. unfold M_bind, mret, M_ret, emit, sleep.
    assert ((pre ++ [a]) ≫= F = (pre ≫= F) ++ F a) as Hbind.
    { rewrite bind_app. simpl. by rewrite app_nil_r. }
    case_bool_decide as Hlast; simpl.
    - rewrite bool_decide_false; simpl.
      + exists (evs ++ evs2 ++ [Slept (rd * 2 ^ a * 1000)]). simpl.
        rewrite Htr2, Htr, <-!app_assoc. split; [done|].
        unfold shape in *. rewrite !fmap_app, Hshape, Hshape2, Hbind.
        f_equal. unfold F. by rewrite bool_decide_true.
      + assert (0 ≤ 2 ^ a) by (apply Z.pow_nonneg; lia). nia.
    - exists (evs ++ evs2). rewrite Htr2, Htr, <-!app_assoc. split; [done|].
      unfold shape in *. rewrite !fmap_app, Hshape, Hshape2, Hbind.
      f_equal. unfold F. rewrite bool_decide_false by done. by rewrite app_nil_r. }
  unfold download_png. rewrite run_bind.
  destruct (for_return (range 0 mr) _ s) as [r s1]; simpl in *.
  destruct Houter as (-> & evs & Htr & Hshape).
  unfold mbind, M_bind, mret, M_ret, emit. simpl.
  eexists _, evs. split; [done|]. by split.
Qed.

End download_png_facts.

(** C5.  In [download_png] a 404 from any gateway ends the call at once
    with [(False, 404)]: nothing is requested after it.  When every reply is
    a timeout, a connection error or a status other than 200 and 404 (and
    the retry delay is not negative), every gateway is asked in each of the
    [max_retries] attempts, with a pause of [retry_delay * 2 ** attempt]
    seconds between attempts, and the call ends with [(False, 504)]. *)
Theorem download_png_retry_policy :
  (∀ (W : Type) (remote : Network W) (gateways : list string) (cid : string)
     (n : Z) (out : string) (t mr rd : Z) (s : sys W),
     ∃ evs,
       trace (Hogs.download_png gateways cid n out t mr rd s).2 = trace s ++ evs
       ∧ ∀ evs0 rq b evs1,
           evs = evs0 ++ Sent rq (Response 404 b) :: evs1 →
           evs1 = []
           ∧ (Hogs.download_png gateways cid n out t mr rd s).1 = Ok (false, 404))
  ∧ (∀ (W : Type) (remote : Network W) (gateways : list string) (cid : string)
       (n : Z) (out : string) (t mr rd : Z) (s : sys W),
       0 ≤ rd →
       (∀ rq w, rq_method rq = GET → transient (send rq w).1) →
       ∃ s' evs,
         Hogs.download_png gateways cid n out t mr rd s = (Ok (false, 504), s')
         ∧ trace s' = trace s ++ evs
         ∧ shape evs = retry_plan gateways cid n t mr rd)
  ∧ (let r := Hogs.download_png (remote := table_network all_timeouts)
                DEFAULT_GATEWAYS "CID" 7 "7.png" 180 3 5 (boot tt) in
     let get g := inl (Hogs.get_request g "CID" "7.png" 180) in
     r.1 = Ok (false, 504)
     ∧ shape (trace r.2)
       = [get "https://ipfs.io"; get "https://gateway.pinata.cloud"; get "https://dweb.link";
          inr 5000;
          get "https://ipfs.io"; get "https://gateway.pinata.cloud"; get "https://dweb.link";
          inr 10000;
          get "https://ipfs.io"; get "https://gateway.pinata.cloud"; get "https://dweb.link"])
  ∧ (let r := Hogs.download_png (remote := table_network bad_gateway_then_404)
                DEFAULT_GATEWAYS "CID" 7 "7.png" 180 3 5 (boot tt) in
     let get g := inl (Hogs.get_request g "CID" "7.png" 180) in
     r.1 = Ok (false, 404)
     ∧ shape (trace r.2) = [get "https://ipfs.io"; get "https://gateway.pinata.cloud"]).
Proof.
  split_and!.
  - intros. apply hogs_download_png_404.
  - intros. by apply hogs_download_png_exhausts.
  - by vm_compute.
  - by vm_compute.
Qed.

(** The theorem where every gateway times out. *)
Lemma download_png_retry_policy_witness :
  ∃ s' evs,
    Hogs.download_png (remote := table_network all_timeouts)
      DEFAULT_GATEWAYS "CID" 7 "7.png" 180 3 5 (boot tt) = (Ok (false, 504), s')
    ∧ trace s' = trace (boot tt) ++ evs
    ∧ shape evs = retry_plan DEFAULT_GATEWAYS "CID" 7 180 3 5.
Proof.
  apply (proj1 (proj2 download_png_retry_policy) unit (table_network all_timeouts)).
  - lia.
  - intros rq w _. exact I.
Defined.

(** * Facts about [ipfs-to-cdn-hogs-json.py] *)

Section hogsjson_facts.
Context {W : Type} {remote : Network W}.
Import HogsJson.

Lemma hogsjson_download_json_run (g c : string) (n : Z) (f : string) (t : Z)
    (s : sys W) :
  download_json g c n f t s =
    let rq := get_request g c n t in
    match send rq (net s) with
    | (Response code body, w) =>
        if bool_decide (code = 200)
        then (Ok (true, 200), stash f body (record (Sent rq (Response code body)) s w))
        else (Ok (false, code), record (Sent rq (Response code body)) s w)
    | (Raised e, w) => (Err e, record (Sent rq (Raised e)) s w)
    end.
Proof.
  unfold download_json. rewrite run_bind. unfold http.
  destruct (send _ _) as [[code body|e] w]; simpl; [|done].
  by repeat case_bool_decide.
Qed.

Lemma hogsjson_bunny_put_run (z k : string) (r : option string) (key f : string)
    (s : sys W) :
  bunny_put z k r key f s =
    match tmp s ≫= (.!! f) with
    | None => (Err {| exn_kind := ExFileNotFound; exn_text := f |}, s)
    | Some content =>
        let rq := put_request z k r key content in
        match send rq (net s) with
        | (Response code text, w) =>
            (Ok (is_success code, code, py_take 200 text),
             record (Sent rq (Response code text)) s w)
        | (Raised e, w) => (Err e, record (Sent rq (Raised e)) s w)
        end
    end.
Proof.
  unfold bunny_put. rewrite run_bind. unfold read_file.
  destruct (tmp s ≫= _) as [content|]; [|done].
  rewrite run_bind. unfold http.
  by destruct (send _ _) as [[code body|e] w].
Qed.

(** The loop body, case by case. *)
Lemma hogsjson_loop_body_run (a : args) (p : string) (ex : gset Z) (n : Z)
    (c : counters) (s : sys W) :
  loop_body a p ex n c s =
    if bool_decide (n ∈ ex) then
      (Ok (Continue, skipped c),
       if bool_decide (n `mod` 100 = 0)
       then say LogInfo ("[" +:+ Py.str n +:+ "] skipped (already exists on CDN)") s
       else s)
    else
    match download_json (gateway a) (cid a) n (filename n) (download_timeout a) s with
    | (Err e, s1) => (Err e, s1)
    | (Ok (false, code), s1) =>
        let c := miss c in
        let s2 := if bool_decide (n `mod` 25 = 0)
                  then say LogInfo ("[" +:+ Py.str n +:+ "] missing (HTTP " +:+ Py.str code
                         +:+ "); miss streak=" +:+ Py.str (consecutive_missing c)) s1
                  else s1 in
        if bool_decide (max_missing a ≤ consecutive_missing c)
        then (Ok (Break, c),
              say LogWarning ("Stopping at n=" +:+ Py.str n +:+ ": reached "
                   +:+ Py.str (consecutive_missing c) +:+ " consecutive misses.") s2)
        else (Ok (Continue, c), s2)
    | (Ok (true, _), s1) =>
        let c := hit c in
        match bunny_put (storage_zone a) (access_key a) (region_host a)
                (dest_key p n) (filename n) s1 with
        | (Err e, s2) => (Err e, s2)
        | (Ok (true, _, _), s2) =>
            let s3 := say LogInfo ("[" +:+ Py.str n +:+ "] uploaded -> " +:+ dest_key p n) s2 in
            (Ok (Continue, uploaded c),
             if delete_local a then discard (filename n) s3 else s3)
        | (Ok (false, up_code, up_text), s2) =>
            (Ok (Continue, upload_error c),
             say LogError ("[" +:+ Py.str n +:+ "] upload FAILED (HTTP " +:+ Py.str up_code
                   +:+ "): " +:+ up_text) s2)
        end
    end.
Proof.
  unfold loop_body. case_bool_decide.
  { unfold mbind, M_bind, mret, M_ret, emit. by case_bool_decide. }
  rewrite run_bind.
  destruct (download_json _ _ _ _ _ s) as [[[[] code]|e] s1]; simpl; [| |done].
  - rewrite run_bind.
    destruct (bunny_put _ _ _ _ _ s1) as [[[[[] up_code] up_text]|e] s2]; simpl; [| |done].
    + by destruct (delete_local a).
    + done.
  - by repeat case_bool_decide.
Qed.

End hogsjson_facts.

(** * Facts about [ipfs-to-cdn-hogs.py] *)

Section hogs_facts.
Context {W : Type} {remote : Network W}.
Import Hogs.

Lemma hogs_bunny_put_run (z k : string) (r : option string) (key f : string)
    (s : sys W) :
  bunny_put z k r key f s =
    match tmp s ≫= (.!! f) with
    | None => (Err {| exn_kind := ExFileNotFound; exn_text := f |}, s)
    | Some content =>
        let rq := put_request z k r key content in
        match send rq (net s) with
        | (Response code text, w) =>
            (Ok (is_success code, code, py_take 200 text),
             record (Sent rq (Response code text)) s w)
        | (Raised e, w) => (Err e, record (Sent rq (Raised e)) s w)
        end
    end.
Proof.
  unfold bunny_put. rewrite run_bind. unfold read_file.
  destruct (tmp s ≫= _) as [content|]; [|done].
  rewrite run_bind. unfold http.
  by destruct (send _ _) as [[code body|e] w].
Qed.

(** The loop body, case by case. *)
Lemma hogs_loop_body_run (a : args) (p : string) (ex : gset Z) (n : Z)
    (c : counters) (s : sys W) :
  loop_body a p ex n c s =
    if bool_decide (n ∈ ex) then
      (Ok (Continue, skipped c),
       if bool_decide (n `mod` 100 = 0)
       then say LogInfo ("[" +:+ Py.str n +:+ "] skipped (already exists on CDN)") s
       else s)
    else
    match download_png (gateways a) (cid a) n (filename n) (download_timeout a)
            (max_retries a) (retry_delay a) s with
    | (Err e, s1) => (Err e, s1)
    | (Ok (false, code), s1) =>
        let c := miss c in
        let s2 := if bool_decide (n `mod` 25 = 0)
                  then say LogInfo ("[" +:+ Py.str n +:+ "] missing (HTTP " +:+ Py.str code
                         +:+ "); miss streak=" +:+ Py.str (consecutive_missing c)) s1
                  else s1 in
        if bool_decide (max_missing a ≤ consecutive_missing c)
        then (Ok (Break, c),
              say LogWarning ("Stopping at n=" +:+ Py.str n +:+ ": reached "
                   +:+ Py.str (consecutive_missing c) +:+ " consecutive misses.") s2)
        else (Ok (Continue, c), s2)
    | (Ok (true, _), s1) =>
        let c := hit c in
        match bunny_put (storage_zone a) (access_key a) (region_host a)
                (dest_key p n) (filename n) s1 with
        | (Err e, s2) => (Err e, s2)
        | (Ok (true, _, _), s2) =>
            let s3 := say LogInfo ("[" +:+ Py.str n +:+ "] uploaded -> " +:+ dest_key p n) s2 in
            (Ok (Continue, uploaded c),
             if delete_local a then discard (filename n) s3 else s3)
        | (Ok (false, up_code, up_text), s2) =>
            (Ok (Continue, upload_error c),
             say LogError ("[" +:+ Py.str n +:+ "] upload FAILED (HTTP " +:+ Py.str up_code
                   +:+ "): " +:+ up_text) s2)
        end
    end.
Proof.
  unfold loop_body. case_bool_decide.
  { unfold mbind, M_bind, mret, M_ret, emit. by case_bool_decide. }
  rewrite run_bind.
  destruct (download_png _ _ _ _ _ _ _ s) as [[[[] code]|e] s1]; simpl; [| |done].
  - rewrite run_bind.
    destruct (bunny_put _ _ _ _ _ s1) as [[[[[] up_code] up_text]|e] s2]; simpl; [| |done].
    + by destruct (delete_local a).
    + done.
  - by repeat case_bool_decide.
Qed.

End hogs_facts.

(** ** C10: skipped items and the miss streak *)

(** C10.  In both variants with an existence check, an id found on the CDN
    is skipped without any request and leaves the consecutive-miss counter
    as it is; a miss adds one; only a successful download resets the
    counter, also when the upload that follows fails.  So misses separated
    by skipped ids add up: with ids 2 and 4 on the CDN, nothing on the
    gateway and [max_missing = 3], the scan stops at id 5. *)
Theorem skip_keeps_miss_streak :
  (∀ (W : Type) (remote : Network W) (a : HogsJson.args) (p : string) (ex : gset Z)
     (n : Z) (c : HogsJson.counters) (s : sys W),
     n ∈ ex →
     ∃ c' s',
       HogsJson.loop_body a p ex n c s = (Ok (Continue, c'), s')
       ∧ HogsJson.consecutive_missing c' = HogsJson.consecutive_missing c
       ∧ HogsJson.skipped_count c' = HogsJson.skipped_count c + 1
       ∧ trace s' = trace s)
  ∧ (∀ (W : Type) (remote : Network W) (a : Hogs.args) (p : string) (ex : gset Z)
       (n : Z) (c : Hogs.counters) (s : sys W),
       n ∈ ex →
       ∃ c' s',
         Hogs.loop_body a p ex n c s = (Ok (Continue, c'), s')
         ∧ Hogs.consecutive_missing c' = Hogs.consecutive_missing c
         ∧ Hogs.skipped_count c' = Hogs.skipped_count c + 1
         ∧ trace s' = trace s)
  ∧ (∀ (W : Type) (remote : Network W) (a : HogsJson.args) (p : string) (ex : gset Z)
       (n : Z) (c c' : HogsJson.counters) (s s' : sys W) (ctl : ctrl),
       HogsJson.loop_body a p ex n c s = (Ok (ctl, c'), s') →
       (n ∈ ex
        ∧ HogsJson.consecutive_missing c' = HogsJson.consecutive_missing c)
       ∨ ((n ∉ ex)
          ∧ (∃ code s1,
               HogsJson.download_json (HogsJson.gateway a) (HogsJson.cid a) n
                 (HogsJson.filename n) (HogsJson.download_timeout a) s
               = (Ok (false, code), s1))
          ∧ HogsJson.consecutive_missing c' = HogsJson.consecutive_missing c + 1)
       ∨ ((n ∉ ex)
          ∧ (∃ code s1,
               HogsJson.download_json (HogsJson.gateway a) (HogsJson.cid a) n
                 (HogsJson.filename n) (HogsJson.download_timeout a) s
               = (Ok (true, code), s1))
          ∧ HogsJson.consecutive_missing c' = 0))
  ∧ (∀ (W : Type) (remote : Network W) (a : Hogs.args) (p : string) (ex : gset Z)
       (n : Z) (c c' : Hogs.counters) (s s' : sys W) (ctl : ctrl),
       Hogs.loop_body a p ex n c s = (Ok (ctl, c'), s') →
       (n ∈ ex
        ∧ Hogs.consecutive_missing c' = Hogs.consecutive_missing c)
       ∨ ((n ∉ ex)
          ∧ (∃ code s1,
               Hogs.download_png (Hogs.gateways a) (Hogs.cid a) n (Hogs.filename n)
                 (Hogs.download_timeout a) (Hogs.max_retries a) (Hogs.retry_delay a) s
               = (Ok (false, code), s1))
          ∧ Hogs.consecutive_missing c' = Hogs.consecutive_missing c + 1)
       ∨ ((n ∉ ex)
          ∧ (∃ code s1,
               Hogs.download_png (Hogs.gateways a) (Hogs.cid a) n (Hogs.filename n)
                 (Hogs.download_timeout a) (Hogs.max_retries a) (Hogs.retry_delay a) s
               = (Ok (true, code), s1))
          ∧ Hogs.consecutive_missing c' = 0))
  ∧ (∀ (W : Type) (remote : Network W) (a : HogsJson.args) (p : string) (ex : gset Z)
       (n : Z) (c : HogsJson.counters) (s s1 s2 : sys W) (code up_code : Z)
       (up_text : string),
       n ∉ ex →
       HogsJson.download_json (HogsJson.gateway a) (HogsJson.cid a) n
         (HogsJson.filename n) (HogsJson.download_timeout a) s = (Ok (true, code), s1) →
       HogsJson.bunny_put (HogsJson.storage_zone a) (HogsJson.access_key a)
         (HogsJson.region_host a) (HogsJson.dest_key p n) (HogsJson.filename n) s1
         = (Ok (false, up_code, up_text), s2) →
       ∃ c' s',
         HogsJson.loop_body a p ex n c s = (Ok (Continue, c'), s')
         ∧ HogsJson.consecutive_missing c' = 0
         ∧ HogsJson.errors_upload c' = HogsJson.errors_upload c + 1)
  ∧ (∀ (W : Type) (remote : Network W) (a : Hogs.args) (p : string) (ex : gset Z)
       (n : Z) (c : Hogs.counters) (s s1 s2 : sys W) (code up_code : Z)
       (up_text : string),
       n ∉ ex →
       Hogs.download_png (Hogs.gateways a) (Hogs.cid a) n (Hogs.filename n)
         (Hogs.download_timeout a) (Hogs.max_retries a) (Hogs.retry_delay a) s
         = (Ok (true, code), s1) →
       Hogs.bunny_put (Hogs.storage_zone a) (Hogs.access_key a)
         (Hogs.region_host a) (Hogs.dest_key p n) (Hogs.filename n) s1
         = (Ok (false, up_code, up_text), s2) →
       ∃ c' s',
         Hogs.loop_body a p ex n c s = (Ok (Continue, c'), s')
         ∧ Hogs.consecutive_missing c' = 0
         ∧ Hogs.errors_upload c' = Hogs.errors_upload c + 1)
  ∧ (let r := HogsJson.main (remote := table_network (empty_source [2; 4]))
                (hogsjson_args 1 10 3) (boot tt) in
     r.1 = Ok (HogsJson.Done {| HogsJson.consecutive_missing := 3;
                                HogsJson.found_count := 0;
                                HogsJson.uploaded_count := 0;
                                HogsJson.skipped_count := 2;
                                HogsJson.errors_upload := 0 |})
     ∧ fetched_ids "https://ipfs.io/ipfs/CID/" (trace r.2) = [1; 3; 5]
     ∧ printed LogWarning "Stopping at n=5: reached 3 consecutive misses." r.2 = true).
Proof.
  split_and!.
  - intros W remote a p ex n c s Hn.
    rewrite hogsjson_loop_body_run, bool_decide_true by done.
    eexists _, _. split; [done|]. split_and!; [done|done|]. by case_bool_decide.
  - intros W remote a p ex n c s Hn.
    rewrite hogs_loop_body_run, bool_decide_true by done.
    eexists _, _. split; [done|]. split_and!; [done|done|]. by case_bool_decide.
  - intros W remote a p ex n c c' s s' ctl.
    rewrite hogsjson_loop_body_run. case_bool_decide as Hn.
    { intros [= <- <- <-]. by left. }
    destruct (HogsJson.download_json _ _ _ _ _ s) as [[[[] code]|e] s1]; [| |done].
    + destruct (HogsJson.bunny_put _ _ _ _ _ s1) as [[[[[] ?] ?]|?] ?]; [| |done];
        intros [= <- <- <-]; right; right; eauto.
    + simpl. case_bool_decide; intros [= <- <- <-]; right; left; eauto.
  - intros W remote a p ex n c c' s s' ctl.
    rewrite hogs_loop_body_run. case_bool_decide as Hn.
    { intros [= <- <- <-]. by left. }
    destruct (Hogs.download_png _ _ _ _ _ _ _ s) as [[[[] code]|e] s1]; [| |done].
    + destruct (Hogs.bunny_put _ _ _ _ _ s1) as [[[[[] ?] ?]|?] ?]; [| |done];
        intros [= <- <- <-]; right; right; eauto.
    + simpl. case_bool_decide; intros [= <- <- <-]; right; left; eauto.
  - intros W remote a p ex n c s s1 s2 code up_code up_text Hn Hdl Hput.
    rewrite hogsjson_loop_body_run, bool_decide_false, Hdl, Hput by done.
    by eexists _, _.
  - intros W remote a p ex n c s s1 s2 code up_code up_text Hn Hdl Hput.
    rewrite hogs_loop_body_run, bool_decide_false, Hdl, Hput by done.
    by eexists _, _.
  - by vm_compute.
Qed.

(** The theorem at one skipped id of each variant. *)
Lemma skip_keeps_miss_streak_witness :
  ∃ c' s',
    HogsJson.loop_body (remote := table_network (empty_source [2; 4]))
      (hogsjson_args 1 10 3) "hog_jsons/" {[ 2; 4 ]} 2
      {| HogsJson.consecutive_missing := 1; HogsJson.found_count := 0;
         HogsJson.uploaded_count := 0; HogsJson.skipped_count := 0;
         HogsJson.errors_upload := 0 |} (boot tt) = (Ok (Continue, c'), s')
    ∧ HogsJson.consecutive_missing c' = 1.
Proof.
  destruct (proj1 skip_keeps_miss_streak unit (table_network (empty_source [2; 4]))
              (hogsjson_args 1 10 3) "hog_jsons/" {[ 2; 4 ]} 2
              {| HogsJson.consecutive_missing := 1; HogsJson.found_count := 0;
                 HogsJson.uploaded_count := 0; HogsJson.skipped_count := 0;
                 HogsJson.errors_upload := 0 |} (boot tt))
    as (c' & s' & Hrun & Hcons & _).
  - set_solver.
  - exists c', s'. split; [exact Hrun|exact Hcons].
Defined.

(** ** The pre-flight pass of [ipfs-to-cdn-hogs-json.py] *)

Section hogsjson_existing.
Context {W : Type} {remote : Network W}.
Import HogsJson.

(** A property of the remote side that no request destroys. *)
Variable G : W → Prop.
Hypothesis G_stable : ∀ rq w, G w → G (send rq w).2.

Lemma hogsjson_check_run (z k : string) (r : option string) (key : string) (s : sys W) :
  let rq := head_request z k r key in
  ∃ s',
    check_file_exists_on_cdn z k r key s
    = (Ok match (send rq (net s)).1 with
          | Response code _ => bool_decide (code = 200)
          | Raised _ => false
          end, s')
    ∧ trace s' = trace s ++ [Sent rq (send rq (net s)).1]
    ∧ net s' = (send rq (net s)).2
    ∧ tmp s' = tmp s.
Proof.
  intros rq. unfold check_file_exists_on_cdn, try_except, http.
  unfold mbind, M_bind, mret, M_ret, emit. fold rq.
  destruct (send rq (net s)) as [[code body|e] w]; simpl;
    eexists; (split; [reflexivity|done]).
Qed.

Lemma hogsjson_existing_files (z k : string) (r : option string) (p : string)
    (a b : Z) (s : sys W) :
  G (net s) →
  ∃ ex s' evs,
    get_existing_files_on_cdn z k r p a b s = (Ok ex, s')
    ∧ G (net s')
    ∧ tmp s' = tmp s
    ∧ trace s' = trace s ++ evs
    ∧ Forall preflight_event evs
    ∧ ∀ n, a ≤ n ≤ b →
        (∀ w, G w → ∃ text w', send (head_request z k r (dest_key p n)) w
                                = (Response 200 text, w')) →
        n ∈ ex.
Proof.
  intros HG.
  set (present := λ n : Z,
    ∀ w, G w → ∃ text w', send (head_request z k r (dest_key p n)) w
                          = (Response 200 text, w')).
  set (frame := λ (s' : sys W),
    G (net s') ∧ tmp s' = tmp s
    ∧ ∃ evs, trace s' = trace s ++ evs ∧ Forall preflight_event evs).
  set (Inv := λ (pre : list Z) (ex : gset Z) (s' : sys W),
    frame s'
    ∧ ∀ n, present n → (∃ x, x ∈ pre ∧ x ≤ n ≤ Z.min (x + 100 - 1) b) → n ∈ ex).
  set (Post := λ (res : result (gset Z)) (s' : sys W),
    ∃ ex, res = Ok ex ∧ frame s'
      ∧ ∀ n, present n →
          (∃ x, x ∈ range_step a (b + 1) 100 ∧ x ≤ n ≤ Z.min (x + 100 - 1) b) → n ∈ ex).
  assert (Post (get_existing_files_on_cdn z k r p a b s).1
               (get_existing_files_on_cdn z k r p a b s).2) as HPost.
  { unfold get_existing_files_on_cdn. cbv zeta.
    apply (for_loop_rule Inv Post).
    - intros pre x post ex s1 _ (Hframe & Hcov).
      rewrite run_bind.
      set (InvIn := λ (i : Z) (ex' : gset Z) (s' : sys W),
        frame s' ∧ ex ⊆ ex' ∧ ∀ n, present n → x ≤ n < i → n ∈ ex').
      set (PostIn := λ (res : result (gset Z)) (s' : sys W),
        ∃ ex', res = Ok ex' ∧ frame s' ∧ ex ⊆ ex'
          ∧ ∀ n, present n → x ≤ n ≤ Z.min (x + 100 - 1) b → n ∈ ex').
      match goal with |- context [for_loop ?l ?body ex s1] =>
        assert (PostIn (for_loop l body ex s1).1 (for_loop l body ex s1).2) as HIn;
        [|destruct (for_loop l body ex s1) as [res s2]] end.
      { apply (for_range_rule InvIn PostIn).
        - intros i ex' s' Hi ((HG' & Htmp & evs & Htr & Hevs) & Hsub & Hseen).
          rewrite run_bind.
          destruct (hogsjson_check_run z k r (dest_key p i) s')
            as (s'' & -> & Htr' & Hnet' & Htmp').
          assert (frame s'') as Hframe''.
          { split_and!; [rewrite Hnet'; by apply G_stable|congruence|].
            exists (evs ++ [Sent (head_request z k r (dest_key p i))
                              (send (head_request z k r (dest_key p i)) (net s')).1]).
            rewrite Htr', Htr, <-app_assoc. split; [done|].
            apply Forall_app. split; [done|]. by apply Forall_singleton. }
          assert (present i →
                  (send (head_request z k r (dest_key p i)) (net s')).1
                  = Response 200 ((λ rp, match rp with Response _ t => t | _ => "" end)
                       (send (head_request z k r (dest_key p i)) (net s')).1)) as Hpres.
          { intros Hp. destruct (Hp (net s') HG') as (text & w' & ->). done. }
          destruct (send _ _).1 as [code text|e] eqn:Hrp; simpl.
          + case_bool_decide as Hcode; simpl.
            * unfold mbind, M_bind, mret, M_ret, emit. simpl.
              split; [destruct Hframe'' as (? & ? & evs' & ? & ?); split_and!; eauto|].
              split; [set_solver|].
              intros n Hn Hrange. destruct (decide (n = i)) as [->|]; [set_solver|].
              apply elem_of_union_r, Hseen; [done|lia].
            * unfold mbind, M_bind, mret, M_ret. simpl.
              split; [done|]. split; [done|].
              intros n Hn Hrange. destruct (decide (n = i)) as [->|].
              { specialize (Hpres Hn). by simplify_eq. }
              apply Hseen; [done|lia].
          + unfold mbind, M_bind, mret, M_ret. simpl.
            split; [done|]. split; [done|].
            intros n Hn Hrange. destruct (decide (n = i)) as [->|].
            { specialize (Hpres Hn). by simplify_eq. }
            apply Hseen; [done|lia].
        - intros ex' s' (Hframe' & Hsub & Hseen). exists ex'. split_and!; [done..|].
          intros n Hn Hrange. apply Hseen; [done|lia].
        - split_and!; [done|done|]. intros n _ ?. lia. }
      destruct HIn as (ex' & Hres & (HG' & Htmp' & evs' & Htr' & Hevs') & Hsub & Hseen).
      simpl in *. subst res.
      unfold mbind, M_bind, mret, M_ret, sleep. simpl.
      split.
      { split_and!; [done|done|].
        exists (evs' ++ [Slept 100]). simpl. rewrite Htr', <-app_assoc. split; [done|].
        apply Forall_app. split; [done|]. by apply Forall_singleton. }
      intros n Hn (y & [Hy|Hy]%elem_of_app & Hrange).
      + apply Hsub, Hcov; eauto.
      + apply list_elem_of_singleton in Hy as ->. by apply Hseen.
    - intros ex s' (Hframe & Hcov). exists ex. by split_and!.
    - split; [|intros n _ (x & Hx & _); by apply elem_of_nil in Hx].
      split_and!; [done|done|]. exists []. by rewrite app_nil_r. }
  destruct (get_existing_files_on_cdn z k r p a b s) as [res s'].
  destruct HPost as (ex & Hres & (HG' & Htmp' & evs & Htr & Hevs) & Hcov).
  simpl in Hres. subst res.
  exists ex, s', evs. split_and!; [done..|].
  intros n Hn Hpres. apply Hcov; [done|].
  exists (a + (n - a) `div` 100 * 100). split.
  - unfold range_step. apply list_elem_of_fmap.
    exists ((n - a) `div` 100). split; [done|].
    apply elem_of_seqZ.
    pose proof (Z.div_le_mono (n - a) (b + 1 - a + 100 - 1 - 100) 100).
    assert ((b + 1 - a + 100 - 1 - 100) `div` 100 = (b + 1 - a + 100 - 1) `div` 100 - 1).
    { replace (b + 1 - a + 100 - 1 - 100) with (b + 1 - a + 100 - 1 + (-1) * 100) by lia.
      rewrite Z.div_add by lia. lia. }
    assert (0 ≤ (n - a) `div` 100) by (apply Z.div_pos; lia).
    lia.
  - pose proof (Z.mod_pos_bound (n - a) 100).
    pose proof (Z.div_mod (n - a) 100). lia.
Qed.

End hogsjson_existing.

(** ** C7: what is left in the temp dir *)

Section hogsjson_files.
Context {W : Type} {remote : Network W}.
Import HogsJson.

Lemma str_inj (m n : Z) : Py.str m = Py.str n → m = n.
Proof. apply pretty_Z_inj. Qed.

Lemma hogsjson_filename_inj (m n : Z) : filename m = filename n → m = n.
Proof.
  unfold filename. intros E. apply str_inj.
  apply (f_equal (strip_suffix ".json")) in E.
  rewrite !strip_suffix_app in E. by injection E.
Qed.

Lemma hogsjson_put_request_inj (z k : string) (r : option string) (p : string)
    (m n : Z) (c1 c2 : string) :
  put_request z k r (dest_key p m) c1 = put_request z k r (dest_key p n) c2 →
  m = n ∧ c1 = c2.
Proof.
  intros E. injection E as Eurl Ebody. split; [|done].
  unfold storage_url, dest_key in Eurl.
  repeat apply String.app_inj in Eurl. by apply hogsjson_filename_inj.
Qed.

Lemma Sent_inj (rq rq' : request) (rp rp' : reply) :
  Sent rq rp = Sent rq' rp' → rq = rq' ∧ rp = rp'.
Proof. by intros [= -> ->]. Qed.

Lemma put_in_snoc_get (z k : string) (r : option string) (key content : string)
    (rp rp' : reply) (rq : request) (evs : list event) :
  Sent (put_request z k r key content) rp ∈ evs ++ [Sent rq rp'] →
  rq_method rq = GET →
  Sent (put_request z k r key content) rp ∈ evs.
Proof.
  intros [Hin|Hin%list_elem_of_singleton]%elem_of_app Hget; [done|].
  apply Sent_inj in Hin as [<- _]. discriminate.
Qed.

Lemma put_in_snoc_put (z k : string) (r : option string) (p : string) (m i : Z)
    (content body : string) (rp rp' : reply) (evs : list event) :
  Sent (put_request z k r (dest_key p m) content) rp
    ∈ evs ++ [Sent (put_request z k r (dest_key p i) body) rp'] →
  Sent (put_request z k r (dest_key p m) content) rp ∈ evs
  ∨ (m = i ∧ content = body ∧ rp = rp').
Proof.
  intros [Hin|Hin%list_elem_of_singleton]%elem_of_app; [by left|right].
  apply Sent_inj in Hin as [Hrq ->].
  by apply hogsjson_put_request_inj in Hrq as [-> ->].
Qed.

Lemma failed_upload_snoc_get (a : args) (p : string) (evs : list event)
    (rq : request) (rp : reply) (m : Z) (content : string) :
  failed_upload a p (evs ++ [Sent rq rp]) m content →
  rq_method rq = GET →
  failed_upload a p evs m content.
Proof.
  intros (code & text & Hin & Hcode) Hget. exists code, text. split; [|done].
  by eapply put_in_snoc_get.
Qed.

Lemma failed_upload_snoc_put (a : args) (p : string) (evs : list event)
    (i : Z) (body : string) (rp : reply) (m : Z) (content : string) :
  failed_upload a p
    (evs ++ [Sent (put_request (storage_zone a) (access_key a) (region_host a)
                     (dest_key p i) body) rp]) m content →
  failed_upload a p evs m content
  ∨ (m = i ∧ content = body
     ∧ ∃ code text, rp = Response code text ∧ is_success code = false).
Proof.
  intros (code & text & Hin & Hcode).
  apply put_in_snoc_put in Hin as [Hin|(-> & -> & <-)].
  - left. by exists code, text.
  - right. split_and!; [done|done|]. by exists code, text.
Qed.

(** Through the scan the temp dir exists and holds the local copy of every
    item whose upload failed. *)
Lemma hogsjson_scan_files (a : args) (p : string) (ex : gset Z) (c0 : counters)
    (s0 : sys W) (files0 : gmap string string) :
  tmp s0 = Some files0 →
  let run := for_loop (range (start_number a) (end_number a + 1))
               (loop_body a p ex) c0 s0 in
  ∃ files evs,
    tmp run.2 = Some files
    ∧ trace run.2 = trace s0 ++ evs
    ∧ ∀ m content, failed_upload a p evs m content →
                   files !! filename m = Some content.
Proof.
  intros Htmp0 run. unfold run.
  set (put := λ m content,
    put_request (storage_zone a) (access_key a) (region_host a) (dest_key p m) content).
  set (Post := λ (_ : result counters) (s : sys W),
    ∃ files evs, tmp s = Some files ∧ trace s = trace s0 ++ evs
      ∧ ∀ m content, failed_upload a p evs m content →
                     files !! filename m = Some content).
  set (Inv := λ (i : Z) (_ : counters) (s : sys W),
    ∃ files evs, tmp s = Some files ∧ trace s = trace s0 ++ evs
      ∧ (∀ m content rp, Sent (put m content) rp ∈ evs → m < i)
      ∧ ∀ m content, failed_upload a p evs m content →
                     files !! filename m = Some content).
  apply (for_range_rule Inv Post).
  - intros i c s Hi (files & evs & Htmp & Htr & Hold & Hkept).
    rewrite hogsjson_loop_body_run.
    case_bool_decide as Hex.
    { exists files, evs. split_and!.
      - by case_bool_decide.
      - by case_bool_decide.
      - intros m content rp Hin. specialize (Hold _ _ _ Hin). lia.
      - done. }
    rewrite hogsjson_download_json_run. cbv zeta.
    set (get := get_request (gateway a) (cid a) i (download_timeout a)).
    assert (∀ m, m < i → filename m ≠ filename i) as Hfresh.
    { intros m Hm E%hogsjson_filename_inj. lia. }
    destruct (send get (net s)) as [[code body|e] w]; simpl.
    + case_bool_decide as Hcode.
      * rewrite hogsjson_bunny_put_run. simpl. rewrite Htmp. simpl.
        rewrite lookup_insert_eq. simpl. fold (put i body).
        destruct (send (put i body) w) as [[up_code up_text|e] w2]; simpl.
        -- destruct (is_success up_code) eqn:Hok; simpl.
           ++ exists (if delete_local a
                      then delete (filename i) (<[filename i := body]> files)
                      else <[filename i := body]> files),
                (evs ++ [Sent get (Response code body)]
                     ++ [Sent (put i body) (Response up_code up_text)]).
              split_and!.
              ** destruct (delete_local a); simpl; by rewrite Htmp.
              ** destruct (delete_local a); simpl; by rewrite Htr, <-!app_assoc.
              ** intros m content rp. rewrite app_assoc.
                 intros [Hin|(-> & _)]%put_in_snoc_put; [|lia].
                 apply put_in_snoc_get in Hin; [|done].
                 specialize (Hold _ _ _ Hin). lia.
              ** intros m content. rewrite app_assoc.
                 intros [Hf|(_ & _ & ? & ? & [= <- _] & ?)]%failed_upload_snoc_put;
                   [|congruence].
                 apply failed_upload_snoc_get in Hf; [|done].
                 assert (m < i) as Hm.
                 { destruct Hf as (? & ? & Hin & _). by eapply Hold. }
                 destruct (delete_local a).
                 --- rewrite lookup_delete_ne, lookup_insert_ne by (symmetry; auto).
                     by apply Hkept.
                 --- rewrite lookup_insert_ne by (symmetry; auto). by apply Hkept.
           ++ exists (<[filename i := body]> files),
                (evs ++ [Sent get (Response code body)]
                     ++ [Sent (put i body) (Response up_code up_text)]).
              split_and!.
              ** simpl. by rewrite Htmp.
              ** simpl. by rewrite Htr, <-!app_assoc.
              ** intros m content rp. rewrite app_assoc.
                 intros [Hin|(-> & _)]%put_in_snoc_put; [|lia].
                 apply put_in_snoc_get in Hin; [|done].
                 specialize (Hold _ _ _ Hin). lia.
              ** intros m content. rewrite app_assoc.
                 intros [Hf|(-> & -> & _)]%failed_upload_snoc_put;
                   [|by rewrite lookup_insert_eq].
                 apply failed_upload_snoc_get in Hf; [|done].
                 assert (m < i) as Hm.
                 { destruct Hf as (? & ? & Hin & _). by eapply Hold. }
                 rewrite lookup_insert_ne by (symmetry; auto). by apply Hkept.
        -- exists (<[filename i := body]> files),
             (evs ++ [Sent get (Response code body)] ++ [Sent (put i body) (Raised e)]).
           split_and!.
           ++ simpl. by rewrite Htmp.
           ++ simpl. by rewrite Htr, <-!app_assoc.
           ++ intros m content. rewrite app_assoc.
              intros [Hf|(_ & _ & ? & ? & ? & _)]%failed_upload_snoc_put; [|done].
              apply failed_upload_snoc_get in Hf; [|done].
              assert (m < i) as Hm.
              { destruct Hf as (? & ? & Hin & _). by eapply Hold. }
              rewrite lookup_insert_ne by (symmetry; auto). by apply Hkept.
      * assert (∃ files' evs',
                  tmp (record (Sent get (Response code body)) s w) = Some files'
                  ∧ trace (record (Sent get (Response code body)) s w) = trace s0 ++ evs'
                  ∧ (∀ m content rp, Sent (put m content) rp ∈ evs' → m < i + 1)
                  ∧ ∀ m content, failed_upload a p evs' m content →
                                 files' !! filename m = Some content) as Hnext.
        { exists files, (evs ++ [Sent get (Response code body)]). split_and!.
          - done.
          - simpl. by rewrite Htr, <-app_assoc.
          - intros m content rp Hin%put_in_snoc_get; [|done].
            specialize (Hold _ _ _ Hin). lia.
          - intros m content Hf%failed_upload_snoc_get; [|done]. by apply Hkept. }
        destruct Hnext as (files' & evs' & Htmp' & Htr' & Hold' & Hkept').
        repeat case_bool_decide; simpl; exists files', evs'; by split_and!.
    + exists files, (evs ++ [Sent get (Raised e)]). split_and!.
      * done.
      * simpl. by rewrite Htr, <-app_assoc.
      * intros m content Hf%failed_upload_snoc_get; [|done]. by apply Hkept.
  - intros c s (files & evs & Htmp & Htr & _ & Hkept). by exists files, evs.
  - exists files0, []. rewrite app_nil_r. split_and!; [done|done|..].
    + intros ??? Hin. by apply elem_of_nil in Hin.
    + intros ?? (? & ? & Hin & _). by apply elem_of_nil in Hin.
Qed.

End hogsjson_files.

Section hogsjson_main.
Context {W : Type} {remote : Network W}.
Import HogsJson.

Lemma hogsjson_existing_pass_run (G : W → Prop) (a : args) (p : string) (s : sys W) :
  (∀ rq w, G w → G (send rq w).2) →
  G (net s) →
  ∃ ex s' evs,
    existing_pass a p s = (Ok ex, s')
    ∧ G (net s')
    ∧ tmp s' = tmp s
    ∧ trace s' = trace s ++ evs
    ∧ Forall preflight_event evs
    ∧ (skip_cdn_check a = false →
       ∀ n, start_number a ≤ n ≤ end_number a →
         (∀ w, G w →
            ∃ text w', send (head_request (storage_zone a) (access_key a)
                               (region_host a) (dest_key p n)) w
                       = (Response 200 text, w')) →
         n ∈ ex).
Proof.
  intros HGs HG. unfold existing_pass.
  destruct (skip_cdn_check a).
  { exists ∅, s, []. rewrite app_nil_r. by split_and!. }
  unfold mbind at 1. unfold M_bind at 1. rewrite run_emit. rewrite run_bind.
  edestruct (hogsjson_existing_files G HGs (storage_zone a) (access_key a)
               (region_host a) p (start_number a) (end_number a))
    as (ex & s' & evs & -> & HG' & Htmp & Htr & Hevs & Hcov); [exact HG|].
  unfold mbind, M_bind, mret, M_ret, emit. simpl.
  eexists ex, _, evs. split; [done|]. by split_and!.
Qed.

Lemma hogsjson_main_run (a : args) (s : sys W) :
  storage_zone a ≠ "" → access_key a ≠ "" →
  main a s =
    let p := normalize_prefix (dest_path a) in
    let s0 :=
      say LogInfo ("Stopping after " +:+ Py.str (max_missing a) +:+ " consecutive misses.")
        (say LogInfo ("Single-pass: scanning & uploading "
                      +:+ Py.str (end_number a - start_number a + 1)
                      +:+ " candidates: " +:+ gateway a +:+ "/ipfs/" +:+ cid a +:+ "/N.json")
           (set_tmp
              (say LogInfo ("CID: " +:+ cid a)
                 (say LogInfo ("Gateway: " +:+ gateway a)
                    (say LogInfo ("Range: " +:+ Py.str (start_number a) +:+ " to "
                                  +:+ Py.str (end_number a))
                       (say LogInfo "Starting IPFS to CDN upload process" s))))
              (Some ∅))) in
    match existing_pass a p s0 with
    | (Err e, s1) => (Err e, s1)
    | (Ok ex, s1) =>
        match for_loop (range (start_number a) (end_number a + 1)) (loop_body a p ex)
                {| consecutive_missing := 0; found_count := 0; uploaded_count := 0;
                   skipped_count := 0; errors_upload := 0 |} s1 with
        | (Err e, s2) => (Err e, say LogError ("Unexpected error: " +:+ exn_text e) s2)
        | (Ok c, s2) =>
            let s3 := say LogInfo (summary_line c) s2 in
            (Ok (Done c),
             if bool_decide (errors_upload c = 0) && delete_local a
             then say LogInfo "Local temp files deleted." (set_tmp s3 None)
             else say LogInfo ("Local files kept at: " +:+ tmp_name s) s3)
        end
    end.
Proof.
  intros Hz Hk. unfold main.
  rewrite !bool_decide_false by done. cbn [orb]. cbv zeta.
  unfold scan, try_except.
  unfold mbind, M_bind, mret, M_ret, mkdtemp, emit, rmtree, raise. simpl.
  destruct (existing_pass _ _ _) as [[ex|e] s1]; [|done].
  destruct (for_loop _ _ _ _) as [[c|e] s2]; [|done].
  by destruct (_ && _).
Qed.

End hogsjson_main.

Lemma failed_upload_preflight (a : HogsJson.args) (p : string) (evs1 evs2 : list event)
    (m : Z) (content : string) :
  Forall preflight_event evs1 →
  failed_upload a p (evs1 ++ evs2) m content →
  failed_upload a p evs2 m content.
Proof.
  intros Hpre (code & text & [Hin|Hin]%elem_of_app & Hcode).
  - rewrite Forall_forall in Hpre. by specialize (Hpre _ Hin).
  - by exists code, text.
Qed.



(** ** C2: a second run against the same destination *)

Section retention.
Context {W : Type} {remote : Network W}.
Import HogsJson.

Variable stored : string → W → Prop.
Hypothesis Hretains : retains stored.

Lemma settled_record (rq : request) (s : sys W) :
  settled stored s →
  settled stored (record (Sent rq (send rq (net s)).1) s (send rq (net s)).2).
Proof.
  destruct Hretains as (Hput & Hkeep & _).
  intros Hs rq' code text Hin Hm Hok. simpl in *.
  apply elem_of_app in Hin as [Hin|Hin%list_elem_of_singleton].
  - apply Hkeep. by eapply Hs.
  - apply Sent_inj in Hin as [-> Hrp].
    destruct (send rq (net s)) as [rp w] eqn:Hsend. simpl in *. subst rp.
    by eapply Hput.
Qed.

Lemma settled_frame (s s' : sys W) :
  net s' = net s → trace s' = trace s → settled stored s → settled stored s'.
Proof. unfold settled. by intros -> ->. Qed.

Lemma hogsjson_source_url_key (g c : string) (n : Z) :
  source_url g c n = spec_key (source_prefix g c) n "json".
Proof.
  unfold source_url, spec_key, source_prefix. by rewrite !app_assoc_s.
Qed.

Lemma hogsjson_get_request_inj (g c : string) (m n t : Z) :
  get_request g c m t = get_request g c n t → m = n.
Proof.
  intros E. apply (f_equal rq_url) in E. simpl in E.
  rewrite !hogsjson_source_url_key in E.
  apply (f_equal (parse_key (source_prefix g c) "json")) in E.
  rewrite !parse_spec_key in E. by injection E.
Qed.

(** The scan leaves the ids of [ex] alone and keeps the trace settled. *)
Lemma hogsjson_scan_spares (a : args) (p : string) (ex : gset Z)
    (c0 : counters) (s0 : sys W) :
  settled stored s0 →
  let run := for_loop (range (start_number a) (end_number a + 1))
               (loop_body a p ex) c0 s0 in
  settled stored run.2
  ∧ ∃ evs, trace run.2 = trace s0 ++ evs ∧ Forall (λ ev, ∀ n, n ∈ ex → spares a p n ev) evs.
Proof.
  intros Hs0 run. unfold run.
  set (Inv := λ (s : sys W),
    settled stored s ∧ ∃ evs, trace s = trace s0 ++ evs ∧ Forall (λ ev, ∀ n, n ∈ ex → spares a p n ev) evs).
  apply (for_range_rule (λ _ _, Inv) (λ _, Inv)).
  - intros i c s Hi (Hs & evs & Htr & Hevs).
    rewrite hogsjson_loop_body_run.
    case_bool_decide as Hex.
    { unfold Inv. case_bool_decide; simpl; (split; [done|by exists evs]). }
    set (get := get_request (gateway a) (cid a) i (download_timeout a)).
    assert (∀ rp n, n ∈ ex → spares a p n (Sent get rp)) as Hget.
    { intros rp n Hn rq rp' [<- _]%Sent_inj. unfold get. split.
      - intros E%hogsjson_get_request_inj. by subst.
      - intros content E. discriminate. }
    assert (∀ body rp n, n ∈ ex → spares a p n
              (Sent (put_request (storage_zone a) (access_key a) (region_host a)
                       (dest_key p i) body) rp)) as Hput.
    { intros body rp n Hn rq rp' [<- _]%Sent_inj. split.
      - intros E. discriminate.
      - intros content [E _]%hogsjson_put_request_inj. by subst. }
    rewrite hogsjson_download_json_run. cbv zeta. fold get.
    pose proof (settled_record get s Hs) as Hs1.
    destruct (send get (net s)) as [[code body|e] w]; simpl in Hs1 |- *.
    + assert (Inv (record (Sent get (Response code body)) s w)) as HI1.
      { split; [done|]. exists (evs ++ [Sent get (Response code body)]). simpl.
        rewrite Htr, <-app_assoc. split; [done|].
        apply Forall_app. split; [done|]. apply Forall_singleton. by apply Hget. }
      case_bool_decide as Hcode.
      * rewrite hogsjson_bunny_put_run.
        destruct (tmp _ ≫= _) as [content|]; simpl.
        2:{ destruct HI1 as (? & evs1 & ? & ?). split; [done|]. by exists evs1. }
        set (s1 := stash (filename i) body (record (Sent get (Response code body)) s w)).
        set (put := put_request (storage_zone a) (access_key a) (region_host a)
                      (dest_key p i) content).
        assert (settled stored s1) as Hs1' by done.
        pose proof (settled_record put s1 Hs1') as Hs2.
        assert (∀ rp w2, Inv (record (Sent put rp) s1 w2) ∨ True) as _ by auto.
        destruct HI1 as (_ & evs1 & Htr1 & Hevs1).
        assert (∀ rp w2 (s' : sys W),
                  net s' = w2 → trace s' = trace s1 ++ [Sent put rp] →
                  settled stored (record (Sent put rp) s1 w2) → Inv s') as Hfin.
        { intros rp w2 s' Hnet' Htr' Hset. split.
          - by apply (settled_frame (record (Sent put rp) s1 w2)).
          - exists (evs1 ++ [Sent put rp]). rewrite Htr'. simpl.
            simpl in Htr1. rewrite Htr1, <-app_assoc. split; [done|].
            apply Forall_app. split; [done|]. apply Forall_singleton. by apply Hput. }
        fold s1. change (net s1) with w in Hs2.
        destruct (send put w) as [[up_code up_text|e] w2]; simpl in Hs2 |- *.
        -- destruct (is_success up_code); simpl.
           ++ destruct (delete_local a); by eapply Hfin.
           ++ by eapply Hfin.
        -- by eapply Hfin.
      * destruct HI1 as (? & evs1 & ? & ?).
        repeat case_bool_decide; simpl; (split; [done|by exists evs1]).
    + split; [done|]. exists (evs ++ [Sent get (Raised e)]). simpl.
      rewrite Htr, <-app_assoc. split; [done|].
      apply Forall_app. split; [done|]. apply Forall_singleton. by apply Hget.
  - done.
  - split; [done|]. exists []. by rewrite app_nil_r.
Qed.

Lemma preflight_spares (a : args) (p : string) (n : Z) (ev : event) :
  preflight_event ev → spares a p n ev.
Proof.
  intros Hev rq rp ->. simpl in Hev.
  split; [intros ->|intros content ->]; discriminate.
Qed.

Lemma hogsjson_main_settled (a : args) (s : sys W) :
  settled stored s →
  settled stored (main a s).2
  ∧ ∀ n, skip_cdn_check a = false →
      start_number a ≤ n ≤ end_number a →
      stored (storage_url (storage_zone a) (region_host a)
                (dest_key (normalize_prefix (dest_path a)) n)) (net s) →
      ∃ evs, trace (main a s).2 = trace s ++ evs
             ∧ Forall (spares a (normalize_prefix (dest_path a)) n) evs.
Proof.
  intros Hs. destruct Hretains as (Hput & Hkeep & Hhead).
  destruct (decide (storage_zone a = "" ∨ access_key a = "")) as [Hcred|Hcred].
  { assert (main a s = (Ok Exit1, say Stderr "ERROR: Bunny credentials missing. Set --storage-zone/--access-key or env vars BUNNY_STORAGE_ZONE/BUNNY_ACCESS_KEY." s)) as ->.
    { unfold main. destruct Hcred as [E|E]; rewrite (bool_decide_true _ E);
        by rewrite ?orb_true_r. }
    split; [done|]. intros. exists []. by rewrite app_nil_r. }
  rewrite hogsjson_main_run by tauto. cbv zeta.
  set (p := normalize_prefix (dest_path a)).
  match goal with |- context [existing_pass a p ?st] => set (s0 := st) end.
  set (G := λ w : W, ∀ u, stored u (net s) → stored u w).
  destruct (hogsjson_existing_pass_run G a p s0)
    as (ex & s1 & evs1 & -> & HG1 & _ & Htr1 & Hevs1 & Hcov).
  { intros rq w HG u Hu. by apply Hkeep, HG. }
  { by intros u Hu. }
  assert (settled stored s1) as Hs1.
  { intros rq code text Hin Hm Hok. rewrite Htr1 in Hin.
    apply elem_of_app in Hin as [Hin|Hin].
    - apply HG1. by eapply Hs.
    - rewrite Forall_forall in Hevs1. specialize (Hevs1 _ Hin). simpl in Hevs1.
      congruence. }
  destruct (hogsjson_scan_spares a p ex
              {| consecutive_missing := 0; found_count := 0; uploaded_count := 0;
                 skipped_count := 0; errors_upload := 0 |} s1 Hs1)
    as (Hs2 & evs2 & Htr2 & Hevs2).
  destruct (for_loop _ _ _ s1) as [[c|e] s2]; simpl in Hs2, Htr2.
  - split.
    + by destruct (_ && _).
    + intros n Hskip Hn Hstored. exists (evs1 ++ evs2).
      split.
      * destruct (_ && _); simpl; by rewrite Htr2, Htr1, <-app_assoc.
      * apply Forall_app. split.
        -- eapply Forall_impl; [exact Hevs1|]. apply preflight_spares.
        -- eapply Forall_impl; [exact Hevs2|]. intros ev Hev. apply Hev.
           apply Hcov; [done|done|].
           intros w HG. apply Hhead; [done|]. by apply HG.
  - split; [done|].
    intros n Hskip Hn Hstored. exists (evs1 ++ evs2). simpl.
    rewrite Htr2, Htr1, <-app_assoc. split; [done|].
    apply Forall_app. split.
    + eapply Forall_impl; [exact Hevs1|]. apply preflight_spares.
    + eapply Forall_impl; [exact Hevs2|]. intros ev Hev. apply Hev.
      apply Hcov; [done|done|].
      intros w HG. apply Hhead; [done|]. by apply HG.
Qed.

End retention.

Lemma bucket_retains (gateway : table) (rejects : string → bool) :
  retains (remote := bucket_network gateway rejects) (λ u held, u ∈ held).
Proof.
  split_and!.
  - intros rq held code text held' Hm. unfold send, bucket_network. rewrite Hm.
    destruct (rejects _); intros [= <- _ <-]; [done|set_solver].
  - intros rq held u Hu. unfold send, bucket_network.
    destruct (rq_method rq); simpl; [done| |done].
    destruct (rejects _); simpl; set_solver.
  - intros rq held Hm Hu. unfold send, bucket_network. rewrite Hm.
    rewrite bool_decide_true by done. by eauto.
Qed.



(** * Further properties: the shared helpers *)

Section strip_facts.

Lemma lstrip_head (s : string) :
  Py.lstrip s = "" ∨ ∃ c r, Py.lstrip s = String c r ∧ Py.is_space c = false.
Proof.
  induction s as [|c s IH]; [by left|]. simpl.
  destruct (Py.is_space c) eqn:Hc; [done|]. right. by exists c, s.
Qed.

Lemma lstrip_fixed (c : ascii) (r : string) :
  Py.is_space c = false → Py.lstrip (String c r) = String c r.
Proof. intros Hc. simpl. by rewrite Hc. Qed.

Lemma rstrip_unfold (c : ascii) (s : string) :
  Py.rstrip (String c s) =
    match Py.rstrip s with
    | "" => if Py.is_space c then "" else String c ""
    | r => String c r
    end.
Proof. reflexivity. Qed.

Lemma rstrip_head (c : ascii) (s : string) :
  Py.rstrip (String c s) = "" ∨ ∃ r, Py.rstrip (String c s) = String c r.
Proof.
  rewrite rstrip_unfold. destruct (Py.rstrip s); [|by eauto].
  destruct (Py.is_space c); by eauto.
Qed.

Lemma rstrip_idem (s : string) : Py.rstrip (Py.rstrip s) = Py.rstrip s.
Proof.
  induction s as [|c s IH]; [done|]. rewrite rstrip_unfold.
  destruct (Py.rstrip s) as [|d r] eqn:Hr.
  - destruct (Py.is_space c) eqn:Hc; [done|]. simpl. by rewrite Hc.
  - rewrite rstrip_unfold. by rewrite IH.
Qed.

Lemma rstrip_snoc (a : string) (c : ascii) :
  Py.is_space c = false → Py.rstrip (a +:+ String c "") = a +:+ String c "".
Proof.
  intros Hc. induction a as [|d a IH].
  - rewrite app_nil_l. simpl. by rewrite Hc.
  - rewrite app_cons, rstrip_unfold, IH.
    by destruct a.
Qed.

Lemma strip_head (s : string) :
  Py.strip s = "" ∨ ∃ c r, Py.strip s = String c r ∧ Py.is_space c = false.
Proof.
  unfold Py.strip.
  destruct (lstrip_head s) as [->|(c & r & -> & Hc)]; [by left|].
  destruct (rstrip_head c r) as [->|(r' & ->)]; [by left|].
  right. by exists c, r'.
Qed.

(** [s.strip().strip() == s.strip()] *)
Lemma strip_idem (s : string) : Py.strip (Py.strip s) = Py.strip s.
Proof.
  destruct (strip_head s) as [->|(c & r & Heq & Hc)]; [done|].
  unfold Py.strip at 1. rewrite Heq, lstrip_fixed by done.
  rewrite <-Heq. unfold Py.strip. apply rstrip_idem.
Qed.

Lemma endswith_unfold (s suf : string) :
  Py.endswith s suf =
    if decide (s = suf) then true
    else match s with
         | "" => false
         | String _ s' => Py.endswith s' suf
         end.
Proof. by destruct s. Qed.

Lemma endswith_app (a suf : string) : Py.endswith (a +:+ suf) suf = true.
Proof.
  induction a as [|c a IH]; rewrite endswith_unfold.
  - by rewrite decide_True.
  - rewrite app_cons. by destruct (decide _).
Qed.

Lemma app_eq_nil (a b : string) : a +:+ b = "" → a = "" ∧ b = "".
Proof. destruct a; [done|]. by rewrite app_cons. Qed.

Lemma rstrip_char_unfold (x c : ascii) (s : string) :
  Py.rstrip_char x (String c s) =
    match Py.rstrip_char x s with
    | "" => if decide (c = x) then "" else String c ""
    | r => String c r
    end.
Proof. reflexivity. Qed.

Lemma rstrip_char_snoc (x : ascii) (s : string) :
  Py.rstrip_char x (s +:+ String x "") = Py.rstrip_char x s.
Proof.
  induction s as [|c s IH].
  - rewrite app_nil_l. simpl. by rewrite decide_True.
  - by rewrite app_cons, !rstrip_char_unfold, IH.
Qed.

Lemma rstrip_char_idem (x : ascii) (s : string) :
  Py.rstrip_char x (Py.rstrip_char x s) = Py.rstrip_char x s.
Proof.
  induction s as [|c s IH]; [done|]. rewrite rstrip_char_unfold.
  destruct (Py.rstrip_char x s) as [|d r] eqn:Hr.
  - destruct (decide (c = x)) as [|Hc]; [done|]. simpl. by rewrite decide_False.
  - by rewrite rstrip_char_unfold, IH.
Qed.

Lemma take_length (k : nat) (s : string) :
  String.length (py_take k s) = Nat.min k (String.length s).
Proof.
  unfold py_take. revert k. induction s as [|c s IH]; intros [|k]; simpl; try done.
  by rewrite IH.
Qed.

Lemma take_prefix (k : nat) (s : string) : ∃ rest, s = py_take k s +:+ rest.
Proof.
  unfold py_take. revert k. induction s as [|c s IH]; intros [|k]; simpl.
  - by exists "".
  - by exists "".
  - by exists (String c s).
  - destruct (IH k) as [rest Hrest]. exists rest.
    rewrite app_cons. by rewrite <-Hrest.
Qed.

End strip_facts.

(** A stripped prefix that is empty or ends in ["/"] is kept. *)
Lemma normalize_prefix_fixed (q : string) :
  Py.strip q = q → (q = "" ∨ Py.endswith q "/" = true) → normalize_prefix q = q.
Proof.
  intros Hq Hend. unfold normalize_prefix. rewrite Hq.
  destruct Hend as [->| ->]; [done|]. by rewrite andb_false_r.
Qed.

(** X1.  The destination prefix every script derives from [--dest-path]
    ([dest_path.strip()], then a ["/"] appended when the result is not empty
    and does not end in one) is either empty or ends in ["/"]; it is empty
    exactly when the argument is empty or white space only; and deriving the
    prefix of a prefix changes nothing. *)
Theorem dest_prefix_normal_form (dest_path : string) :
  let p := normalize_prefix dest_path in
  (p = "" ∨ Py.endswith p "/" = true)
  ∧ (p = "" ↔ Py.strip dest_path = "")
  ∧ normalize_prefix p = p.
Proof.
  intros p.
  destruct (strip_head dest_path) as [Hs|(c & r & Hs & Hc)].
  - assert (p = "") as ->.
    { unfold p, normalize_prefix. by rewrite Hs. }
    split_and!; [by left|done|done].
  - destruct (Py.endswith (String c r) "/") eqn:He.
    + assert (p = String c r) as ->.
      { unfold p, normalize_prefix. rewrite Hs, He. by rewrite andb_false_r. }
      split_and!; [by right|by rewrite Hs|].
      apply normalize_prefix_fixed; [|by right].
      by rewrite <-Hs, strip_idem.
    + assert (p = String c r +:+ "/") as ->.
      { unfold p, normalize_prefix. rewrite Hs, He.
        by rewrite bool_decide_true by done. }
      pose proof (endswith_app (String c r) "/") as Hend.
      split_and!; [by right|by rewrite Hs, app_cons|].
      apply normalize_prefix_fixed; [|by right].
      unfold Py.strip. rewrite app_cons, lstrip_fixed by done.
      rewrite <-app_cons. by apply rstrip_snoc.
Qed.

(** X2.  A trailing slash on the gateway does not change what is
    downloaded: the three IPFS scripts build the address from
    [gateway.rstrip('/')], so [g + "/"] and [g], and a gateway with its
    slashes stripped, give the same address and the same GET request. *)
Theorem gateway_trailing_slash (g cid : string) (n t : Z) :
  ApesJson.source_url (g +:+ "/") cid n = ApesJson.source_url g cid n
  ∧ HogsJson.source_url (g +:+ "/") cid n = HogsJson.source_url g cid n
  ∧ Hogs.source_url (g +:+ "/") cid (Hogs.filename n) = Hogs.source_url g cid (Hogs.filename n)
  ∧ ApesJson.source_url (Py.rstrip_char "/" g) cid n = ApesJson.source_url g cid n
  ∧ Hogs.get_request (g +:+ "/") cid (Hogs.filename n) t
    = Hogs.get_request g cid (Hogs.filename n) t.
Proof.
  unfold ApesJson.source_url, HogsJson.source_url, Hogs.get_request, Hogs.source_url.
  by rewrite (rstrip_char_snoc "/" g), rstrip_char_idem.
Qed.

(** X3.  [bunny_put] of [ipfs-to-cdn-hogs.py]: when the local file does
    not exist, it raises [FileNotFoundError] and sends nothing.  When the
    file exists and the call returns [(ok, code, text)], exactly one PUT
    with the bytes of the file was sent, [ok] holds exactly when the status
    is 200 or 201, [text] is a prefix of the response text of at most 200
    characters, and the temporary directory is left as it was. *)
Theorem bunny_put_outcome (W : Type) (remote : Network W) (z k : string)
    (r : option string) (key f : string) (s : sys W) :
  (tmp s ≫= (.!! f) = None →
   Hogs.bunny_put z k r key f s
   = (Err {| exn_kind := ExFileNotFound; exn_text := f |}, s))
  ∧ (∀ content ok code text s',
       tmp s ≫= (.!! f) = Some content →
       Hogs.bunny_put z k r key f s = (Ok (ok, code, text), s') →
       (ok = true ↔ code = 200 ∨ code = 201)
       ∧ (String.length text ≤ 200)%nat
       ∧ ∃ body rest,
           trace s' = trace s
                      ++ [Sent (Hogs.put_request z k r key content) (Response code body)]
           ∧ body = text +:+ rest
           ∧ tmp s' = tmp s).
Proof.
  rewrite hogs_bunny_put_run. split.
  - by intros ->.
  - intros content ok code text s' -> Hrun. cbv zeta in Hrun.
    destruct (send _ _) as [[code' body|e] w]; [|done].
    injection Hrun as <- <- <- <-. split_and!.
    + unfold is_success. rewrite bool_decide_eq_true. done.
    + rewrite take_length. lia.
    + destruct (take_prefix 200 body) as [rest Hrest].
      exists body, rest. done.
Qed.

Lemma bunny_put_outcome_witness :
  let s := stash "7.png" "PNG" (boot tt) in
  let run := Hogs.bunny_put (remote := table_network (empty_source []))
               "zone" "key" None "hogs/7.png" "7.png" s in
  run.1 = Ok (true, 201, "created")
  ∧ (true = true ↔ 201 = 200 ∨ 201 = 201)
  ∧ (String.length "created" ≤ 200)%nat
  ∧ ∃ body rest,
      trace run.2
      = trace s ++ [Sent (Hogs.put_request "zone" "key" None "hogs/7.png" "PNG")
                      (Response 201 body)]
      ∧ body = "created" +:+ rest
      ∧ tmp run.2 = tmp s.
Proof.
  intros s run. split; [by vm_compute|].
  apply (proj2 (bunny_put_outcome unit (table_network (empty_source []))
                  "zone" "key" None "hogs/7.png" "7.png" s)
           "PNG" true 201 "created" run.2).
  - by vm_compute.
  - by vm_compute.
Defined.

(** * Further properties: [ipfs-to-cdn-apes-json.py] *)

Section count_facts.

Lemma count_replies_app (m : http_method) (good : reply → bool) (t1 t2 : list event) :
  count_replies m good (t1 ++ t2) = count_replies m good t1 + count_replies m good t2.
Proof. unfold count_replies. rewrite List.filter_app, length_app. lia. Qed.

Lemma downloads_app (t1 t2 : list event) :
  downloads (t1 ++ t2) = downloads t1 + downloads t2.
Proof. apply count_replies_app. Qed.

Lemma uploads_accepted_app (t1 t2 : list event) :
  uploads_accepted (t1 ++ t2) = uploads_accepted t1 + uploads_accepted t2.
Proof. apply count_replies_app. Qed.

Lemma uploads_refused_app (t1 t2 : list event) :
  uploads_refused (t1 ++ t2) = uploads_refused t1 + uploads_refused t2.
Proof. apply count_replies_app. Qed.

Lemma count_replies_nonneg (m : http_method) (good : reply → bool) (t : list event) :
  0 ≤ count_replies m good t.
Proof. unfold count_replies. lia. Qed.

End count_facts.

Ltac item_lines :=
  repeat first
    [ apply Forall_nil_2
    | apply Forall_cons_2; [first [left; reflexivity | right; reflexivity]|] ].

Ltac counts_done :=
  split_and!;
  try (by repeat constructor);
  try (unfold uploads_accepted, uploads_refused, downloads, count_replies; simpl; lia);
  try (intros; simpl in *; lia);
  try done;
  try (intros _; split; [done|set_solver]).

Section apes_items.
Context {W : Type} {remote : Network W}.
Import ApesJson.

(** One iteration, whatever the remote side does. *)
Lemma apes_body_item (a : args) (p : string) (n : Z) (c : counters) (s : sys W) :
  ∃ blk lines,
    apes_item a p n blk
    ∧ trace (loop_body a p n c s).2 = trace s ++ blk
    ∧ out (loop_body a p n c s).2 = out s ++ lines
    ∧ Forall item_line lines
    ∧ (is_Some (tmp s) → is_Some (tmp (loop_body a p n c s).2))
    ∧ match (loop_body a p n c s).1 with
      | Ok (ctl, c') =>
          Forall (λ ev, raised ev = None) blk
          ∧ found_count c' = found_count c + downloads blk
          ∧ uploaded_count c' = uploaded_count c + uploads_accepted blk
          ∧ errors_upload c' = errors_upload c + uploads_refused blk
          ∧ downloads blk = uploads_accepted blk + uploads_refused blk
          ∧ (0 ≤ consecutive_missing c → 0 ≤ consecutive_missing c')
          ∧ (ctl = Break →
             max_missing a ≤ consecutive_missing c'
             ∧ (Stdout, "Stopping at n=" +:+ Py.str n +:+ ": reached "
                        +:+ Py.str (consecutive_missing c')
                        +:+ " consecutive misses.") ∈ lines)
      | Err e =>
          ∃ pre rq, blk = pre ++ [Sent rq (Raised e)]
                    ∧ Forall (λ ev, raised ev = None) pre
      end.
Proof.
  rewrite apes_loop_body_run, apes_download_json_run. cbv zeta.
  fold (apes_get a n).
  destruct (send (apes_get a n) (net s)) as [[code body|e] w].
  - case_bool_decide as Hcode.
    + subst code. rewrite apes_bunny_put_run. simpl.
      rewrite lookup_insert_eq. simpl.
      fold (apes_put a p n body).
      destruct (send (apes_put a p n body) w) as [[up_code up_text|e] w2].
      * destruct (is_success up_code) eqn:Hup.
        -- eexists [_; _], [_]. split; [apply apes_item_fetched|].
           split.
           { destruct (delete_local a); simpl; by rewrite <-app_assoc. }
           split.
           { by destruct (delete_local a). }
           split.
           { item_lines. }
           split.
           { intros _. by destruct (delete_local a). }
           simpl. unfold uploads_accepted, uploads_refused, downloads, count_replies.
           simpl. rewrite Hup. simpl. split_and!; try done; try lia.
           by repeat constructor.
        -- eexists [_; _], [_]. split; [apply apes_item_fetched|].
           split; [simpl; by rewrite <-app_assoc|].
           split; [done|].
           split; [item_lines|].
           split; [done|].
           simpl. unfold uploads_accepted, uploads_refused, downloads, count_replies.
           simpl. rewrite Hup. simpl. split_and!; try done; try lia.
           by repeat constructor.
      * eexists [_; _], []. split; [apply apes_item_fetched|].
        split; [simpl; by rewrite <-app_assoc|].
        split; [simpl; by rewrite app_nil_r|].
        split; [done|]. split; [done|].
        simpl. exists [Sent (apes_get a n) (Response 200 body)], (apes_put a p n body).
        split; [done|]. by repeat constructor.
    + assert (downloads [Sent (apes_get a n) (Response code body)] = 0) as Hd.
      { unfold downloads, count_replies. simpl. by rewrite bool_decide_false. }
      repeat case_bool_decide; simpl.
      * eexists [_], [_; _]. split; [by apply apes_item_missing|].
        split; [done|]. split; [by rewrite <-app_assoc|].
        split; [item_lines|]. split; [done|].
        rewrite Hd. counts_done.
      * eexists [_], [_]. split; [by apply apes_item_missing|].
        split; [done|]. split; [done|].
        split; [item_lines|]. split; [done|].
        rewrite Hd. counts_done.
      * eexists [_], [_]. split; [by apply apes_item_missing|].
        split; [done|]. split; [done|].
        split; [item_lines|]. split; [done|].
        rewrite Hd. counts_done.
      * eexists [_], []. split; [by apply apes_item_missing|].
        split; [done|]. split; [by rewrite app_nil_r|].
        split; [item_lines|]. split; [done|].
        rewrite Hd. counts_done.
  - eexists [_], []. split; [apply apes_item_raised|].
    split; [done|]. split; [simpl; by rewrite app_nil_r|].
    split; [done|]. split; [done|].
    simpl. by exists [], (apes_get a n).
Qed.

Lemma apes_item_fetched_ids (a : args) (p : string) (n : Z) (blk : list event) :
  apes_item a p n blk →
  fetched_ids (source_prefix (gateway a) (cid a)) blk = [n].
Proof.
  destruct 1 as [code body Hcode|e|body rp]; unfold apes_get.
  - apply apes_fetched_get.
  - apply apes_fetched_get.
  - change (fetched_ids (source_prefix (gateway a) (cid a))
              ([Sent (get_request (gateway a) (cid a) n (download_timeout a))
                  (Response 200 body)] ++ [Sent (apes_put a p n body) rp]) = [n]).
    by rewrite fetched_ids_app, apes_fetched_get.
Qed.

Lemma apes_items_fetched_ids (a : args) (p : string) (ids : list Z)
    (items : list (list event)) :
  Forall2 (apes_item a p) ids items →
  fetched_ids (source_prefix (gateway a) (cid a)) (concat items) = ids.
Proof.
  induction 1 as [|n blk ids items Hitem _ IH]; [done|].
  simpl. rewrite fetched_ids_app, IH.
  by rewrite (apes_item_fetched_ids a p n blk).
Qed.

(** The scan, whatever the remote side does. *)
Lemma apes_scan_items (a : args) (p : string) (c0 : counters) (s0 : sys W) :
  0 ≤ consecutive_missing c0 →
  ∃ stop items lines,
    start_number a ≤ stop ≤ Z.max (start_number a) (end_number a + 1)
    ∧ trace (for_loop (range (start_number a) (end_number a + 1))
               (loop_body a p) c0 s0).2 = trace s0 ++ concat items
    ∧ Forall2 (apes_item a p) (range (start_number a) stop) items
    ∧ out (for_loop (range (start_number a) (end_number a + 1))
             (loop_body a p) c0 s0).2 = out s0 ++ lines
    ∧ Forall item_line lines
    ∧ (is_Some (tmp s0) →
       is_Some (tmp (for_loop (range (start_number a) (end_number a + 1))
                       (loop_body a p) c0 s0).2))
    ∧ match (for_loop (range (start_number a) (end_number a + 1))
               (loop_body a p) c0 s0).1 with
      | Ok c =>
          Forall (λ ev, raised ev = None) (concat items)
          ∧ found_count c = found_count c0 + downloads (concat items)
          ∧ uploaded_count c = uploaded_count c0 + uploads_accepted (concat items)
          ∧ errors_upload c = errors_upload c0 + uploads_refused (concat items)
          ∧ downloads (concat items)
            = uploads_accepted (concat items) + uploads_refused (concat items)
          ∧ 0 ≤ consecutive_missing c
          ∧ (stop = Z.max (start_number a) (end_number a + 1)
             ∨ (max_missing a ≤ consecutive_missing c
                ∧ (Stdout, "Stopping at n=" +:+ Py.str (stop - 1) +:+ ": reached "
                           +:+ Py.str (consecutive_missing c)
                           +:+ " consecutive misses.") ∈ lines))
      | Err e =>
          ∃ pre rq, concat items = pre ++ [Sent rq (Raised e)]
                    ∧ Forall (λ ev, raised ev = None) pre
      end.
Proof.
  intros Hc0.
  set (lo := start_number a). set (hi := end_number a + 1).
  set (Q := λ (r : result counters) (s' : sys W),
    ∃ stop items lines,
      lo ≤ stop ≤ Z.max lo hi
      ∧ trace s' = trace s0 ++ concat items
      ∧ Forall2 (apes_item a p) (range lo stop) items
      ∧ out s' = out s0 ++ lines
      ∧ Forall item_line lines
      ∧ (is_Some (tmp s0) → is_Some (tmp s'))
      ∧ match r with
        | Ok c =>
            Forall (λ ev, raised ev = None) (concat items)
            ∧ found_count c = found_count c0 + downloads (concat items)
            ∧ uploaded_count c = uploaded_count c0 + uploads_accepted (concat items)
            ∧ errors_upload c = errors_upload c0 + uploads_refused (concat items)
            ∧ downloads (concat items)
              = uploads_accepted (concat items) + uploads_refused (concat items)
            ∧ 0 ≤ consecutive_missing c
            ∧ (stop = Z.max lo hi
               ∨ (max_missing a ≤ consecutive_missing c
                  ∧ (Stdout, "Stopping at n=" +:+ Py.str (stop - 1) +:+ ": reached "
                             +:+ Py.str (consecutive_missing c)
                             +:+ " consecutive misses.") ∈ lines))
        | Err e =>
            ∃ pre rq, concat items = pre ++ [Sent rq (Raised e)]
                      ∧ Forall (λ ev, raised ev = None) pre
        end).
  set (I := λ (i : Z) (c : counters) (s : sys W),
    ∃ items lines,
      trace s = trace s0 ++ concat items
      ∧ Forall2 (apes_item a p) (range lo i) items
      ∧ out s = out s0 ++ lines
      ∧ Forall item_line lines
      ∧ (is_Some (tmp s0) → is_Some (tmp s))
      ∧ Forall (λ ev, raised ev = None) (concat items)
      ∧ found_count c = found_count c0 + downloads (concat items)
      ∧ uploaded_count c = uploaded_count c0 + uploads_accepted (concat items)
      ∧ errors_upload c = errors_upload c0 + uploads_refused (concat items)
      ∧ downloads (concat items)
        = uploads_accepted (concat items) + uploads_refused (concat items)
      ∧ 0 ≤ consecutive_missing c).
  change (Q (for_loop (range lo hi) (loop_body a p) c0 s0).1
            (for_loop (range lo hi) (loop_body a p) c0 s0).2).
  apply (for_range_rule I Q).
  - intros i c s Hi (items & lines & Htr & Hitems & Hout & Hlines & Htmp & Hans
                     & Hfound & Hup & Herr & Hbal & Hcm).
    destruct (apes_body_item a p i c s)
      as (blk & lines' & Hitem & Htr' & Hout' & Hlines' & Htmp' & Hres).
    assert (concat (items ++ [blk]) = concat items ++ blk) as Hcat.
    { rewrite concat_app. simpl. by rewrite app_nil_r. }
    assert (Forall2 (apes_item a p) (range lo (i + 1)) (items ++ [blk])) as Hitems'.
    { rewrite range_snoc by lia. apply Forall2_app; [done|]. by repeat constructor. }
    destruct (loop_body a p i c s) as [[[[] c']|e] s']; simpl in *.
    + destruct Hres as (Hans' & Hfound' & Hup' & Herr' & Hbal' & Hcm' & _).
      exists (items ++ [blk]), (lines ++ lines').
      rewrite Hcat, downloads_app, uploads_accepted_app, uploads_refused_app.
      split_and!; try lia; try done;
        try (by rewrite Htr', Htr, <-app_assoc);
        try (by rewrite Hout', Hout, <-app_assoc);
        try (by apply Forall_app); auto.
    + destruct Hres as (Hans' & Hfound' & Hup' & Herr' & Hbal' & Hcm' & Hstop).
      destruct (Hstop eq_refl) as [Hmax Hline].
      exists (i + 1), (items ++ [blk]), (lines ++ lines').
      rewrite Hcat, downloads_app, uploads_accepted_app, uploads_refused_app.
      split_and!; try lia; try done;
        try (by rewrite Htr', Htr, <-app_assoc);
        try (by rewrite Hout', Hout, <-app_assoc);
        try (by apply Forall_app); auto.
      right. split; [done|]. replace (i + 1 - 1) with i by lia.
      apply elem_of_app. by right.
    + destruct Hres as (pre & rq & -> & Hpre).
      exists (i + 1), (items ++ [pre ++ [Sent rq (Raised e)]]), (lines ++ lines').
      rewrite Hcat.
      split_and!; try lia; try done;
        try (by rewrite Htr', Htr, <-app_assoc);
        try (by rewrite Hout', Hout, <-app_assoc);
        try (by apply Forall_app); auto.
      exists (concat items ++ pre), rq. rewrite <-app_assoc. split; [done|].
        by apply Forall_app.
  - intros c s (items & lines & Htr & Hitems & Hout & Hlines & Htmp & Hans
                & Hfound & Hup & Herr & Hbal & Hcm).
    exists (Z.max lo hi), items, lines. split_and!; try lia; try done; by left.
  - exists [], []. unfold range. rewrite Z.sub_diag. simpl.
    rewrite !app_nil_r. split_and!; try done; try lia;
      unfold downloads, uploads_accepted, uploads_refused, count_replies; simpl; lia.
Qed.

End apes_items.

Section apes_whole_run.
Context {W : Type} {remote : Network W}.
Import ApesJson.

Lemma summary_not_item_line (ch : channel) (c : counters) :
  ¬ item_line (ch, summary_line c).
Proof.
  intros [H|H];
    [change (Some "D"%char = Some "["%char) in H
    |change (Some "D"%char = Some "S"%char) in H]; discriminate.
Qed.

(** The whole run, whatever the remote side does. *)
Lemma apes_main_items (a : args) (s : sys W) :
  storage_zone a ≠ "" → access_key a ≠ "" →
  ∃ stop items lines,
    start_number a ≤ stop ≤ Z.max (start_number a) (end_number a + 1)
    ∧ trace (main a s).2 = trace s ++ concat items
    ∧ Forall2 (apes_item a (normalize_prefix (dest_path a)))
        (range (start_number a) stop) items
    ∧ Forall item_line lines
    ∧ match (main a s).1 with
      | Ok Exit1 => False
      | Ok (Done c) =>
          (∃ last, out (main a s).2
                   = out s ++ lines ++ [(Stdout, summary_line c); last])
          ∧ Forall (λ ev, raised ev = None) (concat items)
          ∧ found_count c = downloads (concat items)
          ∧ uploaded_count c = uploads_accepted (concat items)
          ∧ errors_upload c = uploads_refused (concat items)
          ∧ found_count c = uploaded_count c + errors_upload c
          ∧ 0 ≤ consecutive_missing c
          ∧ (stop = Z.max (start_number a) (end_number a + 1)
             ∨ (max_missing a ≤ consecutive_missing c
                ∧ (Stdout, "Stopping at n=" +:+ Py.str (stop - 1) +:+ ": reached "
                           +:+ Py.str (consecutive_missing c)
                           +:+ " consecutive misses.") ∈ lines))
      | Err e =>
          out (main a s).2 = out s ++ lines
          ∧ is_Some (tmp (main a s).2)
          ∧ ∃ pre rq, concat items = pre ++ [Sent rq (Raised e)]
                      ∧ Forall (λ ev, raised ev = None) pre
      end.
Proof.
  intros Hz Hk. rewrite apes_main_run by done. cbv zeta.
  match goal with
  | |- context [for_loop _ _ ?c0 ?s1] =>
      destruct (apes_scan_items a (normalize_prefix (dest_path a)) c0 s1)
        as (stop & items & lines & Hstop & Htr & Hitems & Hout & Hlines & Htmp & Hres);
        [simpl; lia|];
      destruct (for_loop _ _ c0 s1) as [[c|e] s2]
  end; simpl in *.
  - destruct Hres as (Hans & Hfound & Hup & Herr & Hbal & Hcm & Hend).
    exists stop, items,
      ((Stdout, "Single-pass: scanning & uploading "
                 +:+ Py.str (end_number a - start_number a + 1)
                 +:+ " candidates: " +:+ gateway a +:+ "/ipfs/" +:+ cid a +:+ "/N.json")
       :: (Stdout, "Stopping after " +:+ Py.str (max_missing a)
                   +:+ " consecutive misses.") :: lines).
    split; [done|]. split.
    { by destruct (_ && _). }
    split; [done|]. split.
    { apply Forall_cons_2; [by right|]. apply Forall_cons_2; [by right|done]. }
    split.
    { destruct (_ && _); simpl; rewrite Hout, <-!app_assoc; simpl; by eexists. }
    split_and!; try done; try lia.
    destruct Hend as [?|[? Hin]]; [by left|right]. split; [done|].
    by do 2 (apply elem_of_cons; right).
  - destruct Hres as (pre & rq & Hcat & Hpre).
    exists stop, items,
      ((Stdout, "Single-pass: scanning & uploading "
                 +:+ Py.str (end_number a - start_number a + 1)
                 +:+ " candidates: " +:+ gateway a +:+ "/ipfs/" +:+ cid a +:+ "/N.json")
       :: (Stdout, "Stopping after " +:+ Py.str (max_missing a)
                   +:+ " consecutive misses.") :: lines).
    split; [done|]. split; [done|]. split; [done|]. split.
    { apply Forall_cons_2; [by right|]. apply Forall_cons_2; [by right|done]. }
    split; [by rewrite Hout, <-!app_assoc|].
    split; [by apply Htmp|]. by exists pre, rq.
Qed.

End apes_whole_run.

(** X4.  With credentials given, what a run of [ipfs-to-cdn-apes-json.py]
    sends is one block per id, for the ids from [start_number] up to some
    [stop] at most [end_number + 1], in increasing order: a download
    answered with a status other than 200, a download that raised, or a
    download answered 200 followed by the upload, under the id's
    destination key, of exactly the body that was downloaded.  Nothing else
    is sent. *)
Theorem apes_run_item_by_item (W : Type) (remote : Network W) (a : ApesJson.args)
    (s : sys W) :
  ApesJson.storage_zone a ≠ "" → ApesJson.access_key a ≠ "" →
  ∃ stop items,
    ApesJson.start_number a ≤ stop
      ≤ Z.max (ApesJson.start_number a) (ApesJson.end_number a + 1)
    ∧ trace (ApesJson.main a s).2 = trace s ++ concat items
    ∧ Forall2 (apes_item a (normalize_prefix (ApesJson.dest_path a)))
        (range (ApesJson.start_number a) stop) items.
Proof.
  intros Hz Hk.
  destruct (apes_main_items a s Hz Hk) as (stop & items & _ & ? & ? & ? & _).
  by exists stop, items.
Qed.

Lemma apes_run_item_by_item_witness :
  let a := apes_args 5 10 75 in
  ∃ stop items,
    5 ≤ stop ≤ Z.max 5 (10 + 1)
    ∧ trace (ApesJson.main (remote := table_network (dense_prefix 8 [5])) a (boot tt)).2
      = [] ++ concat items
    ∧ Forall2 (apes_item a "ape_jsons/") (range 5 stop) items.
Proof.
  intros a.
  apply (apes_run_item_by_item unit (table_network (dense_prefix 8 [5])) a (boot tt));
    discriminate.
Defined.

(** X5.  In [ipfs-to-cdn-apes-json.py] an exception of the HTTP session is
    not caught.  Whatever a run ends with, it only appends to the trace and
    to the output; if it returns, every request was answered; if it ends
    with the exception [e], then [e] was raised by the last request sent and
    every earlier request was answered, no summary line is printed, and the
    temporary directory is left behind. *)
Theorem apes_exception_ends_run (W : Type) (remote : Network W) (a : ApesJson.args)
    (s s' : sys W) (r : result ApesJson.outcome) :
  ApesJson.main a s = (r, s') →
  ∃ evs lines,
    trace s' = trace s ++ evs
    ∧ out s' = out s ++ lines
    ∧ match r with
      | Ok _ => Forall (λ ev, raised ev = None) evs
      | Err e =>
          (∃ pre rq, evs = pre ++ [Sent rq (Raised e)]
                     ∧ Forall (λ ev, raised ev = None) pre)
          ∧ (∀ c, (Stdout, ApesJson.summary_line c) ∉ lines)
          ∧ is_Some (tmp s')
      end.
Proof.
  intros Hrun.
  destruct (decide (ApesJson.storage_zone a = "")) as [Hz|Hz];
    [|destruct (decide (ApesJson.access_key a = "")) as [Hk|Hk]].
  - unfold ApesJson.main in Hrun. rewrite (bool_decide_true _ Hz) in Hrun.
    injection Hrun as <- <-. eexists [], [_]. by rewrite app_nil_r.
  - unfold ApesJson.main in Hrun. rewrite (bool_decide_true _ Hk), orb_true_r in Hrun.
    injection Hrun as <- <-. eexists [], [_]. by rewrite app_nil_r.
  - destruct (apes_main_items a s Hz Hk) as (stop & items & lines & _ & Htr & _ & Hlines & Hres).
    rewrite Hrun in Htr, Hres. simpl in *.
    destruct r as [[|c]|e]; [done|..].
    + destruct Hres as ((last & Hout) & Hans & _).
      eexists (concat items), _. by split_and!.
    + destruct Hres as (Hout & Htmp & Hraised).
      exists (concat items), lines. split_and!; try done.
      intros c Hin. apply (summary_not_item_line Stdout c).
      by apply (proj1 (Forall_forall _ _) Hlines).
Qed.

Lemma apes_exception_ends_run_witness :
  let run := ApesJson.main (remote := table_network (stalls_at "https://ipfs.io/ipfs/CID/" 7))
               (apes_args 5 10 75) (boot tt) in
  let timeout := {| exn_kind := ExTimeout; exn_text := "Read timed out." |} in
  run.1 = Err timeout
  ∧ fetched_ids "https://ipfs.io/ipfs/CID/" (trace run.2) = [5; 6; 7]
  ∧ ∃ evs lines,
      trace run.2 = trace (boot tt) ++ evs
      ∧ out run.2 = out (boot tt) ++ lines
      ∧ (∃ pre rq, evs = pre ++ [Sent rq (Raised timeout)]
                   ∧ Forall (λ ev, raised ev = None) pre)
      ∧ (∀ c, (Stdout, ApesJson.summary_line c) ∉ lines)
      ∧ is_Some (tmp run.2).
Proof.
  intros run timeout.
  assert (run = (Err timeout, run.2)) as Hrun by (by vm_compute).
  split; [by rewrite Hrun|]. split; [by vm_compute|].
  exact (apes_exception_ends_run unit _ _ _ _ _ Hrun).
Defined.

(** X6.  When [ipfs-to-cdn-apes-json.py] runs to its summary, the counters
    are those of the traffic of the run: [found_count] is the number of
    downloads answered 200, [uploaded_count] the number of uploads answered
    200 or 201, [errors_upload] the number of uploads answered with another
    status; every file found is counted as uploaded or as an upload error,
    and the summary line with these counters is printed. *)
Theorem apes_summary_counts_the_trace (W : Type) (remote : Network W)
    (a : ApesJson.args) (s s' : sys W) (c : ApesJson.counters) :
  ApesJson.main a s = (Ok (ApesJson.Done c), s') →
  ∃ evs,
    trace s' = trace s ++ evs
    ∧ ApesJson.found_count c = downloads evs
    ∧ ApesJson.uploaded_count c = uploads_accepted evs
    ∧ ApesJson.errors_upload c = uploads_refused evs
    ∧ ApesJson.found_count c = ApesJson.uploaded_count c + ApesJson.errors_upload c
    ∧ (Stdout, ApesJson.summary_line c) ∈ out s'.
Proof.
  intros Hrun.
  destruct (decide (ApesJson.storage_zone a = "")) as [Hz|Hz];
    [|destruct (decide (ApesJson.access_key a = "")) as [Hk|Hk]].
  - unfold ApesJson.main in Hrun. by rewrite (bool_decide_true _ Hz) in Hrun.
  - unfold ApesJson.main in Hrun.
    by rewrite (bool_decide_true _ Hk), orb_true_r in Hrun.
  - destruct (apes_main_items a s Hz Hk) as (stop & items & lines & _ & Htr & _ & _ & Hres).
    rewrite Hrun in Htr, Hres. simpl in *.
    destruct Hres as ((last & Hout) & _ & Hfound & Hup & Herr & Hbal & _).
    exists (concat items). split_and!; try done.
    rewrite Hout. apply elem_of_app. right. apply elem_of_app. right.
    apply elem_of_cons. by left.
Qed.

Lemma apes_summary_counts_the_trace_witness :
  let run := ApesJson.main (remote := table_network (dense_prefix 8 [5]))
               (apes_args 5 10 75) (boot tt) in
  let c := {| ApesJson.consecutive_missing := 3; ApesJson.found_count := 3;
              ApesJson.uploaded_count := 2; ApesJson.errors_upload := 1 |} in
  run.1 = Ok (ApesJson.Done c)
  ∧ ∃ evs,
      trace run.2 = trace (boot tt) ++ evs
      ∧ 3 = downloads evs ∧ 2 = uploads_accepted evs ∧ 1 = uploads_refused evs
      ∧ 3 = 2 + 1
      ∧ (Stdout, ApesJson.summary_line c) ∈ out run.2.
Proof.
  intros run c.
  assert (run = (Ok (ApesJson.Done c), run.2)) as Hrun by (by vm_compute).
  split; [by rewrite Hrun|].
  exact (apes_summary_counts_the_trace unit _ _ _ _ _ Hrun).
Defined.

(** X7.  When [ipfs-to-cdn-apes-json.py] runs to its summary, the ids it
    asked the gateway for are [start_number], [start_number + 1], ... up to
    [stop - 1] without a gap or a repetition; the miss streak is never
    negative; and either the whole range was scanned or the streak reached
    [max_missing] and the stop message for the last id asked was
    printed. *)
Theorem apes_scan_covers_range (W : Type) (remote : Network W)
    (a : ApesJson.args) (s s' : sys W) (c : ApesJson.counters) :
  ApesJson.main a s = (Ok (ApesJson.Done c), s') →
  ∃ stop,
    ApesJson.start_number a ≤ stop
      ≤ Z.max (ApesJson.start_number a) (ApesJson.end_number a + 1)
    ∧ fetched_ids (source_prefix (ApesJson.gateway a) (ApesJson.cid a)) (trace s')
      = fetched_ids (source_prefix (ApesJson.gateway a) (ApesJson.cid a)) (trace s)
        ++ range (ApesJson.start_number a) stop
    ∧ 0 ≤ ApesJson.consecutive_missing c
    ∧ (stop = Z.max (ApesJson.start_number a) (ApesJson.end_number a + 1)
       ∨ (ApesJson.max_missing a ≤ ApesJson.consecutive_missing c
          ∧ (Stdout, "Stopping at n=" +:+ Py.str (stop - 1) +:+ ": reached "
                     +:+ Py.str (ApesJson.consecutive_missing c)
                     +:+ " consecutive misses.") ∈ out s')).
Proof.
  intros Hrun.
  destruct (decide (ApesJson.storage_zone a = "")) as [Hz|Hz];
    [|destruct (decide (ApesJson.access_key a = "")) as [Hk|Hk]].
  - unfold ApesJson.main in Hrun. by rewrite (bool_decide_true _ Hz) in Hrun.
  - unfold ApesJson.main in Hrun.
    by rewrite (bool_decide_true _ Hk), orb_true_r in Hrun.
  - destruct (apes_main_items a s Hz Hk)
      as (stop & items & lines & Hstop & Htr & Hitems & _ & Hres).
    rewrite Hrun in Htr, Hres. simpl in *.
    destruct Hres as ((last & Hout) & _ & _ & _ & _ & _ & Hcm & Hend).
    exists stop. split_and!; try done; try lia.
    + by rewrite Htr, fetched_ids_app, (apes_items_fetched_ids _ _ _ _ Hitems).
    + destruct Hend as [?|[? Hin]]; [by left|right]. split; [done|].
      rewrite Hout. apply elem_of_app. right. apply elem_of_app. by left.
Qed.

Lemma apes_scan_covers_range_witness :
  let run := ApesJson.main (remote := table_network (dense_prefix 8 []))
               (apes_args 5 20 3) (boot tt) in
  let c := {| ApesJson.consecutive_missing := 3; ApesJson.found_count := 3;
              ApesJson.uploaded_count := 3; ApesJson.errors_upload := 0 |} in
  run.1 = Ok (ApesJson.Done c)
  ∧ fetched_ids "https://ipfs.io/ipfs/CID/" (trace run.2) = [5; 6; 7; 8; 9; 10]
  ∧ ∃ stop,
      5 ≤ stop ≤ Z.max 5 (20 + 1)
      ∧ fetched_ids "https://ipfs.io/ipfs/CID/" (trace run.2) = [] ++ range 5 stop
      ∧ 0 ≤ 3
      ∧ (stop = Z.max 5 (20 + 1)
         ∨ (3 ≤ 3
            ∧ (Stdout, "Stopping at n=" +:+ Py.str (stop - 1) +:+ ": reached "
                       +:+ Py.str 3 +:+ " consecutive misses.") ∈ out run.2)).
Proof.
  intros run c.
  assert (run = (Ok (ApesJson.Done c), run.2)) as Hrun by (by vm_compute).
  split; [by rewrite Hrun|]. split; [by vm_compute|].
  exact (apes_scan_covers_range unit _ _ _ _ _ Hrun).
Defined.

(** * Further properties: [ipfs-to-cdn-hogs-json.py] *)

Section batches.

Lemma requests_app (t1 t2 : list event) : requests (t1 ++ t2) = requests t1 ++ requests t2.
Proof. unfold requests. by rewrite omap_app. Qed.

Lemma pauses_app (t1 t2 : list event) : pauses (t1 ++ t2) = pauses t1 ++ pauses t2.
Proof. unfold pauses. by rewrite omap_app. Qed.

Lemma requests_elem (rq : request) (rp : reply) (tr : list event) :
  Sent rq rp ∈ tr → rq ∈ requests tr.
Proof.
  intros Hin. unfold requests. apply list_elem_of_omap. by exists (Sent rq rp).
Qed.

(** The starts of the batches of [range(a, b, step)]. *)
Lemma range_step_split (a b step x : Z) (pre post : list Z) :
  0 < step →
  range_step a b step = pre ++ x :: post →
  x = a + Z.of_nat (length pre) * step ∧ x < b.
Proof.
  intros Hstep Hl.
  assert (range_step a b step !! length pre = Some x) as Hx.
  { rewrite Hl. by apply list_lookup_middle. }
  unfold range_step in Hx. rewrite list_lookup_fmap in Hx.
  destruct (seqZ 0 _ !! length pre) as [i|] eqn:Hi; [|done].
  apply lookup_seqZ in Hi as [-> Hlt]. injection Hx as <-.
  split; [lia|].
  pose proof (Z.mul_div_le (b - a + step - 1) step Hstep).
  nia.
Qed.

Lemma range_step_length (a b step : Z) :
  length (range_step a b step) = Z.to_nat ((b - a + step - 1) `div` step).
Proof. unfold range_step. by rewrite length_fmap, length_seqZ. Qed.

Lemma range_empty (a b : Z) : b ≤ a → range a b = [].
Proof. intros Hab. unfold range. apply seqZ_nil. lia. Qed.

End batches.

Section hogsjson_preflight.
Context {W : Type} {remote : Network W}.
Import HogsJson.

Lemma hogsjson_head_inj (z k : string) (r : option string) (p : string) (m n : Z) :
  hogsjson_head z k r p m = hogsjson_head z k r p n → m = n.
Proof.
  intros E. apply (f_equal rq_url) in E. simpl in E.
  unfold storage_url, dest_key in E.
  repeat apply String.app_inj in E. by apply hogsjson_filename_inj.
Qed.

Lemma hogsjson_check_step (z k : string) (r : option string) (p : string) (a i : Z)
    (j : nat) (s : sys W) (ex : gset Z) (s1 : sys W) :
  a ≤ i →
  checked z k r p a s i j ex s1 →
  ∃ ex' s2,
    (present ← check_file_exists_on_cdn z k r (dest_key p i);
     if (present : bool) then
       emit LogInfo ("File " +:+ Py.str i +:+ ".json already exists on CDN");;
       mret (Continue, {[ i ]} ∪ ex)
     else mret (Continue, ex)) s1 = (Ok (Continue, ex'), s2)
    ∧ checked z k r p a s (i + 1) j ex' s2.
Proof.
  intros Hi (Htmp & evs & Htr & Hrq & Hps & Hex).
  rewrite run_bind.
  destruct (hogsjson_check_run z k r (dest_key p i) s1)
    as (s2 & -> & Htr2 & _ & Htmp2).
  fold (hogsjson_head z k r p i) in *.
  set (rp := (send (hogsjson_head z k r p i) (net s1)).1) in *.
  assert (∀ s3 : sys W, tmp s3 = tmp s2 → trace s3 = trace s2 →
          ∀ ex', (∀ n, n ∈ ex' ↔ n ∈ ex ∨ (n = i ∧ ∃ text, rp = Response 200 text)) →
          checked z k r p a s (i + 1) j ex' s3) as Hnext.
  { intros s3 Htmp3 Htr3 ex' Hex'. split; [congruence|].
    exists (evs ++ [Sent (hogsjson_head z k r p i) rp]).
    rewrite Htr3, Htr2, Htr, <-app_assoc. split; [done|].
    rewrite requests_app, pauses_app, Hrq, Hps, range_snoc, fmap_app by done.
    split; [done|]. split; [by rewrite app_nil_r|].
    intros n. rewrite Hex', Hex. split.
    - intros [(text & Hin)|(-> & text & Hrp)].
      + exists text. apply elem_of_app. by left.
      + exists text. apply elem_of_app. right. rewrite Hrp.
        by apply list_elem_of_singleton.
    - intros (text & [Hin|Hin%list_elem_of_singleton]%elem_of_app).
      + left. by exists text.
      + right. apply Sent_inj in Hin as [Hn Hrp].
        apply hogsjson_head_inj in Hn as ->. split; [done|]. by exists text. }
  destruct rp as [code text|e] eqn:Hrp; [case_bool_decide as Hcode|].
  - subst code. eexists _, _. split; [reflexivity|].
    apply Hnext; [done|done|].
    intros n. rewrite elem_of_union, elem_of_singleton. split.
    + intros [->|?]; [right; split; [done|by exists text]|by left].
    + intros [?|[-> _]]; [by right|by left].
  - eexists _, _. split; [reflexivity|].
    apply Hnext; [done|done|].
    intros n. split; [by left|]. intros [?|[_ [text' ?]]]; [done|congruence].
  - eexists _, _. split; [reflexivity|].
    apply Hnext; [done|done|].
    intros n. split; [by left|]. intros [?|[_ [text' ?]]]; [done|congruence].
Qed.

Lemma hogsjson_preflight_run (z k : string) (r : option string) (p : string)
    (a b : Z) (s : sys W) :
  ∃ ex s',
    get_existing_files_on_cdn z k r p a b s = (Ok ex, s')
    ∧ checked z k r p a s (b + 1)
        (Z.to_nat ((b - a + 100) `div` 100)) ex s'.
Proof.
  set (Inv := λ (pre : list Z) (ex : gset Z) (s' : sys W),
    checked z k r p a s (Z.min (a + Z.of_nat (length pre) * 100) (b + 1))
      (length pre) ex s').
  set (Post := λ (res : result (gset Z)) (s' : sys W),
    ∃ ex, res = Ok ex
      ∧ checked z k r p a s (b + 1) (Z.to_nat ((b - a + 100) `div` 100)) ex s').
  assert (Post (get_existing_files_on_cdn z k r p a b s).1
               (get_existing_files_on_cdn z k r p a b s).2) as HPost.
  { unfold get_existing_files_on_cdn. cbv zeta.
    apply (for_loop_rule Inv Post).
    - intros pre x post ex s1 Hl Hinv.
      apply range_step_split in Hl as [Hx Hxb]; [|lia].
      unfold Inv in Hinv. rewrite Z.min_l in Hinv by lia. rewrite <-Hx in Hinv.
      rewrite run_bind.
      set (InvIn := λ (i : Z) (ex' : gset Z) (s' : sys W),
        checked z k r p a s i (length pre) ex' s').
      set (PostIn := λ (res : result (gset Z)) (s' : sys W),
        ∃ ex', res = Ok ex'
          ∧ checked z k r p a s (Z.min (x + 100 - 1) b + 1) (length pre) ex' s').
      match goal with |- context [for_loop ?l ?body ex s1] =>
        assert (PostIn (for_loop l body ex s1).1 (for_loop l body ex s1).2) as HIn;
        [|destruct (for_loop l body ex s1) as [res s2]] end.
      { apply (for_range_rule InvIn PostIn).
        - intros i ex' s' Hi Hchk.
          destruct (hogsjson_check_step z k r p a i (length pre) s ex' s')
            as (ex'' & s'' & Hrun & Hchk'); [lia|done|].
          unfold dest_key in Hrun. unfold dest_key. by rewrite Hrun.
        - intros ex' s' Hchk. exists ex'. split; [done|].
          by rewrite Z.max_r in Hchk by lia.
        - done. }
      destruct HIn as (ex' & Hres & Htmp & evs & Htr & Hrq & Hps & Hex).
      simpl in Hres, Htmp, Htr. subst res.
      unfold mbind, M_bind, mret, M_ret, sleep. simpl.
      unfold Inv. rewrite length_app, Nat.add_1_r.
      split; [done|].
      exists (evs ++ [Slept 100]). cbn [trace record].
      rewrite Htr, <-app_assoc. split; [done|].
      rewrite requests_app, pauses_app, Hrq, Hps.
      change (requests [Slept 100]) with (@nil request).
      change (pauses [Slept 100]) with [100].
      rewrite app_nil_r, replicate_S_end.
      split; [f_equal; f_equal; lia|]. split; [done|].
      intros n. rewrite Hex. split.
      + intros (text & Hin). exists text. apply elem_of_app. by left.
      + intros (text & [Hin|Hin%list_elem_of_singleton]%elem_of_app); [by exists text|done].
    - intros ex s' Hinv. exists ex. split; [done|].
      unfold Inv in Hinv. rewrite range_step_length in Hinv.
      replace (b + 1 - a + 100 - 1) with (b - a + 100) in Hinv by lia.
      destruct (decide (0 < (b - a + 100) `div` 100)) as [Hq|Hq].
      + rewrite Z.min_r in Hinv; [done|].
        pose proof (Z.mod_pos_bound (b - a + 100) 100).
        pose proof (Z.div_mod (b - a + 100) 100). lia.
      + assert (b + 1 ≤ a) as Hab.
        { destruct (decide (b + 1 ≤ a)); [done|].
          assert (1 ≤ (b - a + 100) `div` 100); [|lia].
          apply Z.div_le_lower_bound; lia. }
        replace (Z.to_nat ((b - a + 100) `div` 100)) with 0%nat in * by lia.
        simpl in Hinv. rewrite Z.add_0_r in Hinv.
        destruct Hinv as (Htmp & evs & Htr & Hrq & Hrest).
        split; [done|]. exists evs. split; [done|]. split; [|done].
        by rewrite Hrq, !range_empty by lia.
    - split; [done|]. exists []. rewrite app_nil_r. split; [done|].
      simpl. rewrite Z.add_0_r. split.
      { by rewrite range_empty by lia. }
      split; [done|]. intros n. split; [set_solver|].
      intros (text & Hin). by apply elem_of_nil in Hin. }
  destruct (get_existing_files_on_cdn z k r p a b s) as [res s'].
  destruct HPost as (ex & Hres & Hchk). simpl in Hres. subst res.
  by exists ex, s'.
Qed.

End hogsjson_preflight.

(** X8.  [get_existing_files_on_cdn] of [ipfs-to-cdn-hogs-json.py] always
    returns a set (it never raises).  It sends one HEAD request per id of
    [start_num..end_num], in increasing order, and nothing else; it pauses
    0.1 s after each batch of 100 ids; the set it returns holds exactly the
    ids whose HEAD was answered 200, all of them within the range; the
    temporary directory is left as it was. *)
Theorem preflight_checks_each_id_once (W : Type) (remote : Network W)
    (z k : string) (r : option string) (p : string) (a b : Z) (s : sys W) :
  ∃ ex s' evs,
    HogsJson.get_existing_files_on_cdn z k r p a b s = (Ok ex, s')
    ∧ trace s' = trace s ++ evs
    ∧ requests evs = hogsjson_head z k r p <$> range a (b + 1)
    ∧ pauses evs = replicate (Z.to_nat ((b - a + 100) `div` 100)) 100
    ∧ (∀ n, n ∈ ex ↔
            ∃ text, Sent (hogsjson_head z k r p n) (Response 200 text) ∈ evs)
    ∧ (∀ n, n ∈ ex → a ≤ n ≤ b)
    ∧ tmp s' = tmp s.
Proof.
  destruct (hogsjson_preflight_run z k r p a b s)
    as (ex & s' & Hrun & Htmp & evs & Htr & Hrq & Hps & Hex).
  exists ex, s', evs. split_and!; try done.
  intros n (text & Hin%requests_elem)%Hex.
  rewrite Hrq in Hin. apply list_elem_of_fmap in Hin as (m & Heq & Hm).
  apply hogsjson_head_inj in Heq as ->.
  unfold range in Hm. apply elem_of_seqZ in Hm. lia.
Qed.

Section hogsjson_scan_events.
Context {W : Type} {remote : Network W}.
Import HogsJson.

(** One iteration, whatever the remote side does. *)
Lemma hogsjson_body_events (a : args) (p : string) (ex : gset Z) (n : Z)
    (c : counters) (s : sys W) :
  ∃ blk,
    trace (loop_body a p ex n c s).2 = trace s ++ blk
    ∧ Forall transfer_event blk
    ∧ (is_Some (tmp s) → is_Some (tmp (loop_body a p ex n c s).2))
    ∧ match (loop_body a p ex n c s).1 with
      | Ok (ctl, c') =>
          Forall (λ ev, raised ev = None) blk
          ∧ skipped_count c'
            = skipped_count c + (if bool_decide (n ∈ ex) then 1 else 0)
      | Err e =>
          ∃ pre rq, blk = pre ++ [Sent rq (Raised e)]
                    ∧ Forall (λ ev, raised ev = None) pre
      end.
Proof.
  rewrite hogsjson_loop_body_run.
  case_bool_decide as Hex.
  { exists []. rewrite app_nil_r. simpl.
    split; [by case_bool_decide|]. split; [done|].
    split; [by case_bool_decide|]. done. }
  rewrite hogsjson_download_json_run. cbv zeta.
  destruct (send _ (net s)) as [[code body|e] w].
  - case_bool_decide as Hcode.
    + subst code. rewrite hogsjson_bunny_put_run. simpl.
      rewrite lookup_insert_eq. simpl.
      destruct (send _ w) as [[up_code up_text|e] w2].
      * destruct (is_success up_code) eqn:Hup.
        -- eexists [_; _].
           split; [destruct (delete_local a); simpl; by rewrite <-app_assoc|].
           split; [by repeat constructor|].
           split; [intros _; by destruct (delete_local a)|].
           simpl. split; [by repeat constructor|lia].
        -- eexists [_; _].
           split; [simpl; by rewrite <-app_assoc|].
           split; [by repeat constructor|].
           split; [done|].
           simpl. split; [by repeat constructor|lia].
      * eexists [_; _].
        split; [simpl; by rewrite <-app_assoc|].
        split; [by repeat constructor|].
        split; [done|].
        simpl. eexists [_], _. split; [done|]. by repeat constructor.
    + exists [Sent (get_request (gateway a) (cid a) n (download_timeout a))
                (Response code body)].
      repeat case_bool_decide; simpl;
        (split; [done|]); (split; [by repeat constructor|]); (split; [done|]);
        (split; [by repeat constructor|lia]).
  - eexists [_]. split; [done|]. split; [by repeat constructor|]. split; [done|].
    simpl. by eexists [], _.
Qed.

Lemma filter_in_snoc (ex : gset Z) (l : list Z) (n : Z) :
  Z.of_nat (length (filter (λ m, m ∈ ex) (l ++ [n])))
  = Z.of_nat (length (filter (λ m, m ∈ ex) l)) + (if bool_decide (n ∈ ex) then 1 else 0).
Proof.
  rewrite filter_app, length_app.
  case_bool_decide.
  - rewrite filter_cons_True by done. simpl. lia.
  - rewrite filter_cons_False by done. simpl. lia.
Qed.

(** The scan, whatever the remote side does. *)
Lemma hogsjson_scan_events (a : args) (p : string) (ex : gset Z) (c0 : counters)
    (s0 : sys W) :
  ∃ evs stop,
    start_number a ≤ stop ≤ Z.max (start_number a) (end_number a + 1)
    ∧ trace (for_loop (range (start_number a) (end_number a + 1))
               (loop_body a p ex) c0 s0).2 = trace s0 ++ evs
    ∧ Forall transfer_event evs
    ∧ (is_Some (tmp s0) →
       is_Some (tmp (for_loop (range (start_number a) (end_number a + 1))
                       (loop_body a p ex) c0 s0).2))
    ∧ match (for_loop (range (start_number a) (end_number a + 1))
               (loop_body a p ex) c0 s0).1 with
      | Ok c =>
          Forall (λ ev, raised ev = None) evs
          ∧ skipped_count c
            = skipped_count c0
              + Z.of_nat (length (filter (λ m, m ∈ ex) (range (start_number a) stop)))
      | Err e =>
          ∃ pre rq, evs = pre ++ [Sent rq (Raised e)]
                    ∧ Forall (λ ev, raised ev = None) pre
      end.
Proof.
  set (lo := start_number a). set (hi := end_number a + 1).
  set (Q := λ (r : result counters) (s' : sys W),
    ∃ evs stop,
      lo ≤ stop ≤ Z.max lo hi
      ∧ trace s' = trace s0 ++ evs
      ∧ Forall transfer_event evs
      ∧ (is_Some (tmp s0) → is_Some (tmp s'))
      ∧ match r with
        | Ok c =>
            Forall (λ ev, raised ev = None) evs
            ∧ skipped_count c
              = skipped_count c0
                + Z.of_nat (length (filter (λ m, m ∈ ex) (range lo stop)))
        | Err e =>
            ∃ pre rq, evs = pre ++ [Sent rq (Raised e)]
                      ∧ Forall (λ ev, raised ev = None) pre
        end).
  set (I := λ (i : Z) (c : counters) (s : sys W),
    ∃ evs,
      trace s = trace s0 ++ evs
      ∧ Forall transfer_event evs
      ∧ (is_Some (tmp s0) → is_Some (tmp s))
      ∧ Forall (λ ev, raised ev = None) evs
      ∧ skipped_count c
        = skipped_count c0 + Z.of_nat (length (filter (λ m, m ∈ ex) (range lo i)))).
  change (Q (for_loop (range lo hi) (loop_body a p ex) c0 s0).1
            (for_loop (range lo hi) (loop_body a p ex) c0 s0).2).
  apply (for_range_rule I Q).
  - intros i c s Hi (evs & Htr & Hev & Htmp & Hans & Hsk).
    destruct (hogsjson_body_events a p ex i c s) as (blk & Htr' & Hev' & Htmp' & Hres).
    destruct (loop_body a p ex i c s) as [[[[] c']|e] s']; simpl in *.
    + destruct Hres as [Hans' Hsk']. exists (evs ++ blk).
      rewrite range_snoc, filter_in_snoc by lia.
      split_and!; [by rewrite Htr', Htr, <-app_assoc|by apply Forall_app|auto
                  |by apply Forall_app|lia].
    + destruct Hres as [Hans' Hsk']. exists (evs ++ blk), (i + 1).
      rewrite range_snoc, filter_in_snoc by lia.
      split_and!; [lia|lia|by rewrite Htr', Htr, <-app_assoc|by apply Forall_app|auto
                  |by apply Forall_app|lia].
    + destruct Hres as (pre & rq & -> & Hpre).
      exists (evs ++ pre ++ [Sent rq (Raised e)]), (i + 1).
      split_and!; [lia|lia|by rewrite Htr', Htr, <-app_assoc|by apply Forall_app|auto|].
      exists (evs ++ pre), rq. rewrite <-app_assoc. split; [done|]. by apply Forall_app.
  - intros c s (evs & Htr & Hev & Htmp & Hans & Hsk).
    exists evs, (Z.max lo hi). split_and!; try done; lia.
  - exists []. rewrite app_nil_r, range_empty by lia. split_and!; try done. simpl. lia.
Qed.

End hogsjson_scan_events.

Section hogsjson_phases.
Context {W : Type} {remote : Network W}.
Import HogsJson.

Lemma filter_in_empty (ex : gset Z) (l : list Z) :
  ex = ∅ → filter (λ m, m ∈ ex) l = [].
Proof.
  intros Hex. induction l as [|x l IH]; [done|].
  rewrite filter_cons_False; [done|]. rewrite Hex. set_solver.
Qed.

(** The pre-flight pass of [main]. *)
Lemma hogsjson_existing_pass_checks (a : args) (p : string) (s : sys W) :
  ∃ ex s' evs,
    existing_pass a p s = (Ok ex, s')
    ∧ tmp s' = tmp s
    ∧ trace s' = trace s ++ evs
    ∧ requests evs
      = (if skip_cdn_check a then []
         else hogsjson_head (storage_zone a) (access_key a) (region_host a) p
                <$> range (start_number a) (end_number a + 1))
    ∧ Forall preflight_event evs
    ∧ (∀ n, n ∈ ex ↔
         ∃ text, Sent (hogsjson_head (storage_zone a) (access_key a) (region_host a) p n)
                   (Response 200 text) ∈ evs)
    ∧ (skip_cdn_check a = true → evs = [] ∧ ex = ∅).
Proof.
  unfold existing_pass. destruct (skip_cdn_check a).
  { exists ∅, s, []. rewrite app_nil_r. split_and!; try done.
    intros n. split; [set_solver|]. intros (text & Hin). by apply elem_of_nil in Hin. }
  destruct (hogsjson_preflight_run (storage_zone a) (access_key a) (region_host a) p
              (start_number a) (end_number a) (say LogInfo "Checking CDN for existing files..." s))
    as (ex & s' & Hrun & Htmp & evs & Htr & Hrq & Hps & Hex).
  unfold mbind, M_bind, mret, M_ret, emit. rewrite Hrun.
  eexists ex, _, evs. split; [done|]. split_and!; try done.
  apply Forall_forall. intros [rq rp|ms] Hin; [|done].
  apply requests_elem in Hin. rewrite Hrq in Hin.
  by apply list_elem_of_fmap in Hin as (m & -> & _).
Qed.

(** The whole run, whatever the remote side does. *)
Lemma hogsjson_main_phases (a : args) (s : sys W) :
  storage_zone a ≠ "" → access_key a ≠ "" →
  ∃ checks moves (ex : gset Z) stop,
    start_number a ≤ stop ≤ Z.max (start_number a) (end_number a + 1)
    ∧ trace (main a s).2 = trace s ++ checks ++ moves
    ∧ requests checks
      = (if skip_cdn_check a then []
         else hogsjson_head (storage_zone a) (access_key a) (region_host a)
                (normalize_prefix (dest_path a))
                <$> range (start_number a) (end_number a + 1))
    ∧ Forall preflight_event checks
    ∧ Forall transfer_event moves
    ∧ (∀ n, n ∈ ex ↔
         ∃ text, Sent (hogsjson_head (storage_zone a) (access_key a) (region_host a)
                         (normalize_prefix (dest_path a)) n)
                   (Response 200 text) ∈ checks)
    ∧ (skip_cdn_check a = true → checks = [] ∧ ex = ∅)
    ∧ match (main a s).1 with
      | Ok Exit1 => False
      | Ok (Done c) =>
          Forall (λ ev, raised ev = None) moves
          ∧ skipped_count c
            = Z.of_nat (length (filter (λ m, m ∈ ex) (range (start_number a) stop)))
      | Err e =>
          last (out (main a s).2)
          = Some (LogError, "Unexpected error: " +:+ exn_text e)
          ∧ is_Some (tmp (main a s).2)
          ∧ ∃ pre rq, moves = pre ++ [Sent rq (Raised e)]
                      ∧ Forall (λ ev, raised ev = None) pre
      end.
Proof.
  intros Hz Hk. rewrite hogsjson_main_run by done. cbv zeta.
  match goal with
  | |- context [existing_pass a ?p ?s0] =>
      destruct (hogsjson_existing_pass_checks a p s0)
        as (ex & s1 & checks & -> & Htmp1 & Htr1 & Hrq & Hpre & Hex & Hskip)
  end.
  match goal with
  | |- context [for_loop _ _ ?c0 s1] =>
      destruct (hogsjson_scan_events a (normalize_prefix (dest_path a)) ex c0 s1)
        as (moves & stop & Hstop & Htr2 & Hmoves & Htmp2 & Hres);
      destruct (for_loop _ _ c0 s1) as [[c|e] s2]
  end; simpl in *.
  - destruct Hres as [Hans Hsk].
    exists checks, moves, ex, stop. split_and!; try done; try lia.
    destruct (_ && _); simpl; by rewrite Htr2, Htr1, <-app_assoc.
  - destruct Hres as (pre & rq & -> & Hans).
    exists checks, (pre ++ [Sent rq (Raised e)]), ex, stop.
    split_and!; try done; try lia.
    + by rewrite Htr2, Htr1, <-app_assoc.
    + by rewrite last_snoc.
    + apply Htmp2. by rewrite Htmp1.
    + by exists pre, rq.
Qed.

End hogsjson_phases.

(** X9.  When a run of [ipfs-to-cdn-hogs-json.py] ends with an exception
    [e], the last line logged is the error ["Unexpected error: "] followed
    by the text of [e]; [e] was raised by the last request sent, which is a
    download or an upload and not an existence check; every earlier request
    was answered or was an existence check; and the temporary directory is
    left behind. *)
Theorem hogsjson_error_is_logged_and_raised (W : Type) (remote : Network W)
    (a : HogsJson.args) (s s' : sys W) (e : exn) :
  HogsJson.main a s = (Err e, s') →
  last (out s') = Some (LogError, "Unexpected error: " +:+ exn_text e)
  ∧ is_Some (tmp s')
  ∧ ∃ evs rq,
      trace s' = trace s ++ evs ++ [Sent rq (Raised e)]
      ∧ rq_method rq ≠ HEAD
      ∧ Forall (λ ev, raised ev = None ∨ preflight_event ev) evs.
Proof.
  intros Hrun.
  destruct (decide (HogsJson.storage_zone a = "")) as [Hz|Hz];
    [|destruct (decide (HogsJson.access_key a = "")) as [Hk|Hk]].
  - unfold HogsJson.main in Hrun. by rewrite (bool_decide_true _ Hz) in Hrun.
  - unfold HogsJson.main in Hrun.
    by rewrite (bool_decide_true _ Hk), orb_true_r in Hrun.
  - destruct (hogsjson_main_phases a s Hz Hk)
      as (checks & moves & ex & stop & _ & Htr & _ & Hchecks & Hmoves & _ & _ & Hres).
    rewrite Hrun in Htr, Hres. simpl in *.
    destruct Hres as (Hlast & Htmp & pre & rq & -> & Hpre).
    split; [done|]. split; [done|].
    exists (checks ++ pre), rq. rewrite <-app_assoc. split; [done|].
    apply Forall_app in Hmoves as [_ Hrq]. rewrite Forall_singleton in Hrq.
    split; [done|].
    apply Forall_app. split.
    + eapply Forall_impl; [exact Hchecks|]. by right.
    + eapply Forall_impl; [exact Hpre|]. by left.
Qed.

Lemma hogsjson_error_is_logged_and_raised_witness :
  let run := HogsJson.main (remote := table_network (stalls_at "https://ipfs.io/ipfs/CID/" 7))
               (hogsjson_args 5 10 75) (boot tt) in
  let timeout := {| exn_kind := ExTimeout; exn_text := "Read timed out." |} in
  run.1 = Err timeout
  ∧ fetched_ids "https://ipfs.io/ipfs/CID/" (trace run.2) = [5; 6; 7]
  ∧ last (out run.2) = Some (LogError, "Unexpected error: Read timed out.")
  ∧ is_Some (tmp run.2)
  ∧ ∃ evs rq,
      trace run.2 = trace (boot tt) ++ evs ++ [Sent rq (Raised timeout)]
      ∧ rq_method rq ≠ HEAD
      ∧ Forall (λ ev, raised ev = None ∨ preflight_event ev) evs.
Proof.
  intros run timeout.
  assert (run = (Err timeout, run.2)) as Hrun by (by vm_compute).
  split; [by rewrite Hrun|]. split; [by vm_compute|].
  exact (hogsjson_error_is_logged_and_raised unit _ _ _ _ _ Hrun).
Defined.

(** X10.  With credentials given, the traffic of a run of
    [ipfs-to-cdn-hogs-json.py] is a pre-flight phase of existence checks and
    pauses followed by a phase of downloads and uploads only.  Without
    [--skip-cdn-check] the pre-flight phase checks every id of
    [start_number..end_number] once, in order; with it nothing is checked.
    When the run reaches its summary, [skipped_count] is the number of ids
    scanned whose existence check was answered 200, and it is 0 under
    [--skip-cdn-check]. *)
Theorem hogsjson_run_in_two_phases (W : Type) (remote : Network W)
    (a : HogsJson.args) (s : sys W) :
  HogsJson.storage_zone a ≠ "" → HogsJson.access_key a ≠ "" →
  let head := hogsjson_head (HogsJson.storage_zone a) (HogsJson.access_key a)
                (HogsJson.region_host a) (normalize_prefix (HogsJson.dest_path a)) in
  ∃ checks moves (ex : gset Z),
    trace (HogsJson.main a s).2 = trace s ++ checks ++ moves
    ∧ requests checks
      = (if HogsJson.skip_cdn_check a then []
         else head <$> range (HogsJson.start_number a) (HogsJson.end_number a + 1))
    ∧ Forall preflight_event checks
    ∧ Forall transfer_event moves
    ∧ (∀ n, n ∈ ex ↔ ∃ text, Sent (head n) (Response 200 text) ∈ checks)
    ∧ (∀ c, (HogsJson.main a s).1 = Ok (HogsJson.Done c) →
         ∃ stop,
           HogsJson.start_number a ≤ stop
             ≤ Z.max (HogsJson.start_number a) (HogsJson.end_number a + 1)
           ∧ HogsJson.skipped_count c
             = Z.of_nat (length (filter (λ m, m ∈ ex)
                                   (range (HogsJson.start_number a) stop))))
    ∧ (HogsJson.skip_cdn_check a = true →
       checks = []
       ∧ ∀ c, (HogsJson.main a s).1 = Ok (HogsJson.Done c) →
              HogsJson.skipped_count c = 0).
Proof.
  intros Hz Hk head.
  destruct (hogsjson_main_phases a s Hz Hk)
    as (checks & moves & ex & stop & Hstop & Htr & Hrq & Hchecks & Hmoves & Hex
        & Hskip & Hres).
  exists checks, moves, ex. split_and!; try done.
  - intros c Hc. rewrite Hc in Hres. destruct Hres as [_ Hsk]. by exists stop.
  - intros Hflag. destruct (Hskip Hflag) as [-> Hempty]. split; [done|].
    intros c Hc. rewrite Hc in Hres. destruct Hres as [_ Hsk].
    by rewrite Hsk, filter_in_empty.
Qed.

Lemma hogsjson_run_in_two_phases_witness :
  let a := hogsjson_args 5 10 75 in
  let run := HogsJson.main (remote := table_network (empty_source [6; 9])) a (boot tt) in
  let head := hogsjson_head "zone" "key" None "hog_jsons/" in
  fetched_ids "https://ipfs.io/ipfs/CID/" (trace run.2) = [5; 7; 8; 10]
  ∧ ∃ checks moves (ex : gset Z),
      trace run.2 = [] ++ checks ++ moves
      ∧ requests checks = head <$> range 5 (10 + 1)
      ∧ Forall preflight_event checks
      ∧ Forall transfer_event moves
      ∧ (∀ n, n ∈ ex ↔ ∃ text, Sent (head n) (Response 200 text) ∈ checks)
      ∧ (∀ c, run.1 = Ok (HogsJson.Done c) →
           ∃ stop,
             5 ≤ stop ≤ Z.max 5 (10 + 1)
             ∧ HogsJson.skipped_count c
               = Z.of_nat (length (filter (λ m, m ∈ ex) (range 5 stop))))
      ∧ (false = true →
         checks = [] ∧ ∀ c, run.1 = Ok (HogsJson.Done c) → HogsJson.skipped_count c = 0).
Proof.
  intros a run head. split; [by vm_compute|].
  apply (hogsjson_run_in_two_phases unit (table_network (empty_source [6; 9])) a (boot tt));
    discriminate.
Defined.

(** * Further properties: [ipfs-to-cdn-hogs.py] *)

Section download_png_cases.
Context {W : Type} {remote : Network W}.
Import Hogs.

(** One gateway, with what it leaves in the temp dir. *)
Lemma hogs_try_gateway_files (cid f out : string) (t mr a : Z) (g : string)
    (s : sys W) :
  let rq := get_request g cid f t in
  ∃ s',
    try_gateway cid f out t mr a g s
    = (Ok match (send rq (net s)).1 with
          | Response code _ =>
              if bool_decide (code = 200) then Some (true, 200)
              else if bool_decide (code = 404) then Some (false, 404)
              else None
          | Raised _ => None
          end, s')
    ∧ trace s' = trace s ++ [Sent rq (send rq (net s)).1]
    ∧ tmp s' = match (send rq (net s)).1 with
               | Response code body =>
                   if bool_decide (code = 200)
                   then Some (<[out := body]> (default ∅ (tmp s)))
                   else tmp s
               | Raised _ => tmp s
               end.
Proof.
  intros rq. unfold try_gateway, try_except, http, log_debug.
  unfold mbind, M_bind, mret, M_ret, emit, write_file. fold rq.
  destruct (send rq (net s)) as [[code body|e] w]; simpl.
  - repeat case_bool_decide; eexists; (split; [reflexivity|done]).
  - destruct (exn_kind e); eexists; (split; [reflexivity|done]).
Qed.

(** How a call of [download_png] can end, whatever the gateways do. *)
Lemma hogs_download_png_cases (gateways : list string) (cid : string) (n : Z)
    (out : string) (t mr rd : Z) (s : sys W) :
  0 ≤ rd →
  ∃ r s' evs,
    download_png gateways cid n out t mr rd s = (Ok r, s')
    ∧ trace s' = trace s ++ evs
    ∧ ((r = (false, 504)
        ∧ shape evs = retry_plan gateways cid n t mr rd
        ∧ tmp s' = tmp s)
       ∨ ∃ pre g code body rest,
           g ∈ gateways
           ∧ evs = pre ++ [Sent (get_request g cid (filename n) t) (Response code body)]
           ∧ retry_plan gateways cid n t mr rd = shape evs ++ rest
           ∧ ((code = 200 ∧ r = (true, 200) ∧ tmp s' ≫= (.!! out) = Some body)
              ∨ (code = 404 ∧ r = (false, 404) ∧ tmp s' = tmp s))).
Proof.
  intros Hrd.
  set (get := λ g, get_request g cid (filename n) t).
  set (gets := λ gs : list string, (λ g, inl (get g)) <$> gs : list (request + Z)).
  set (F := λ attempt : Z,
    gets gateways
    ++ (if bool_decide (attempt < mr - 1)
        then [inr (rd * 2 ^ attempt * 1000)] else []) : list (request + Z)).
  change (retry_plan gateways cid n t mr rd) with (range 0 mr ≫= F).
  set (found := λ (v : bool * Z) (s0 s' : sys W) (code : Z) (body : string),
    (code = 200 ∧ v = (true, 200) ∧ tmp s' ≫= (.!! out) = Some body)
    ∨ (code = 404 ∧ v = (false, 404) ∧ tmp s' = tmp s0)).
  (* one attempt *)
  assert (∀ a s1,
    match for_return gateways (try_gateway cid (filename n) out t mr a) s1 with
    | (Ok None, s') =>
        ∃ evs, trace s' = trace s1 ++ evs ∧ shape evs = gets gateways ∧ tmp s' = tmp s1
    | (Ok (Some v), s') =>
        ∃ gpre g gpost evs code body,
          gateways = gpre ++ g :: gpost
          ∧ trace s' = trace s1 ++ evs ++ [Sent (get g) (Response code body)]
          ∧ shape evs = gets gpre
          ∧ found v s1 s' code body
    | (Err _, _) => False
    end) as Hinner.
  { intros a s1.
    set (InvIn := λ (gpre : list string) (s' : sys W),
      ∃ evs, trace s' = trace s1 ++ evs ∧ shape evs = gets gpre ∧ tmp s' = tmp s1).
    set (PostIn := λ (r : result (option (bool * Z))) (s' : sys W),
      match r with
      | Ok None =>
          ∃ evs, trace s' = trace s1 ++ evs ∧ shape evs = gets gateways ∧ tmp s' = tmp s1
      | Ok (Some v) =>
          ∃ gpre g gpost evs code body,
            gateways = gpre ++ g :: gpost
            ∧ trace s' = trace s1 ++ evs ++ [Sent (get g) (Response code body)]
            ∧ shape evs = gets gpre
            ∧ found v s1 s' code body
      | Err _ => False
      end).
    assert (PostIn (for_return gateways (try_gateway cid (filename n) out t mr a) s1).1
                   (for_return gateways (try_gateway cid (filename n) out t mr a) s1).2)
      as HPost.
    { apply (for_return_rule InvIn PostIn).
      - intros gpre g gpost s2 Hl (evs & Htr & Hshape & Htmp).
        destruct (hogs_try_gateway_files cid (filename n) out t mr a g s2)
          as (s3 & -> & Htr3 & Htmp3).
        fold (get g) in *.
        destruct (send (get g) (net s2)).1 as [code body|e]; simpl.
        + case_bool_decide as H200; [|case_bool_decide as H404]; simpl.
          * exists gpre, g, gpost, evs, code, body.
            split; [done|]. split; [by rewrite Htr3, Htr, <-app_assoc|].
            split; [done|]. left. split; [done|]. split; [done|].
            rewrite Htmp3. simpl. by rewrite lookup_insert_eq.
          * exists gpre, g, gpost, evs, code, body.
            split; [done|]. split; [by rewrite Htr3, Htr, <-app_assoc|].
            split; [done|]. right. split; [done|]. split; [done|]. congruence.
          * exists (evs ++ [Sent (get g) (Response code body)]).
            split; [by rewrite Htr3, Htr, <-app_assoc|].
            split; [|congruence].
            unfold shape, gets in *. by rewrite !fmap_app, Hshape.
        + exists (evs ++ [Sent (get g) (Raised e)]).
          split; [by rewrite Htr3, Htr, <-app_assoc|].
          split; [|congruence].
          unfold shape, gets in *. by rewrite !fmap_app, Hshape.
      - by intros s2 HI.
      - exists []. by rewrite app_nil_r. }
    by destruct (for_return gateways _ s1) as [[[v|]|e] s']. }
  (* all attempts *)
  set (Inv := λ (pre : list Z) (s' : sys W),
    ∃ evs, trace s' = trace s ++ evs ∧ shape evs = pre ≫= F ∧ tmp s' = tmp s).
  set (Post := λ (r : result (option (bool * Z))) (s' : sys W),
    match r with
    | Ok None =>
        ∃ evs, trace s' = trace s ++ evs ∧ shape evs = range 0 mr ≫= F ∧ tmp s' = tmp s
    | Ok (Some v) =>
        ∃ evs g code body rest,
          g ∈ gateways
          ∧ trace s' = trace s ++ evs ++ [Sent (get g) (Response code body)]
          ∧ range 0 mr ≫= F = shape (evs ++ [Sent (get g) (Response code body)]) ++ rest
          ∧ found v s s' code body
    | Err _ => False
    end).
  assert (Post (for_return (range 0 mr)
                  (attempt_body gateways cid (filename n) out t mr rd) s).1
               (for_return (range 0 mr)
                  (attempt_body gateways cid (filename n) out t mr rd) s).2) as Houter.
  { apply (for_return_rule Inv Post).
    - intros pre a post s1 Hl (evs & Htr & Hshape & Htmp).
      pose proof Hl as Hsplit.
      unfold range in Hsplit. apply seqZ_split in Hsplit as (_ & Ha & _).
      unfold attempt_body. rewrite run_bind.
      specialize (Hinner a s1).
      destruct (for_return gateways _ s1) as [[[v|]|e] s2]; [| |done].
      + destruct Hinner as (gpre & g & gpost & evs2 & code & body & Hg & Htr2 & Hshape2 & Hfound).
        rewrite run_ret. simpl.
        exists (evs ++ evs2), g, code, body,
          (gets gpost
           ++ (if bool_decide (a < mr - 1) then [inr (rd * 2 ^ a * 1000)] else [])
           ++ (post ≫= F)).
        split; [rewrite Hg; set_solver|].
        split; [by rewrite Htr2, Htr, <-!app_assoc|].
        split.
        * rewrite Hl, bind_app, bind_cons. unfold F at 2. rewrite Hg.
          unfold shape, gets in *.
          rewrite !fmap_app, Hshape, Hshape2. simpl.
          by rewrite <-!app_assoc.
        * destruct Hfound as [(? & ? & ?)|(? & ? & ?)]; [by left|right].
          split_and!; [done|done|congruence].
      + destruct Hinner as (evs2 & Htr2 & Hshape2 & Htmp2).
        unfold mbind at 1 2. unfold M_bind, mret, M_ret, emit, sleep.
        assert ((pre ++ [a]) ≫= F = (pre ≫= F) ++ F a) as Hbind.
        { rewrite bind_app. simpl. by rewrite app_nil_r. }
        case_bool_decide as Hlast; simpl.
        * rewrite bool_decide_false; simpl.
          -- exists (evs ++ evs2 ++ [Slept (rd * 2 ^ a * 1000)]). simpl.
             rewrite Htr2, Htr, <-!app_assoc. split; [done|].
             split; [|congruence].
             unfold shape in *. rewrite !fmap_app, Hshape, Hshape2, Hbind.
             f_equal. unfold F. by rewrite bool_decide_true.
          -- assert (0 ≤ 2 ^ a) by (apply Z.pow_nonneg; lia). nia.
        * exists (evs ++ evs2). rewrite Htr2, Htr, <-!app_assoc. split; [done|].
          split; [|congruence].
          unfold shape in *. rewrite !fmap_app, Hshape, Hshape2, Hbind.
          f_equal. unfold F. rewrite bool_decide_false by done. by rewrite app_nil_r.
    - by intros s1 HI.
    - exists []. by rewrite app_nil_r. }
  unfold download_png. rewrite run_bind.
  destruct (for_return (range 0 mr) _ s) as [[[v|]|e] s1]; simpl in *; [| |done].
  - destruct Houter as (evs & g & code & body & rest & Hg & Htr & Hplan & Hfound).
    rewrite run_ret. eexists v, s1, _. split; [done|]. split; [exact Htr|].
    right. exists evs, g, code, body, rest. split; [done|]. split; [done|].
    split; [done|].
    destruct Hfound as [(? & ? & ?)|(? & ? & ?)]; [by left|by right].
  - destruct Houter as (evs & Htr & Hshape & Htmp).
    unfold mbind, M_bind, mret, M_ret, emit. simpl.
    eexists _, _, evs. split; [done|]. split; [done|]. by left.
Qed.

End download_png_cases.



Section hogs_events.
Context {W : Type} {remote : Network W}.
Import Hogs.

Lemma within_weaken (a : args) (p : string) (lo hi lo' hi' : Z) (ev : event) :
  lo' ≤ lo → hi ≤ hi' → within a p lo hi ev → within a p lo' hi' ev.
Proof.
  intros Hlo Hhi. destruct ev as [rq rp|ms]; [|done].
  intros (n & Hn & Hrq). exists n. split; [lia|done].
Qed.

Lemma hogs_check_run (z k : string) (r : option string) (key : string) (s : sys W) :
  ∃ b s',
    check_file_exists_on_cdn z k r key s = (Ok b, s')
    ∧ trace s' = trace s ++ [Sent (head_request key) (send (head_request key) (net s)).1]
    ∧ tmp s' = tmp s.
Proof.
  unfold check_file_exists_on_cdn, try_except, http.
  unfold mbind, M_bind, mret, M_ret, emit.
  destruct (send (head_request key) (net s)) as [[code body|e] w]; simpl;
    by eexists _, _.
Qed.

(** The events of a download are requests to the gateways for that file,
    and pauses. *)
Lemma hogs_download_png_events (a : args) (p : string) (n : Z) (s : sys W) :
  ∃ evs,
    trace (download_png (gateways a) (cid a) n (filename n) (download_timeout a)
             (max_retries a) (retry_delay a) s).2 = trace s ++ evs
    ∧ Forall (within a p n n) evs.
Proof.
  set (Inv := λ (s' : sys W), ∃ evs, trace s' = trace s ++ evs ∧ Forall (within a p n n) evs).
  assert (∀ att s0, Inv s0 →
    Inv (for_return (gateways a)
           (try_gateway (cid a) (filename n) (filename n) (download_timeout a)
              (max_retries a) att) s0).2) as Hinner.
  { intros att s0 HI.
    apply (for_return_rule (λ _, Inv) (λ _, Inv)); [|done|done].
    intros pre g post s1 Hl (evs & Htr & Hevs).
    destruct (hogs_try_gateway_run (cid a) (filename n) (filename n) (download_timeout a)
                (max_retries a) att g s1) as (s2 & Hrun & Htr2 & _).
    assert (Inv s2) as HI2.
    { exists (evs ++ [Sent (get_request g (cid a) (filename n) (download_timeout a))
                        (send (get_request g (cid a) (filename n) (download_timeout a))
                           (net s1)).1]).
      rewrite Htr2, Htr, <-app_assoc. split; [done|].
      apply Forall_app. split; [done|]. apply Forall_singleton.
      exists n. split; [lia|]. right. left. exists g. split; [|done].
      rewrite Hl. set_solver. }
    rewrite Hrun. by destruct (match (send _ _).1 with Response _ _ => _ | _ => _ end). }
  assert (Inv (for_return (range 0 (max_retries a))
                 (attempt_body (gateways a) (cid a) (filename n) (filename n)
                    (download_timeout a) (max_retries a) (retry_delay a)) s).2) as Houter.
  { apply (for_return_rule (λ _, Inv) (λ _, Inv));
      [|done|exists []; by rewrite app_nil_r].
    intros pre att post s1 _ HI.
    unfold attempt_body. rewrite run_bind.
    specialize (Hinner att s1 HI).
    destruct (for_return (gateways a) _ s1) as [[[v|]|e] s2]; simpl in *; [done| |done].
    destruct Hinner as (evs & Htr & Hevs).
    unfold mbind, M_bind, mret, M_ret, emit, sleep.
    case_bool_decide; [|by exists evs]. simpl.
    case_bool_decide; simpl; [by exists evs|].
    exists (evs ++ [Slept (retry_delay a * 2 ^ att * 1000)]). simpl.
    rewrite Htr, <-app_assoc. split; [done|].
    apply Forall_app. split; [done|]. by apply Forall_singleton. }
  unfold download_png. rewrite run_bind.
  destruct (for_return (range 0 (max_retries a)) _ s) as [[[v|]|e] s1]; simpl in *;
    try done.
Qed.

(** One iteration of the scan concerns id [n] only. *)
Lemma hogs_body_events (a : args) (p : string) (ex : gset Z) (n : Z) (c : counters)
    (s : sys W) :
  ∃ evs,
    trace (loop_body a p ex n c s).2 = trace s ++ evs
    ∧ Forall (within a p n n) evs.
Proof.
  rewrite hogs_loop_body_run.
  case_bool_decide.
  { exists []. rewrite app_nil_r. split; [by case_bool_decide|done]. }
  destruct (hogs_download_png_events a p n s) as (evs & Htr & Hevs).
  destruct (download_png _ _ _ _ _ _ _ s) as [[[[] code]|e] s1]; simpl in *.
  - rewrite hogs_bunny_put_run.
    destruct (tmp s1 ≫= _) as [content|]; [|by exists evs].
    cbv zeta.
    destruct (send _ (net s1)) as [[up_code up_text|e] w] eqn:Hsend.
    + eexists (evs ++ [_]). split.
      * destruct (is_success up_code); [destruct (delete_local a)|]; simpl;
          by rewrite Htr, <-app_assoc.
      * apply Forall_app. split; [done|]. apply Forall_singleton.
        exists n. split; [lia|]. right. right. by eexists.
    + eexists (evs ++ [_]). split; [simpl; by rewrite Htr, <-app_assoc|].
      apply Forall_app. split; [done|]. apply Forall_singleton.
      exists n. split; [lia|]. right. right. by eexists.
  - exists evs. split; [|done]. by repeat case_bool_decide.
  - by exists evs.
Qed.

(** The scan concerns the ids of its range only. *)
Lemma hogs_scan_events (a : args) (p : string) (ex : gset Z) (lo : Z)
    (c0 : counters) (s0 : sys W) :
  ∃ evs,
    trace (for_loop (range lo (end_number a + 1)) (loop_body a p ex) c0 s0).2
    = trace s0 ++ evs
    ∧ Forall (within a p lo (end_number a)) evs.
Proof.
  set (Q := λ (_ : result counters) (s' : sys W),
    ∃ evs, trace s' = trace s0 ++ evs ∧ Forall (within a p lo (end_number a)) evs).
  apply (for_range_rule (λ _ _, Q (Ok c0)) Q).
  - intros i c s Hi (evs & Htr & Hevs).
    destruct (hogs_body_events a p ex i c s) as (blk & Htr' & Hblk).
    assert (Q (Ok c0) (loop_body a p ex i c s).2) as HQ.
    { exists (evs ++ blk). rewrite Htr', Htr, <-app_assoc. split; [done|].
      apply Forall_app. split; [done|].
      eapply Forall_impl; [exact Hblk|]. intros ev. apply within_weaken; lia. }
    by destruct (loop_body a p ex i c s) as [[[[] c']|e] s'].
  - done.
  - exists []. by rewrite app_nil_r.
Qed.

(** The pre-flight pass concerns the ids of its range only, and does not
    raise. *)
Lemma hogs_preflight_events (pct : Z → Z → string) (a : args) (p : string)
    (z k : string) (r : option string) (lo hi : Z) (s : sys W) :
  ∃ ex s' evs,
    get_existing_files_on_cdn pct z k r p lo hi s = (Ok ex, s')
    ∧ trace s' = trace s ++ evs
    ∧ Forall (within a p lo hi) evs
    ∧ tmp s' = tmp s.
Proof.
  set (frame := λ (s' : sys W),
    tmp s' = tmp s ∧ ∃ evs, trace s' = trace s ++ evs ∧ Forall (within a p lo hi) evs).
  set (Post := λ (res : result (gset Z * Z)) (s' : sys W),
    (∃ st, res = Ok st) ∧ frame s').
  unfold get_existing_files_on_cdn. cbv zeta.
  rewrite run_bind, run_emit. cbv beta iota.
  rewrite run_bind.
  match goal with |- context [for_loop ?l ?body ?st0 ?s0] =>
    assert (Post (for_loop l body st0 s0).1 (for_loop l body st0 s0).2) as HPost;
    [|destruct (for_loop l body st0 s0) as [res s1]] end.
  { apply (for_loop_rule (λ _ _, frame) Post).
    - intros pre x post [ex cnt] s1 Hl Hframe.
      apply range_step_split in Hl as [Hx Hxb]; [|lia].
      rewrite run_bind, run_emit. cbv beta iota.
      rewrite run_bind.
      match goal with |- context [for_loop ?l ?body ?st0 ?s0] =>
        assert (Post (for_loop l body st0 s0).1 (for_loop l body st0 s0).2) as HIn;
        [|destruct (for_loop l body st0 s0) as [res s2]] end.
      { apply (for_range_rule (λ _ _, frame) Post).
        - intros i [ex' cnt'] s' Hi (Htmp & evs & Htr & Hevs).
          rewrite run_bind.
          destruct (hogs_check_run z k r (dest_key p i) s') as (b & s'' & -> & Htr' & Htmp').
          assert (frame s'') as Hframe''.
          { split; [congruence|].
            eexists (evs ++ [_]). rewrite Htr', Htr, <-app_assoc. split; [done|].
            apply Forall_app. split; [done|]. apply Forall_singleton.
            exists i. split; [lia|]. by left. }
          unfold mbind, M_bind, mret, M_ret, emit.
          destruct b; simpl; case_bool_decide; simpl;
            destruct Hframe'' as (? & evs' & ? & ?); (split; [done|by exists evs']).
        - intros st s' Hframe'. split; [by eexists|done].
        - by destruct Hframe as (? & evs & ? & ?); (split; [done|by exists evs]). }
      destruct HIn as ((st & Hres) & Htmp & evs & Htr & Hevs). simpl in *. subst res.
      unfold mbind, M_bind, mret, M_ret, sleep. simpl.
      split; [done|]. exists (evs ++ [Slept 100]). simpl. rewrite Htr, <-app_assoc.
      split; [done|]. apply Forall_app. split; [done|]. by apply Forall_singleton.
    - intros st s' Hframe'. split; [by eexists|done].
    - split; [done|]. exists []. by rewrite app_nil_r. }
  destruct HPost as (([ex cnt] & Hres) & Htmp & evs & Htr & Hevs). simpl in *. subst res.
  rewrite run_bind, run_emit. cbv beta iota. rewrite run_ret.
  eexists ex, _, evs. split; [done|]. by split_and!.
Qed.

End hogs_events.

Section hogs_main_events.
Context {W : Type} {remote : Network W}.
Import Hogs.

Lemma hogs_existing_pass_events (pct : Z → Z → string) (a : args) (p : string)
    (lo : Z) (s : sys W) :
  ∃ ex s' evs,
    existing_pass pct a p lo s = (Ok ex, s')
    ∧ trace s' = trace s ++ evs
    ∧ Forall (within a p lo (end_number a)) evs.
Proof.
  unfold existing_pass. destruct (skip_cdn_check a).
  { exists ∅, s, []. by rewrite app_nil_r. }
  rewrite run_bind, run_emit. cbv beta iota. rewrite run_bind.
  destruct (hogs_preflight_events pct a p (storage_zone a) (access_key a) (region_host a)
              lo (end_number a) (say LogInfo "Checking CDN for existing files..." s))
    as (ex & s' & evs & -> & Htr & Hevs & _).
  rewrite run_bind, run_emit. cbv beta iota. rewrite run_ret.
  by eexists ex, _, evs.
Qed.

Lemma hogs_main_events (pct : Z → Z → string) (a : args) (s : sys W) :
  ∃ evs,
    trace (main pct a s).2 = trace s ++ evs
    ∧ Forall (within a (normalize_prefix (dest_path a)) (first_number a) (end_number a))
        evs.
Proof.
  unfold main.
  destruct (bool_decide _ || bool_decide _).
  { exists []. by rewrite app_nil_r. }
  cbv zeta. rewrite run_bind, run_emit. cbv beta iota.
  rewrite run_bind.
  assert (∀ s0 : sys W, ∃ s1,
    (if resuming a
     then emit LogInfo ("Resuming from number " +:+ Py.str (first_number a)
                        +:+ " (original range was " +:+ Py.str (start_number a)
                        +:+ " to " +:+ Py.str (end_number a) +:+ ")")
     else mret tt) s0 = (Ok tt, s1) ∧ trace s1 = trace s0) as Hres.
  { intros s0. destruct (resuming a); by eexists. }
  edestruct Hres as (s1 & -> & Htr1). cbv beta iota.
  mrun. unfold mkdtemp at 1. cbv beta iota.
  destruct (gateways a) as [|g gs] eqn:Hg.
  { mrun. exists []. rewrite app_nil_r. simpl. by rewrite Htr1. }
  mrun.
  match goal with
  | |- context [existing_pass pct a ?p ?lo ?s0] =>
      destruct (hogs_existing_pass_events pct a p lo s0)
        as (ex & s2 & checks & -> & Htr2 & Hchecks)
  end.
  cbv beta iota. rewrite run_bind. unfold try_except, scan.
  rewrite run_bind.
  match goal with
  | |- context [for_loop _ _ ?c0 s2] =>
      destruct (hogs_scan_events a (normalize_prefix (dest_path a)) ex (first_number a) c0 s2)
        as (moves & Htr3 & Hmoves);
      destruct (for_loop _ _ c0 s2) as [[c|e] s3]
  end; simpl in *.
  - exists (checks ++ moves). split.
    + mrun. destruct (_ && _); mrun; simpl; unfold rmtree; mrun; simpl;
        by rewrite Htr3, Htr2, Htr1, <-app_assoc.
    + by apply Forall_app.
  - exists (checks ++ moves). split.
    + mrun. simpl. by rewrite Htr3, Htr2, Htr1, <-app_assoc.
    + by apply Forall_app.
Qed.

End hogs_main_events.

(** X12.  Every request of a run of [ipfs-to-cdn-hogs.py], however the run
    ends, concerns an id between the first id of the run and [end_number]:
    it is the existence check, a download from one of the configured
    gateways, or the upload of such an id.  The first id is [resume_from]
    when that is given and not 0, and [start_number] otherwise. *)
Theorem hogs_requests_stay_in_range (W : Type) (remote : Network W)
    (pct : Z → Z → string) (a : Hogs.args) (s : sys W) :
  ∃ evs,
    trace (Hogs.main pct a s).2 = trace s ++ evs
    ∧ Forall (within a (normalize_prefix (Hogs.dest_path a))
                (Hogs.first_number a) (Hogs.end_number a)) evs
    ∧ Hogs.first_number a
      = match Hogs.resume_from a with
        | Some r => if bool_decide (r = 0) then Hogs.start_number a else r
        | None => Hogs.start_number a
        end.
Proof.
  destruct (hogs_main_events pct a s) as (evs & Htr & Hevs).
  exists evs. split; [done|]. split; [done|].
  unfold Hogs.first_number. by destruct (Hogs.resume_from a) as [[| |]|].
Qed.

(** * Further properties: [csv-to-json-to-cdn-hog.py] *)

Section csv_attributes.
Import CsvHog.

Lemma strip_nonempty (v : string) : Py.strip v ≠ "" → v ≠ "".
Proof. by intros H ->. Qed.

(** X13.  [extract_attributes_from_row]: an attribute is produced exactly
    for the mapped columns whose cell is a text with something other than
    white space in it, and its value is that text stripped.  So no value is
    empty or has white space around it, and the traits come in the order of
    the mapping: Background, Body, Headwear, Eyes, Clothing, Mouth,
    Tusks. *)
Theorem attributes_are_trimmed_and_ordered (r : row) :
  let attrs := extract_attributes_from_row r in
  (∀ at', at' ∈ attrs ↔
      ∃ col text, (col, trait_type at') ∈ attribute_mapping
                  ∧ r !! col = Some (Text text)
                  ∧ Py.strip text ≠ ""
                  ∧ value at' = Py.strip text)
  ∧ Forall (λ at', value at' ≠ "" ∧ Py.strip (value at') = value at') attrs
  ∧ sublist (trait_type <$> attrs)
      ["Background"; "Body"; "Headwear"; "Eyes"; "Clothing"; "Mouth"; "Tusks"].
Proof.
  intros attrs. unfold attrs, extract_attributes_from_row.
  set (f := λ '(csv_col, trait),
    match r !! csv_col with
    | Some (Text v) =>
        if bool_decide (v ≠ "") && bool_decide (Py.strip v ≠ "")
        then Some {| trait_type := trait; value := Py.strip v |}
        else None
    | _ => None
    end).
  assert (∀ col trait at', f (col, trait) = Some at' ↔
            ∃ text, r !! col = Some (Text text) ∧ Py.strip text ≠ ""
                    ∧ at' = {| trait_type := trait; value := Py.strip text |}) as Hf.
  { intros col trait at'. unfold f. split.
    - destruct (r !! col) as [[v|]|]; try done.
      destruct (bool_decide (v ≠ "") && bool_decide (Py.strip v ≠ "")) eqn:Hb; [|done].
      apply andb_true_iff in Hb as [_ Hs%bool_decide_eq_true].
      intros [= <-]. by exists v.
    - intros (text & -> & Hs & ->).
      rewrite (bool_decide_true (text ≠ "")) by (by apply strip_nonempty).
      by rewrite bool_decide_true by done. }
  split_and!.
  - intros at'. rewrite list_elem_of_omap. split.
    + intros ([col trait] & Hin & (text & Hr & Hs & ->)%Hf).
      by exists col, text.
    + intros (col & text & Hin & Hr & Hs & Hv).
      exists (col, trait_type at'). split; [done|].
      apply Hf. exists text. split_and!; [done..|].
      destruct at' as [tr v]. simpl in *. by subst v.
  - apply Forall_forall. intros at' ([col trait] & _ & (text & _ & Hs & ->)%Hf)%list_elem_of_omap.
    simpl. split; [done|]. apply strip_idem.
  - change ["Background"; "Body"; "Headwear"; "Eyes"; "Clothing"; "Mouth"; "Tusks"]
      with (snd <$> attribute_mapping).
    induction attribute_mapping as [|[col trait] l IH]; [done|].
    change (omap f ((col, trait) :: l))
      with (match f (col, trait) with Some y => y :: omap f l | None => omap f l end).
    rewrite (fmap_cons snd).
    destruct (f (col, trait)) as [at'|] eqn:Hat.
    + apply Hf in Hat as (text & _ & _ & ->). rewrite fmap_cons.
      by apply sublist_skip.
    + by apply sublist_cons.
Qed.

End csv_attributes.

Section csv_rows.
Context {W : Type} {remote : Network W}.
Import CsvHog.

(** [process_nft_row], case by case. *)
Lemma csv_process_cases (r : row) (z k : string) (h : option string) (p : string)
    (s : sys W) :
  (∃ e, (create_metadata_json r = Err e
         ∨ ∃ md, create_metadata_json r = Ok md ∧ edition_text r md = Err e)
        ∧ process_nft_row r z k h p s
          = (Ok (false, row_get r "Name" (Text "unknown"), Some (exn_text e)), s))
  ∨ (∃ md e rp w,
       create_metadata_json r = Ok md ∧ edition_text r md = Ok e
       ∧ send (put_request z k h (p +:+ e +:+ ".json") md) (net s) = (rp, w)
       ∧ ∃ res,
           process_nft_row r z k h p s
           = (Ok res, record (Sent (put_request z k h (p +:+ e +:+ ".json") md) rp) s w)
           ∧ match rp with
             | Response code text =>
                 if is_success code then res = (true, Text e, None)
                 else res = (false, row_get r "Name" (Text "unknown"),
                             Some ("Bunny upload failed (" +:+ Py.str code +:+ "): "
                                   +:+ py_take 200 text))
             | Raised ex =>
                 res = (false, row_get r "Name" (Text "unknown"), Some (exn_text ex))
             end).
Proof.
  unfold process_nft_row, try_except, bunny_put_json, lift, http.
  unfold mbind, M_bind, mret, M_ret, raise.
  destruct (create_metadata_json r) as [md|e] eqn:Hmd; [|left; exists e; by eauto].
  destruct (edition_text r md) as [e|e] eqn:He; [|left; exists e; by eauto].
  right.
  destruct (send (put_request z k h (p +:+ e +:+ ".json") md) (net s)) as [rp w] eqn:Hsend.
  exists md, e, rp, w. split; [done|]. split; [done|]. split; [done|].
  destruct rp as [code text|ex]; simpl.
  - destruct (is_success code); simpl; by eexists.
  - by eexists.
Qed.

(** A row without a name is malformed. *)
Lemma csv_metadata_error (r : row) (e : exn) :
  create_metadata_json r = Err e ↔ r !! "Name" = Some PyNone ∧ e = none_not_iterable.
Proof.
  unfold create_metadata_json, row_get.
  destruct (r !! "Name") as [[name|]|] eqn:Hname; simpl.
  - split; [done|]. by intros [? _].
  - split; [by intros [= <-]|by intros [_ ->]].
  - split; [done|]. by intros [? _].
Qed.

End csv_rows.

(** X14.  A CSV row whose [Name] is [None] (a row shorter than the
    header): [create_metadata_json] raises the [TypeError] of ["#" in None];
    [process_nft_row] catches it, sends nothing, and returns a failure whose
    identifier is [None]; the tally counts it as one error, listed as
    ["None: argument of type 'NoneType' is not iterable"]. *)
Theorem row_without_name_is_recorded (W : Type) (remote : Network W)
    (r : CsvHog.row) (z k : string) (h : option string) (p : string) (s : sys W) :
  r !! "Name" = Some PyNone →
  CsvHog.create_metadata_json r = Err none_not_iterable
  ∧ CsvHog.process_nft_row r z k h p s
    = (Ok (false, PyNone, Some "argument of type 'NoneType' is not iterable"), s)
  ∧ ∀ t, CsvHog.collect t (Ok (false, PyNone,
                               Some "argument of type 'NoneType' is not iterable"))
         = {| CsvHog.success_count := CsvHog.success_count t;
              CsvHog.error_count := CsvHog.error_count t + 1;
              CsvHog.errors :=
                CsvHog.errors t
                ++ ["None: argument of type 'NoneType' is not iterable"] |}.
Proof.
  intros Hname.
  assert (CsvHog.create_metadata_json r = Err none_not_iterable) as Hmd.
  { by apply csv_metadata_error. }
  split; [done|]. split; [|done].
  destruct (csv_process_cases r z k h p s)
    as [(e & [He|(md & Hmd' & _)] & ->)|(md & ? & ? & ? & Hmd' & _)]; try congruence.
  rewrite Hmd in He. injection He as <-.
  unfold CsvHog.row_get. by rewrite Hname.
Qed.

Lemma row_without_name_is_recorded_witness :
  let r : CsvHog.row := {[ "Id" := Text "17"; "Name" := PyNone ]} in
  CsvHog.create_metadata_json r = Err none_not_iterable
  ∧ CsvHog.process_nft_row (remote := table_network all_timeouts) r "zone" "key" None
      "hog_jsons/" (boot tt)
    = (Ok (false, PyNone, Some "argument of type 'NoneType' is not iterable"), boot tt).
Proof.
  intros r.
  destruct (row_without_name_is_recorded unit (table_network all_timeouts) r
              "zone" "key" None "hog_jsons/" (boot tt)) as (H1 & H2 & _).
  - by vm_compute.
  - by split.
Defined.

(** X15.  [process_nft_row] never raises and sends at most one request:
    the PUT of the row's metadata under [prefix + edition + ".json"].  It
    reports success exactly when that PUT was sent and answered 200 or 201;
    a success carries the edition and no error text, a failure carries the
    row's [Name] (or ["unknown"]) and an error text. *)
Theorem process_row_sends_at_most_one_upload (W : Type) (remote : Network W)
    (r : CsvHog.row) (z k : string) (h : option string) (p : string) (s : sys W) :
  ∃ ok ident err s' evs,
    CsvHog.process_nft_row r z k h p s = (Ok (ok, ident, err), s')
    ∧ trace s' = trace s ++ evs
    ∧ (length evs ≤ 1)%nat
    ∧ (∀ rq rp, Sent rq rp ∈ evs →
         ∃ md e, CsvHog.create_metadata_json r = Ok md
                 ∧ CsvHog.edition_text r md = Ok e
                 ∧ rq = CsvHog.put_request z k h (p +:+ e +:+ ".json") md)
    ∧ (ok = true ↔
         ∃ rq code text, evs = [Sent rq (Response code text)] ∧ is_success code = true)
    ∧ (ok = true → err = None ∧ ∃ e, ident = Text e)
    ∧ (ok = false → is_Some err ∧ ident = CsvHog.row_get r "Name" (Text "unknown")).
Proof.
  destruct (csv_process_cases r z k h p s)
    as [(e & _ & ->)|(md & e & rp & w & Hmd & He & Hsend & res & -> & Hres)].
  - eexists false, _, _, s, []. rewrite app_nil_r.
    split; [done|]. split; [done|]. split; [simpl; lia|].
    split; [by intros ?? ?%elem_of_nil|].
    split; [split; [done|by intros (? & ? & ? & ? & _)]|].
    split; [done|]. intros _. by split.
  - destruct res as [[ok ident] err].
    eexists ok, ident, err, _, [_]. split; [done|]. split; [done|].
    split; [simpl; lia|].
    split.
    { intros rq rp' [-> ->]%list_elem_of_singleton%Sent_inj. by exists md, e. }
    destruct rp as [code text|ex].
    + destruct (is_success code) eqn:Hcode; injection Hres as -> -> ->.
      * split; [split; [by eauto|done]|]. split; [by eauto|done].
      * split.
        { split; [done|]. intros (rq & c' & t' & [= _ -> _] & Hc). congruence. }
        split; [done|]. intros _. by split.
    + injection Hres as -> -> ->. split.
      { split; [done|]. by intros (rq & c' & t' & [=] & _). }
      split; [done|]. intros _. by split.
Qed.

Section csv_selection.
Import CsvHog.

Lemma take_drop_all {A} (l : list A) (i n : nat) :
  (length l ≤ i + n)%nat → take n (drop i l) = drop i l.
Proof. intros Hn. apply take_ge. rewrite length_drop. lia. Qed.

(** The rows selected by [--start-row] and [--max-rows]. *)
Lemma csv_rows_to_process (a : args) (rows : list row) :
  0 ≤ start_row a →
  (∀ m, max_rows a = Some m → 0 ≤ m) →
  rows_to_process a rows
  = match max_rows a with
    | Some m =>
        if bool_decide (m = 0) then drop (Z.to_nat (start_row a)) rows
        else take (Z.to_nat m) (drop (Z.to_nat (start_row a)) rows)
    | None => drop (Z.to_nat (start_row a)) rows
    end.
Proof.
  intros Hstart Hlimit.
  unfold rows_to_process, py_slice, end_index.
  set (len := Z.of_nat (length rows)).
  assert (0 ≤ len) as Hlen by lia.
  rewrite (bool_decide_false (start_row a < 0)) by lia.
  assert (∀ n : nat, (Z.to_nat len ≤ n)%nat → drop n rows = []) as Hdrop.
  { intros n Hn. apply drop_ge. lia. }
  assert (take (Z.to_nat (len - Z.min (start_row a) len))
            (drop (Z.to_nat (Z.min (start_row a) len)) rows)
          = drop (Z.to_nat (start_row a)) rows) as Hall.
  { destruct (decide (start_row a ≤ len)).
    - rewrite Z.min_l by lia. apply take_drop_all. lia.
    - rewrite Z.min_r by lia. rewrite !Hdrop by lia. by rewrite take_nil. }
  destruct (max_rows a) as [m|] eqn:Hm.
  - specialize (Hlimit m eq_refl).
    destruct m as [|m|m]; [| |lia].
    + rewrite (bool_decide_true (0 = 0)) by done.
      rewrite (bool_decide_false (len < 0)) by lia. by rewrite Z.min_id.
    + rewrite (bool_decide_false (Z.pos m = 0)) by done.
      rewrite (bool_decide_false (_ < 0)) by lia.
      rewrite Z.min_l by lia.
      destruct (decide (start_row a ≤ len)).
      * rewrite (Z.min_l (start_row a)) by lia.
        destruct (decide (start_row a + Z.pos m ≤ len)).
        -- rewrite Z.min_l by lia. f_equal. lia.
        -- rewrite Z.min_r by lia.
           rewrite !take_drop_all by lia. done.
      * rewrite !Z.min_r by lia. rewrite !Hdrop by lia. by rewrite !take_nil.
  - rewrite (bool_decide_false (len < 0)) by lia. by rewrite Z.min_id.
Qed.

End csv_selection.

Section csv_tally.
Import CsvHog.

Lemma successes_app (l1 l2 : list (result (bool * cell * option string))) :
  successes (l1 ++ l2) = successes l1 + successes l2.
Proof. unfold successes. rewrite List.filter_app, length_app. lia. Qed.

Lemma successes_Permutation (l1 l2 : list (result (bool * cell * option string))) :
  l1 ≡ₚ l2 → successes l1 = successes l2.
Proof.
  unfold successes. induction 1 as [|x l l' _ IH|x y l|l l' l'' _ IH1 _ IH2]; simpl.
  - done.
  - destruct (succeeded x); simpl; lia.
  - destruct (succeeded x), (succeeded y); simpl; lia.
  - lia.
Qed.

(** What the loop over the finished tasks adds up to. *)
Lemma csv_collect_fold (l : list (result (bool * cell * option string))) (t0 : tally) :
  success_count (foldl collect t0 l) = success_count t0 + successes l
  ∧ error_count (foldl collect t0 l)
    = error_count t0 + (Z.of_nat (length l) - successes l)
  ∧ Z.of_nat (length (errors (foldl collect t0 l)))
    = Z.of_nat (length (errors t0)) + (Z.of_nat (length l) - successes l).
Proof.
  revert t0. induction l as [|x l IH]; intros t0.
  - unfold successes. simpl. lia.
  - change (x :: l) with ([x] ++ l) at 2 4 6. rewrite successes_app.
    simpl foldl. destruct (IH (collect t0 x)) as (-> & -> & ->).
    rewrite length_app.
    destruct x as [[[[] ident] err]|e]; unfold successes; simpl;
      rewrite ?length_app; simpl; lia.
Qed.

End csv_tally.

Section csv_pool.
Context {W : Type} {remote : Network W}.
Import CsvHog.

(** The pool sends at most one upload per task, and nothing else. *)
Lemma csv_run_pool_events (l : list row) (z k : string) (h : option string)
    (p : string) (s : sys W) :
  ∃ results s' evs,
    run_pool l z k h p s = (Ok results, s')
    ∧ length results = length l
    ∧ trace s' = trace s ++ evs
    ∧ tmp s' = tmp s
    ∧ (length evs ≤ length l)%nat
    ∧ Forall is_put evs
    ∧ successes results = uploads_accepted evs.
Proof.
  revert s. induction l as [|r l IH]; intros s.
  - exists [], s, []. rewrite app_nil_r. by split_and!.
  - simpl. rewrite run_bind.
    assert (∃ res s1 evs1,
      process_nft_row r z k h p s = (Ok res, s1)
      ∧ trace s1 = trace s ++ evs1 ∧ tmp s1 = tmp s
      ∧ (length evs1 ≤ 1)%nat ∧ Forall is_put evs1
      ∧ successes [Ok res] = uploads_accepted evs1)
      as (res & s1 & evs1 & -> & Htr1 & Htmp1 & Hlen1 & Hput1 & Hsucc1).
    { destruct (csv_process_cases r z k h p s)
        as [(e & _ & ->)|(md & e & rp & w & _ & _ & _ & res & -> & Hres)].
      - eexists _, s, []. rewrite app_nil_r. split_and!; try done. simpl. lia.
      - eexists res, _, [_]. split; [done|]. split; [done|]. split; [done|].
        split; [done|]. split; [by apply Forall_singleton|].
        destruct rp as [code text|ex].
        + unfold uploads_accepted, count_replies. simpl.
          destruct (is_success code); by subst res.
        + by subst res. }
    rewrite run_bind.
    destruct (IH s1)
      as (results & s2 & evs2 & -> & Hlen & Htr2 & Htmp2 & Hlen2 & Hput2 & Hsucc2).
    rewrite run_ret.
    eexists _, s2, (evs1 ++ evs2). split; [done|].
    split; [simpl; by rewrite Hlen|].
    split; [by rewrite Htr2, Htr1, <-app_assoc|].
    split; [congruence|].
    split; [rewrite length_app; simpl; lia|].
    split; [by apply Forall_app|].
    rewrite uploads_accepted_app, <-Hsucc1, <-Hsucc2.
    apply (successes_app [Ok res] results).
Qed.

(** What [print_results] writes. *)
Lemma csv_print_results_run (t : tally) (s : sys W) :
  ∃ s',
    print_results t s = (Ok tt, s')
    ∧ out s' = out s ++ report_lines t
    ∧ trace s' = trace s
    ∧ tmp s' = tmp s.
Proof.
  assert (∀ (l : list string) (s0 : sys W), ∃ s1,
    for_loop l (λ error (_ : unit), emit Stdout ("  - " +:+ error);; mret (Continue, tt))
      tt s0 = (Ok tt, s1)
    ∧ out s1 = out s0 ++ ((λ e, (Stdout, "  - " +:+ e)) <$> l)
    ∧ trace s1 = trace s0 ∧ tmp s1 = tmp s0) as Hloop.
  { induction l as [|x l IH]; intros s0.
    - exists s0. by rewrite app_nil_r.
    - rewrite run_for_loop_cons. rewrite run_bind, run_emit. cbv beta iota.
      rewrite run_ret.
      destruct (IH (say Stdout ("  - " +:+ x) s0)) as (s1 & -> & Hout & Htr & Htmp).
      exists s1. split; [done|]. split; [|done].
      rewrite Hout. simpl. by rewrite <-app_assoc. }
  unfold print_results, report_lines. mrun.
  destruct (errors t) as [|e errs] eqn:Herrs.
  - rewrite bool_decide_false by (by intros ?). mrun.
    eexists. split; [done|]. simpl.
    rewrite ?app_nil_r. repeat rewrite <-app_assoc. by split_and!.
  - rewrite bool_decide_true by done. mrun.
    edestruct Hloop as (s1 & Hrun & Hout & Htr & Htmp). rewrite Hrun. cbv beta iota.
    case_bool_decide; mrun.
    + eexists. split; [done|]. simpl. rewrite Hout, Htr, Htmp. simpl.
      rewrite ?app_nil_r. repeat rewrite <-app_assoc. by split_and!.
    + eexists. split; [done|]. rewrite Hout, Htr, Htmp. simpl.
      rewrite ?app_nil_r. repeat rewrite <-app_assoc. by split_and!.
Qed.

(** The dry-run sample never touches the network. *)
Lemma csv_dry_run_sample (start i : Z) (l : list row) (s : sys W) :
  trace (dry_run_sample start i l s).2 = trace s
  ∧ tmp (dry_run_sample start i l s).2 = tmp s
  ∧ (Forall (λ r, r !! "Name" ≠ Some PyNone) l →
     (dry_run_sample start i l s).1 = Ok tt)
  ∧ (Exists (λ r, r !! "Name" = Some PyNone) l →
     (dry_run_sample start i l s).1 = Err none_not_iterable).
Proof.
  revert i s. induction l as [|r l IH]; intros i s.
  - simpl. split_and!; try done. by intros ?%Exists_nil.
  - simpl. rewrite run_bind. unfold lift.
    destruct (create_metadata_json r) as [md|e] eqn:Hmd.
    + rewrite run_ret, run_bind, run_emit. cbv beta iota.
      match goal with |- context [dry_run_sample start (i + 1) l ?s0] =>
        destruct (IH (i + 1) s0) as (Htr & Htmp & Hok & Herr) end.
      split; [done|]. split; [done|]. split.
      * intros [_ Hl]%Forall_cons. by apply Hok.
      * intros [Hr|Hl]%Exists_cons; [|by apply Herr].
        assert (create_metadata_json r = Err none_not_iterable)
          by (by apply csv_metadata_error). congruence.
    + rewrite run_raise. apply csv_metadata_error in Hmd as [Hname ->].
      split; [done|]. split; [done|]. split; [|done].
      by intros [? _]%Forall_cons.
Qed.

(** [main] once the file has been read. *)
Lemma csv_main_rows_run (a : args) (rows : list row)
    (schedule : list row → list row)
    (completion : list (result (bool * cell * option string))
                  → list (result (bool * cell * option string)))
    (s : sys W) :
  storage_zone a ≠ "" → access_key a ≠ "" →
  ∃ s0 s1,
    trace s0 = trace s ∧ tmp s0 = tmp s ∧ trace s1 = trace s ∧ tmp s1 = tmp s
    ∧ main a (Some (Ok rows)) schedule completion s =
        if bool_decide (rows_to_process a rows = []) then (Ok NothingToDo, s0)
        else if dry_run a then
          match dry_run_sample (start_row a) 0 (take 3 (rows_to_process a rows)) s1 with
          | (Ok _, s2) => (Ok DryRun, s2)
          | (Err e, s2) => (Err e, s2)
          end
        else
          match run_pool (schedule (rows_to_process a rows)) (storage_zone a)
                  (access_key a) (region_host a) (normalize_prefix (dest_path a)) s1 with
          | (Ok results, s2) =>
              match print_results
                      (foldl collect
                         {| success_count := 0; error_count := 0; errors := [] |}
                         (completion results)) s2 with
              | (Ok _, s3) =>
                  (Ok (Done (foldl collect
                               {| success_count := 0; error_count := 0; errors := [] |}
                               (completion results))), s3)
              | (Err e, s3) => (Err e, s3)
              end
          | (Err e, s2) => (Err e, s2)
          end.
Proof.
  intros Hz Hk. unfold main.
  rewrite !bool_decide_false by done. cbn [orb]. cbv zeta.
  fold (rows_to_process a rows). mrun.
  assert (∀ s' : sys W, ∃ s'',
    (if dry_run a then emit Stdout "DRY RUN MODE - No files will be uploaded"
     else mret tt) s' = (Ok tt, s'') ∧ trace s'' = trace s' ∧ tmp s'' = tmp s') as Hdry.
  { intros s'. destruct (dry_run a); by eexists. }
  edestruct Hdry as (s' & -> & Htr' & Htmp'). simpl in Htr', Htmp'. mrun.
  case_bool_decide as Hsel.
  { mrun. eexists _, s. split_and!; [| |done|done|done]; simpl; congruence. }
  destruct (dry_run a).
  - mrun.
    match goal with |- context [dry_run_sample _ _ _ ?s1] =>
      exists s, s1; split_and!; [done|done|simpl; congruence|simpl; congruence|]
    end.
    by destruct (dry_run_sample _ _ _ _) as [[[]|e] s2].
  - mrun.
    match goal with |- context [run_pool _ _ _ _ _ ?s1] =>
      exists s, s1; split_and!; [done|done|simpl; congruence|simpl; congruence|]
    end.
    destruct (run_pool _ _ _ _ _ _) as [[results|e] s2]; [|done]. mrun.
    by destruct (print_results _ s2) as [[[]|e] s3].
Qed.

End csv_pool.

Section csv_whole_run.
Context {W : Type} {remote : Network W}.
Import CsvHog.

(** What a run of [main] on a readable file sends. *)
Lemma csv_main_events (a : args) (rows : list row)
    (schedule : list row → list row)
    (completion : list (result (bool * cell * option string))
                  → list (result (bool * cell * option string)))
    (s : sys W) :
  (∀ l, schedule l ≡ₚ l) →
  ∃ evs,
    trace (main a (Some (Ok rows)) schedule completion s).2 = trace s ++ evs
    ∧ (length evs ≤ length (rows_to_process a rows))%nat
    ∧ Forall is_put evs
    ∧ (dry_run a = true → evs = [])
    ∧ ((main a (Some (Ok rows)) schedule completion s).1 = Ok Exit1 →
       storage_zone a = "" ∨ access_key a = "").
Proof.
  intros Hsched.
  destruct (decide (storage_zone a = "")) as [Hz|Hz];
    [|destruct (decide (access_key a = "")) as [Hk|Hk]].
  - exists []. rewrite app_nil_r. unfold main. rewrite (bool_decide_true _ Hz).
    split_and!; try done; [simpl; lia|by left].
  - exists []. rewrite app_nil_r. unfold main.
    rewrite (bool_decide_true _ Hk), orb_true_r.
    split_and!; try done; [simpl; lia|by right].
  - destruct (csv_main_rows_run a rows schedule completion s Hz Hk)
      as (s0 & s1 & Htr0 & _ & Htr1 & _ & ->).
    case_bool_decide as Hsel.
    { exists []. rewrite app_nil_r. split_and!; try done. simpl. lia. }
    destruct (dry_run a).
    + destruct (csv_dry_run_sample (start_row a) 0 (take 3 (rows_to_process a rows)) s1)
        as (Htr & _).
      exists []. rewrite app_nil_r.
      destruct (dry_run_sample _ _ _ s1) as [[[]|e] s2]; simpl in *;
        (split_and!; [congruence|lia|done|done|done]).
    + destruct (csv_run_pool_events (schedule (rows_to_process a rows)) (storage_zone a)
                  (access_key a) (region_host a) (normalize_prefix (dest_path a)) s1)
        as (results & s2 & evs & -> & _ & Htr2 & _ & Hlen & Hput & _).
      destruct (csv_print_results_run
                  (foldl collect {| success_count := 0; error_count := 0; errors := [] |}
                     (completion results)) s2) as (s3 & -> & _ & Htr3 & _).
      exists evs. simpl. split_and!; try done.
      * by rewrite Htr3, Htr2, Htr1.
      * by rewrite <-(Permutation_length (Hsched _)).
Qed.

End csv_whole_run.

(** X16.  Row selection of [csv-to-json-to-cdn-hog.py], for a start row
    and a row limit that are not negative: the rows processed are the rows
    from [start_row] on, cut to the first [max_rows] of them when
    [--max-rows] is given and not 0.  A run sends only uploads, at most one
    per selected row, hence at most [max_rows] of them. *)
Theorem max_rows_caps_uploads (W : Type) (remote : Network W) (a : CsvHog.args)
    (rows : list CsvHog.row) (schedule : list CsvHog.row → list CsvHog.row)
    (completion : list (result (bool * cell * option string))
                  → list (result (bool * cell * option string)))
    (s : sys W) :
  0 ≤ CsvHog.start_row a →
  (∀ m, CsvHog.max_rows a = Some m → 0 ≤ m) →
  (∀ l, schedule l ≡ₚ l) →
  rows_to_process a rows
  = match CsvHog.max_rows a with
    | Some m =>
        if bool_decide (m = 0) then drop (Z.to_nat (CsvHog.start_row a)) rows
        else take (Z.to_nat m) (drop (Z.to_nat (CsvHog.start_row a)) rows)
    | None => drop (Z.to_nat (CsvHog.start_row a)) rows
    end
  ∧ ∃ evs,
      trace (CsvHog.main a (Some (Ok rows)) schedule completion s).2 = trace s ++ evs
      ∧ Forall is_put evs
      ∧ (length evs ≤ length (rows_to_process a rows))%nat
      ∧ (∀ m, CsvHog.max_rows a = Some m → 0 < m → Z.of_nat (length evs) ≤ m).
Proof.
  intros Hstart Hlimit Hsched.
  pose proof (csv_rows_to_process a rows Hstart Hlimit) as Hsel.
  split; [done|].
  destruct (csv_main_events a rows schedule completion s Hsched)
    as (evs & Htr & Hlen & Hput & _).
  exists evs. split_and!; try done.
  intros m Hm Hpos. rewrite Hsel, Hm, bool_decide_false in Hlen by lia.
  rewrite length_take in Hlen. lia.
Qed.

Lemma max_rows_caps_uploads_witness :
  let a := csv_args 1 (Some 2) false in
  let rows := [hog_row "HOG #1"; hog_row "HOG #2"; hog_row "HOG #3"; hog_row "HOG #4"] in
  let run := CsvHog.main (remote := table_network (empty_source [])) a (Some (Ok rows))
               id id (boot tt) in
  put_urls (trace run.2)
  = ["https://storage.bunnycdn.com/zone/hog_jsons/2.json";
     "https://storage.bunnycdn.com/zone/hog_jsons/3.json"]
  ∧ rows_to_process a rows = take (Z.to_nat 2) (drop (Z.to_nat 1) rows)
  ∧ ∃ evs,
      trace run.2 = trace (boot tt) ++ evs
      ∧ Forall is_put evs
      ∧ (length evs ≤ length (rows_to_process a rows))%nat
      ∧ (∀ m, Some 2 = Some m → 0 < m → Z.of_nat (length evs) ≤ m).
Proof.
  intros a rows run. split; [by vm_compute|].
  apply (max_rows_caps_uploads unit (table_network (empty_source [])) a rows id id (boot tt)).
  - cbn. lia.
  - intros m [= <-]. lia.
  - done.
Defined.

(** X17.  With [--dry-run] and credentials given,
    [csv-to-json-to-cdn-hog.py] sends no request and writes no file.  It
    returns early when no row is selected, returns after printing the
    sample when none of the first three selected rows lacks its [Name], and
    ends with the uncaught [TypeError] when one of them does. *)
Theorem dry_run_sends_nothing (W : Type) (remote : Network W) (a : CsvHog.args)
    (rows : list CsvHog.row) (schedule : list CsvHog.row → list CsvHog.row)
    (completion : list (result (bool * cell * option string))
                  → list (result (bool * cell * option string)))
    (s : sys W) :
  CsvHog.dry_run a = true →
  CsvHog.storage_zone a ≠ "" → CsvHog.access_key a ≠ "" →
  let run := CsvHog.main a (Some (Ok rows)) schedule completion s in
  trace run.2 = trace s
  ∧ tmp run.2 = tmp s
  ∧ (rows_to_process a rows = [] → run.1 = Ok CsvHog.NothingToDo)
  ∧ (rows_to_process a rows ≠ [] →
     Forall (λ r, r !! "Name" ≠ Some PyNone) (take 3 (rows_to_process a rows)) →
     run.1 = Ok CsvHog.DryRun)
  ∧ (Exists (λ r, r !! "Name" = Some PyNone) (take 3 (rows_to_process a rows)) →
     run.1 = Err none_not_iterable).
Proof.
  intros Hdry Hz Hk run. unfold run.
  destruct (csv_main_rows_run a rows schedule completion s Hz Hk)
    as (s0 & s1 & Htr0 & Htmp0 & Htr1 & Htmp1 & ->).
  rewrite Hdry.
  destruct (csv_dry_run_sample (CsvHog.start_row a) 0 (take 3 (rows_to_process a rows)) s1)
    as (Htr & Htmp & Hok & Herr).
  case_bool_decide as Hsel.
  - simpl. split_and!; try done.
    rewrite Hsel. by intros ?%Exists_nil.
  - destruct (CsvHog.dry_run_sample _ _ _ s1) as [[[]|e] s2]; simpl in *.
    + split_and!; try congruence. intros Hex. by specialize (Herr Hex).
    + split_and!; try congruence.
      * intros _ Hall. by specialize (Hok Hall).
      * intros Hex. by injection (Herr Hex) as ->.
Qed.

Lemma dry_run_sends_nothing_witness :
  let a := csv_args 0 None true in
  let rows := [hog_row "HOG #1"; {[ "Name" := PyNone ]}; hog_row "HOG #3"] in
  let run := CsvHog.main (remote := table_network (empty_source [])) a (Some (Ok rows))
               id id (boot tt) in
  run.1 = Err none_not_iterable ∧ trace run.2 = [] ∧ tmp run.2 = None.
Proof.
  intros a rows run.
  destruct (dry_run_sends_nothing unit (table_network (empty_source [])) a rows id id
              (boot tt)) as (Htr & Htmp & _ & _ & Herr); [done|discriminate|discriminate|].
  split; [|by split].
  apply Herr. apply Exists_cons. right. apply Exists_cons. left. by vm_compute.
Defined.

(** X18.  When [csv-to-json-to-cdn-hog.py] reaches its report, in whatever
    order the pool started the tasks and handed back their results: the run
    sent only uploads; the number of successes is the number of uploads
    answered 200 or 201; every other selected row is counted as an error and
    has its line in the error list; and the two totals printed are these
    numbers. *)
Theorem report_matches_the_uploads (W : Type) (remote : Network W) (a : CsvHog.args)
    (rows : list CsvHog.row) (schedule : list CsvHog.row → list CsvHog.row)
    (completion : list (result (bool * cell * option string))
                  → list (result (bool * cell * option string)))
    (s s' : sys W) (t : CsvHog.tally) :
  (∀ l, schedule l ≡ₚ l) → (∀ l, completion l ≡ₚ l) →
  CsvHog.main a (Some (Ok rows)) schedule completion s = (Ok (CsvHog.Done t), s') →
  ∃ evs,
    trace s' = trace s ++ evs
    ∧ Forall is_put evs
    ∧ CsvHog.success_count t = uploads_accepted evs
    ∧ CsvHog.error_count t
      = Z.of_nat (length (rows_to_process a rows)) - uploads_accepted evs
    ∧ CsvHog.error_count t = Z.of_nat (length (CsvHog.errors t))
    ∧ printed Stdout ("Successfully uploaded: " +:+ Py.str (uploads_accepted evs)) s' = true
    ∧ printed Stdout ("Errors: " +:+ Py.str (Z.of_nat (length (CsvHog.errors t)))) s' = true.
Proof.
  intros Hsched Hcompl Hrun.
  destruct (decide (CsvHog.storage_zone a = "")) as [Hz|Hz].
  { unfold CsvHog.main in Hrun. by rewrite (bool_decide_true _ Hz) in Hrun. }
  destruct (decide (CsvHog.access_key a = "")) as [Hk|Hk].
  { unfold CsvHog.main in Hrun.
    by rewrite (bool_decide_true _ Hk), orb_true_r in Hrun. }
  destruct (csv_main_rows_run a rows schedule completion s Hz Hk)
    as (s0 & s1 & _ & _ & Htr1 & _ & Hmain).
  rewrite Hmain in Hrun. clear Hmain.
  case_bool_decide as Hsel; [done|].
  destruct (CsvHog.dry_run a).
  { by destruct (CsvHog.dry_run_sample _ _ _ s1) as [[[]|e] s2]. }
  destruct (csv_run_pool_events (schedule (rows_to_process a rows)) (CsvHog.storage_zone a)
              (CsvHog.access_key a) (CsvHog.region_host a)
              (normalize_prefix (CsvHog.dest_path a)) s1)
    as (results & s2 & evs & Hpool & Hlen & Htr2 & _ & _ & Hput & Hsucc).
  rewrite Hpool in Hrun.
  set (t0 := {| CsvHog.success_count := 0; CsvHog.error_count := 0;
                CsvHog.errors := [] |}) in *.
  destruct (csv_print_results_run (foldl CsvHog.collect t0 (completion results)) s2)
    as (s3 & Hprint & Hout & Htr3 & _).
  rewrite Hprint in Hrun. injection Hrun as <- <-.
  destruct (csv_collect_fold (completion results) t0) as (Hs & He & Hl).
  rewrite (successes_Permutation _ _ (Hcompl results)) in Hs, He, Hl.
  rewrite (Permutation_length (Hcompl results)), Hlen,
    (Permutation_length (Hsched _)) in He, Hl.
  simpl in Hs, He, Hl.
  assert (CsvHog.error_count (foldl CsvHog.collect t0 (completion results))
          = Z.of_nat (length (CsvHog.errors (foldl CsvHog.collect t0 (completion results)))))
    as Heq by lia.
  exists evs. split_and!.
  - by rewrite Htr3, Htr2, Htr1.
  - done.
  - lia.
  - lia.
  - done.
  - apply bool_decide_eq_true. rewrite Hout. apply elem_of_app. right.
    unfold report_lines. rewrite Hs, Hsucc. simpl.
    apply elem_of_cons. right. apply elem_of_cons. by left.
  - apply bool_decide_eq_true. rewrite Hout. apply elem_of_app. right.
    unfold report_lines. rewrite <-Heq. simpl.
    apply elem_of_cons. right. apply elem_of_cons. right. apply elem_of_cons. by left.
Qed.

Lemma report_matches_the_uploads_witness :
  let a := csv_args 0 None false in
  let rows := [hog_row "HOG #1"; hog_row "HOG #2"; hog_row "HOG #3"] in
  let run := CsvHog.main (remote := table_network (hog_dense_prefix 0 [2])) a
               (Some (Ok rows)) id reverse (boot tt) in
  let t := {| CsvHog.success_count := 2; CsvHog.error_count := 1;
              CsvHog.errors :=
                ["HOG #2: Bunny upload failed (500): Internal Server Error"] |} in
  ∃ evs,
    trace run.2 = trace (boot tt) ++ evs
    ∧ Forall is_put evs
    ∧ CsvHog.success_count t = uploads_accepted evs
    ∧ CsvHog.error_count t
      = Z.of_nat (length (rows_to_process a rows)) - uploads_accepted evs
    ∧ CsvHog.error_count t = Z.of_nat (length (CsvHog.errors t))
    ∧ printed Stdout ("Successfully uploaded: " +:+ Py.str (uploads_accepted evs)) run.2
      = true
    ∧ printed Stdout ("Errors: " +:+ Py.str (Z.of_nat (length (CsvHog.errors t)))) run.2
      = true.
Proof.
  intros a rows run t.
  apply (report_matches_the_uploads unit (table_network (hog_dense_prefix 0 [2])) a rows
           id reverse (boot tt) run.2 t).
  - done.
  - intros l. apply reverse_Permutation.
  - by vm_compute.
Defined.

